(** * MediaWiki MCP Server: the authentication-aware request core

    A shallow embedding of [src/common/utils.ts] (with the [WikiConfig]
    record of [src/common/config.ts]) and the properties of its credential
    resolver, cookie lookup, URL builder and best-effort fetch helpers.

    JavaScript objects live in a store and are passed by reference, so that
    aliasing and in-place updates ([Object.assign]) are visible.  The
    collaborators the module imports ([wikiService], [getMwn], [fetch],
    [USER_AGENT]) are fields of an environment record; every call to one of
    them is recorded in the state. *)

From Stdlib Require Import String Ascii List NArith DecimalString.
From Stdlib.Strings Require Import Byte.
From stdpp Require Import gmap strings list fin_maps.

Local Open Scope string_scope.
Set Warnings "-register-all".

(** ** JavaScript values and objects *)

(** A value of TypeScript's [unknown], as far as a JSON body carries it.
    Nested values are immutable here: the module only ever copies them. *)
Inductive JsValue : Type :=
  | JNull
  | JBool (b : bool)
  | JNum (n : Z)
  | JStr (s : string)
  | JArr (items : list JsValue)
  | JObj (fields : list (string * JsValue)).

(** [Record<string, unknown>]; a [Record<string, string>] holds [JStr]s. *)
Abbreviation Obj := (gmap string JsValue).

(** An optional field that JSON may also set to [null]. *)
Inductive Nullable (A : Type) : Type :=
  | Undefined
  | Null
  | Value (a : A).
Arguments Undefined {A}.
Arguments Null {A}.
Arguments Value {A} a.

(** JavaScript truthiness of the values the module tests. *)
Definition truthyString (s : string) : bool :=
  match s with
  | EmptyString => false
  | String _ _ => true
  end.

Definition truthyOptString (o : option string) : bool :=
  match o with
  | Some s => truthyString s
  | None => false
  end.

Definition truthyOptBool (o : option bool) : bool :=
  match o with
  | Some b => b
  | None => false
  end.

(** ** config.ts *)

Record WikiConfig : Type := {
  sitename : string;
  server : string;
  articlepath : string;
  scriptpath : string;
  restpath : option string;
  token : Nullable string;
  username : Nullable string;
  password : Nullable string;
  private : option bool
}.

(** ** Errors, results and the collaborators *)

(** A thrown [Error], identified by its message. *)
Record Exn : Type := Error { message : string }.

Inductive Result (A : Type) : Type :=
  | Ok (a : A)
  | Err (e : Exn).
Arguments Ok {A} a.
Arguments Err {A} e.

(** The cookie jar of the session client: [getCookieStringSync] gives the
    cookie header for a URL, the empty string when no cookie matches. *)
Record CookieJar : Type := {
  getCookieStringSync : string -> string
}.

(** The session client returned by [getMwn()]. *)
Record Mwn : Type := {
  cookieJar : option CookieJar;
  mwnGetCsrfToken : Result string     (* outcome of [mwn.getCsrfToken()] *)
}.

(** What [fetch] is called with: the URL and the [fetchOptions] object,
    its headers as they are at the time of the call. *)
Record Request : Type := {
  reqUrl : string;
  reqHeaders : Obj;
  reqMethod : string;
  reqBody : option string
}.

(** A node-fetch [Response]; each body reader either resolves or rejects. *)
Record Response : Type := {
  status : N;
  url : string;
  text : Result string;
  json : Result JsValue;
  arrayBuffer : Result (list byte)
}.

(** node-fetch: [ok] is [status >= 200 && status < 300]. *)
Definition ok (r : Response) : bool :=
  ((200 <=? status r) && (status r <? 300))%N.

(** The module's imports.  [getMwn] and [fetch] are indexed by the number
    of calls made before, so that successive calls may differ.  The
    selected wiki is the same throughout one run: [withAuth] and
    [getCookiesFromJar] each read [wikiService.getCurrent().config] and get
    the same record.  [JSON.stringify] and [URLSearchParams] are left
    abstract. *)
Record Env : Type := {
  USER_AGENT : string;
  currentConfig : WikiConfig;                  (* wikiService.getCurrent().config *)
  getMwnOutcome : nat -> Result Mwn;
  fetchOutcome : nat -> Request -> Result Response;
  JSON_stringify : Obj -> string;
  URLSearchParams_toString : gmap string string -> string
}.

(** ** The state threaded through the module *)

(** A reference to an object of the store: its index. *)
Abbreviation Ref := nat (only parsing).

Record State : Type := {
  heap : list Obj;             (* the object store *)
  mwnCalls : nat;              (* calls of [getMwn()] so far *)
  jarQueries : list string;    (* URLs asked of the cookie jar, oldest first *)
  sent : list Request          (* requests handed to [fetch], oldest first *)
}.

(** A computation reads the environment, updates the state, and returns or
    throws. *)
Definition M (A : Type) : Type := Env -> State -> Result A * State.

Definition ret {A} (a : A) : M A := fun _ s => (Ok a, s).

Definition throw {A} (e : Exn) : M A := fun _ s => (Err e, s).

Definition bind {A B} (c : M A) (k : A -> M B) : M B :=
  fun env s =>
    match c env s with
    | (Ok a, s') => k a env s'
    | (Err e, s') => (Err e, s')
    end.

Notation "x <- c ;; k" := (bind c (fun x => k))
  (at level 100, c at next level, right associativity).

(** [try { c } catch { h }] *)
Definition tryCatch {A} (c : M A) (h : Exn -> M A) : M A :=
  fun env s =>
    match c env s with
    | (Ok a, s') => (Ok a, s')
    | (Err e, s') => h e env s'
    end.

(** Settling a promise that is already decided. *)
Definition await {A} (r : Result A) : M A := fun _ s => (r, s).

Definition ask : M Env := fun env s => (Ok env, s).

(** An object literal: a new object in the store. *)
Definition alloc (o : Obj) : M Ref :=
  fun _ s =>
    (Ok (length (heap s)),
     {| heap := heap s ++ [o]; mwnCalls := mwnCalls s;
        jarQueries := jarQueries s; sent := sent s |}).

(** The own properties of an object ([∅] for a reference into nothing,
    which no JavaScript program can hold). *)
Definition readObj (s : State) (r : Ref) : Obj := default ∅ (heap s !! r).

Definition load (r : Ref) : M Obj := fun _ s => (Ok (readObj s r), s).

(** In-place update of an object. *)
Definition store (r : Ref) (o : Obj) : M unit :=
  fun _ s =>
    (Ok tt,
     {| heap := <[r := o]> (heap s); mwnCalls := mwnCalls s;
        jarQueries := jarQueries s; sent := sent s |}).

(** [{ ...src, key: v }] *)
Definition spreadWith (src : Ref) (key : string) (v : JsValue) : M Ref :=
  o <- load src ;;
  alloc (<[key := v]> o).

(** [Object.assign(target, source)]: the source's entries overwrite. *)
Definition Object_assign (target source : Ref) : M unit :=
  t <- load target ;;
  o <- load source ;;
  store target (o ∪ t).

Definition getMwn : M Mwn :=
  fun env s =>
    (getMwnOutcome env (mwnCalls s),
     {| heap := heap s; mwnCalls := S (mwnCalls s);
        jarQueries := jarQueries s; sent := sent s |}).

Definition jarLookup (jar : CookieJar) (u : string) : M string :=
  fun _ s =>
    (Ok (getCookieStringSync jar u),
     {| heap := heap s; mwnCalls := mwnCalls s;
        jarQueries := jarQueries s ++ [u]; sent := sent s |}).

Definition fetch (rq : Request) : M Response :=
  fun env s =>
    (fetchOutcome env (length (sent s)) rq,
     {| heap := heap s; mwnCalls := mwnCalls s;
        jarQueries := jarQueries s; sent := sent s ++ [rq] |}).

(** ** utils.ts *)

Record RequestConfig : Type := {
  headers : Ref;
  body : option Ref
}.

Definition getCsrfToken : M string :=
  mwn <- getMwn ;;
  await (mwnGetCsrfToken mwn).

(** [mwn.cookieJar] is tested for truthiness: an object, or nothing. *)
Definition getCookiesFromJar : M (option string) :=
  mwn <- getMwn ;;
  match cookieJar mwn with
  | None => ret None
  | Some jar =>
      env <- ask ;;
      let cfg := currentConfig env in
      let restApiUrl :=
        match restpath cfg with
        | Some r =>
            if truthyString r then server cfg ++ r
            else server cfg ++ scriptpath cfg ++ "/rest.php"
        | None => server cfg ++ scriptpath cfg ++ "/rest.php"
        end in
      cookies <- jarLookup jar restApiUrl ;;
      if truthyString cookies then ret (Some cookies)
      else
        fallback <- jarLookup jar (server cfg) ;;
        ret (if truthyString fallback then Some fallback else None)
  end.

Definition getRestApiBase : M string :=
  env <- ask ;;
  let cfg := currentConfig env in
  ret match restpath cfg with
      | Some r =>
          if truthyString r then server cfg ++ r
          else server cfg ++ scriptpath cfg ++ "/rest.php"
      | None => server cfg ++ scriptpath cfg ++ "/rest.php"
      end.

(** The three ways out of the first two tests; the cookie path then asks
    the jar. *)
Definition withAuth (hdrs : Ref) (bdy : option Ref) (needAuth : bool)
  : M RequestConfig :=
  env <- ask ;;
  let privateWiki := private (currentConfig env) in
  let tok := token (currentConfig env) in
  if negb needAuth && negb (truthyOptBool privateWiki)
  then ret {| headers := hdrs; body := bdy |}
  else
    match tok with
    | Value t =>
        h <- spreadWith hdrs "Authorization" (JStr ("Bearer " ++ t)) ;;
        ret {| headers := h; body := bdy |}
    | _ =>
        cookies <- getCookiesFromJar ;;
        match cookies with
        | None => ret {| headers := hdrs; body := bdy |}
        | Some c =>
            h <- spreadWith hdrs "Cookie" (JStr c) ;;
            match bdy with
            | Some b =>
                o <- load b ;;
                csrf <- getCsrfToken ;;
                b' <- alloc (<["token" := JStr csrf]> o) ;;
                ret {| headers := h; body := Some b' |}
            | None => ret {| headers := h; body := bdy |}
            end
        end
    end.

(** The [options] argument of [fetchCore]; [params] is only read and is
    passed by value. *)
Record FetchOptions : Type := {
  params : option (gmap string string);
  optHeaders : option Ref;
  optBody : option Ref;
  method : option string
}.

Definition noOptions : FetchOptions :=
  {| params := None; optHeaders := None; optBody := None; method := None |}.

(** [`${ n }`] for a status code: its decimal digits. *)
Definition showN (n : N) : string := NilZero.string_of_uint (N.to_uint n).

Definition fetchCore (baseUrl : string) (options : FetchOptions)
  : M Response :=
  env <- ask ;;
  let target := baseUrl in
  let target :=
    if String.prefix "//" target then "https:" ++ target else target in
  let target :=
    match params options with
    | Some p =>
        let queryString := URLSearchParams_toString env p in
        if truthyString queryString then target ++ "?" ++ queryString
        else target
    | None => target
    end in
  requestHeaders <- alloc {[ "User-Agent" := JStr (USER_AGENT env) ]} ;;
  _ <- match optHeaders options with
       | Some h => Object_assign requestHeaders h
       | None => ret tt
       end ;;
  let fetchMethod :=
    match method options with
    | Some m => if truthyString m then m else "GET"
    | None => "GET"
    end in
  fetchBody <- match optBody options with
               | Some b => o <- load b ;; ret (Some (JSON_stringify env o))
               | None => ret None
               end ;;
  sentHeaders <- load requestHeaders ;;
  response <- fetch {| reqUrl := target; reqHeaders := sentHeaders;
                       reqMethod := fetchMethod; reqBody := fetchBody |} ;;
  if negb (ok response) then
    errorBody <- tryCatch (await (text response))
                   (fun _ => ret "Could not read error response body") ;;
    throw (Error ("HTTP error! status: " ++ showN (status response)
                  ++ " for URL: " ++ url response
                  ++ ". Response: " ++ errorBody))
  else ret response.

Definition makeApiRequest (url : string) (prms : option (gmap string string))
  : M JsValue :=
  h <- alloc {[ "Accept" := JStr "application/json" ]} ;;
  response <- fetchCore url {| params := prms; optHeaders := Some h;
                               optBody := None; method := None |} ;;
  await (json response).

Definition makeRestGetRequest (path : string)
    (prms : option (gmap string string)) (needAuth : bool) : M JsValue :=
  hdrs <- alloc {[ "Accept" := JStr "application/json" ]} ;;
  auth <- withAuth hdrs None needAuth ;;
  base <- getRestApiBase ;;
  response <- fetchCore (base ++ path)
                {| params := prms; optHeaders := Some (headers auth);
                   optBody := None; method := None |} ;;
  await (json response).

Definition makeRestPutRequest (path : string) (bdy : Ref) (needAuth : bool)
  : M JsValue :=
  hdrs <- alloc (<["Content-Type" := JStr "application/json"]>
                   {[ "Accept" := JStr "application/json" ]}) ;;
  auth <- withAuth hdrs (Some bdy) needAuth ;;
  base <- getRestApiBase ;;
  response <- fetchCore (base ++ path)
                {| params := None; optHeaders := Some (headers auth);
                   optBody := body auth; method := Some "PUT" |} ;;
  await (json response).

Definition makeRestPostRequest (path : string) (bdy : option Ref)
    (needAuth : bool) : M JsValue :=
  hdrs <- alloc (<["Content-Type" := JStr "application/json"]>
                   {[ "Accept" := JStr "application/json" ]}) ;;
  auth <- withAuth hdrs bdy needAuth ;;
  base <- getRestApiBase ;;
  response <- fetchCore (base ++ path)
                {| params := None; optHeaders := Some (headers auth);
                   optBody := body auth; method := Some "POST" |} ;;
  await (json response).

(** [Buffer.prototype.toString('base64')]: RFC 4648, with padding. *)
Definition base64Alphabet : string :=
  "ABCDEFGHIJKLMNOPQRSTUVWXYZabcdefghijklmnopqrstuvwxyz0123456789+/".

Definition base64Digit (n : N) : ascii :=
  match String.get (N.to_nat n) base64Alphabet with
  | Some c => c
  | None => "="%char
  end.

Fixpoint toBase64 (bytes : list byte) : string :=
  match bytes with
  | [] => ""
  | [a] =>
      let n := (Byte.to_N a * 65536)%N in
      String (base64Digit (n / 262144))
        (String (base64Digit (n / 4096 mod 64)) "==")
  | [a; b] =>
      let n := (Byte.to_N a * 65536 + Byte.to_N b * 256)%N in
      String (base64Digit (n / 262144))
        (String (base64Digit (n / 4096 mod 64))
           (String (base64Digit (n / 64 mod 64)) "="))
  | a :: b :: c :: rest =>
      let n := (Byte.to_N a * 65536 + Byte.to_N b * 256 + Byte.to_N c)%N in
      String (base64Digit (n / 262144))
        (String (base64Digit (n / 4096 mod 64))
           (String (base64Digit (n / 64 mod 64))
              (String (base64Digit (n mod 64)) (toBase64 rest))))
  end.

Definition fetchPageHtml (url : string) : M (option string) :=
  tryCatch
    (response <- fetchCore url noOptions ;;
     t <- await (text response) ;;
     ret (Some t))
    (fun _ => ret None).

Definition fetchImageAsBase64 (url : string) : M (option string) :=
  tryCatch
    (response <- fetchCore url noOptions ;;
     arrayBuf <- await (arrayBuffer response) ;;
     let buffer := arrayBuf in
     ret (Some (toBase64 buffer)))
    (fun _ => ret None).

Definition formatEditComment (tool : string) (comment : option string)
  : string :=
  let suffix := "(via " ++ tool ++ " on MediaWiki MCP Server)" in
  match comment with
  | Some c =>
      if truthyString c then c ++ " " ++ suffix
      else "Automated edit " ++ suffix
  | None => "Automated edit " ++ suffix
  end.

(** [String.prototype.includes] *)
Fixpoint includes (s sub : string) : bool :=
  String.prefix sub s ||
  match s with
  | EmptyString => false
  | String _ rest => includes rest sub
  end.

(** ** The authentication modes *)

Inductive AuthMode : Type :=
  | NoAuth
  | BearerToken
  | CookieCsrf.

(** The mode as the invariant of the data model words it: a function of
    [needAuth], [config.private] and [config.token]. *)
Definition authMode (needAuth : bool) (privateWiki : option bool)
    (tok : Nullable string) : AuthMode :=
  if negb needAuth && negb (truthyOptBool privateWiki) then NoAuth
  else match tok with
       | Value _ => BearerToken
       | _ => CookieCsrf
       end.

(** The mode a call is seen to take, read off what it did: only the cookie
    path asks for the session client, and of the other two only the bearer
    path builds an object. *)
Definition observedMode (before after : State) : AuthMode :=
  if (mwnCalls before <? mwnCalls after)%nat then CookieCsrf
  else if (length (heap before) <? length (heap after))%nat then BearerToken
  else NoAuth.

(** A state with another store. *)
Definition withHeap (hp : list Obj) (s : State) : State :=
  {| heap := hp; mwnCalls := mwnCalls s; jarQueries := jarQueries s;
     sent := sent s |}.

(** The headers object of [makeRestPutRequest] and [makeRestPostRequest]. *)
Definition jsonHeaders : Obj :=
  <["Content-Type" := JStr "application/json"]>
    {[ "Accept" := JStr "application/json" ]}.

(** A request that carries the identifying header, and a run that sent
    only such requests. *)
Definition identified (env : Env) (rq : Request) : Prop :=
  reqHeaders rq !! "User-Agent" = Some (JStr (USER_AGENT env)).

Definition sendsIdentified (env : Env) (before after : State) : Prop :=
  exists new : list Request,
    sent after = (sent before ++ new)%list /\ Forall (identified env) new.

(** The store only ever grows at its end. *)
Definition extends (before after : State) : Prop :=
  exists fresh : list Obj, heap after = (heap before ++ fresh)%list.

(** ** Page URLs *)

(** [encodeURIComponent] reads its argument one UTF-16 code unit at a time
    and throws on a surrogate that is not half of a pair, so a title is the
    list of its code units, each below 65536.  (The other strings of the
    module are only compared and put together, and stay [string]s.) *)
Definition JsString : Type := list N.

Definition codeUnits (s : JsString) : Prop := Forall (fun c => (c < 65536)%N) s.

(** The code units of a literal of ASCII characters. *)
Definition units (s : string) : JsString :=
  map N_of_ascii (list_ascii_of_string s).

Definition isLeadSurrogate (c : N) : bool := ((55296 <=? c) && (c <=? 56319))%N.

Definition isTrailSurrogate (c : N) : bool := ((56320 <=? c) && (c <=? 57343))%N.

(** A string is well formed when every surrogate is half of a pair, a
    leading one followed by a trailing one. *)
Fixpoint isWellFormed (s : JsString) : bool :=
  match s with
  | [] => true
  | c :: rest =>
      if isTrailSurrogate c then false
      else if isLeadSurrogate c then
        match rest with
        | d :: rest' => isTrailSurrogate d && isWellFormed rest'
        | [] => false
        end
      else isWellFormed rest
  end.

(** Left as they are: letters, digits and [- _ . ! ~ * ' ( )]. *)
Definition uriUnreserved (c : ascii) : bool :=
  let n := N_of_ascii c in
  ((65 <=? n) && (n <=? 90) || (97 <=? n) && (n <=? 122)
   || (48 <=? n) && (n <=? 57))%N
  || existsb (Ascii.eqb c) (list_ascii_of_string "-_.!~*'()").

Definition hexDigit (n : N) : ascii :=
  match String.get (N.to_nat n) "0123456789ABCDEF" with
  | Some c => c
  | None => "0"%char
  end.

(** The octets of a code point in UTF-8. *)
Definition utf8 (cp : N) : list N :=
  (if cp <? 128 then [cp]
   else if cp <? 2048 then [192 + cp / 64; 128 + cp mod 64]
   else if cp <? 65536
        then [224 + cp / 4096; 128 + cp / 64 mod 64; 128 + cp mod 64]
        else [240 + cp / 262144; 128 + cp / 4096 mod 64;
              128 + cp / 64 mod 64; 128 + cp mod 64])%N.

(** Each octet as [%XX], in front of what follows. *)
Fixpoint escapeOctets (octets : list N) (rest : string) : string :=
  match octets with
  | [] => rest
  | o :: octets' =>
      String "%" (String (hexDigit (o / 16))
                    (String (hexDigit (o mod 16)) (escapeOctets octets' rest)))
  end.

(** The [URIError] thrown for a string that is not well formed, with the
    message Node gives it. *)
Definition URIError : Exn := Error "URI malformed".

(** The code point of a surrogate pair. *)
Definition pairToCodePoint (lead trail : N) : N :=
  ((lead - 55296) * 1024 + (trail - 56320) + 65536)%N.

Definition isUnreservedUnit (c : N) : bool :=
  (c <? 128)%N && uriUnreserved (ascii_of_N c).

(** The built-in, unit by unit: an unreserved unit is kept; any other is
    read as a code point (alone, or with the trailing surrogate after it)
    and written as the escaped octets of its UTF-8 form; a surrogate
    without its other half throws. *)
Fixpoint encodeURIComponent (s : JsString) : Result string :=
  match s with
  | [] => Ok ""
  | c :: rest =>
      if isUnreservedUnit c then
        match encodeURIComponent rest with
        | Ok r => Ok (String (ascii_of_N c) r)
        | Err e => Err e
        end
      else if isTrailSurrogate c then Err URIError
      else if isLeadSurrogate c then
        match rest with
        | d :: rest' =>
            if isTrailSurrogate d then
              match encodeURIComponent rest' with
              | Ok r => Ok (escapeOctets (utf8 (pairToCodePoint c d)) r)
              | Err e => Err e
              end
            else Err URIError
        | [] => Err URIError
        end
      else
        match encodeURIComponent rest with
        | Ok r => Ok (escapeOctets (utf8 c) r)
        | Err e => Err e
        end
  end.

Definition getPageUrl (title : JsString) : M string :=
  env <- ask ;;
  let cfg := currentConfig env in
  match encodeURIComponent title with
  | Ok escaped => ret (server cfg ++ articlepath cfg ++ "/" ++ escaped)
  | Err e => throw e
  end.

(** Reading an escaped component back, to tell encoded titles apart. *)
Definition hexValue (c : ascii) : N :=
  let n := N_of_ascii c in
  (if (48 <=? n) && (n <=? 57) then n - 48 else n - 55)%N.

Fixpoint unescape (s : string) : list N :=
  match s with
  | EmptyString => []
  | String "%" (String hi (String lo rest)) =>
      (hexValue hi * 16 + hexValue lo)%N :: unescape rest
  | String c rest => N_of_ascii c :: unescape rest
  end.

(** The code units that a sequence of UTF-8 octets stands for. *)
Fixpoint fromUTF8 (octets : list N) : JsString :=
  match octets with
  | [] => []
  | b1 :: r =>
      (if b1 <? 128 then b1 :: fromUTF8 r
       else if b1 <? 224 then
         match r with
         | b2 :: r' => ((b1 - 192) * 64 + (b2 - 128)) :: fromUTF8 r'
         | [] => []
         end
       else if b1 <? 240 then
         match r with
         | b2 :: b3 :: r' =>
             ((b1 - 224) * 4096 + (b2 - 128) * 64 + (b3 - 128)) :: fromUTF8 r'
         | _ => []
         end
       else
         match r with
         | b2 :: b3 :: b4 :: r' =>
             let cp := (b1 - 240) * 262144 + (b2 - 128) * 4096
                       + (b3 - 128) * 64 + (b4 - 128) in
             (55296 + (cp - 65536) / 1024)
               :: (56320 + (cp - 65536) mod 1024) :: fromUTF8 r'
         | _ => []
         end)%N
  end.

(** The characters of a string, and those of the base64 alphabet and of an
    escaped URI component. *)
Definition chars (s : string) : list ascii := list_ascii_of_string s.

Definition base64Char (c : ascii) : Prop :=
  In c (chars base64Alphabet) \/ c = "="%char.

Definition uriSafeChar (c : ascii) : Prop :=
  uriUnreserved c = true \/ c = "%"%char.

(** Where a REST call for [path] goes: [fetchCore]'s reading of
    [base + path]. *)
Definition restTarget (base path : string) : string :=
  if String.prefix "//" (base ++ path) then "https:" ++ base ++ path
  else base ++ path.

(** ** Sample wikis and states *)

Module Samples.

(** The first entry of [defaultConfig]. *)
Definition wikipedia : WikiConfig :=
  {| sitename := "Wikipedia"; server := "https://en.wikipedia.org";
     articlepath := "/wiki"; scriptpath := "/w"; restpath := None;
     token := Null; username := Undefined; password := Undefined;
     private := Some false |}.

Definition withToken (t : string) (cfg : WikiConfig) : WikiConfig :=
  {| sitename := sitename cfg; server := server cfg;
     articlepath := articlepath cfg; scriptpath := scriptpath cfg;
     restpath := restpath cfg; token := Value t;
     username := username cfg; password := password cfg;
     private := private cfg |}.

Definition withRestpath (r : string) (cfg : WikiConfig) : WikiConfig :=
  {| sitename := sitename cfg; server := server cfg;
     articlepath := articlepath cfg; scriptpath := scriptpath cfg;
     restpath := Some r; token := token cfg;
     username := username cfg; password := password cfg;
     private := private cfg |}.

Definition asPrivate (cfg : WikiConfig) : WikiConfig :=
  {| sitename := sitename cfg; server := server cfg;
     articlepath := articlepath cfg; scriptpath := scriptpath cfg;
     restpath := restpath cfg; token := token cfg;
     username := username cfg; password := password cfg;
     private := Some true |}.

(** A session whose jar knows one cookie, for the URL [known]. *)
Definition jarFor (known cookie : string) : CookieJar :=
  {| getCookieStringSync := fun u => if String.eqb u known then cookie else "" |}.

Definition session (jar : CookieJar) (csrf : string) : Mwn :=
  {| cookieJar := Some jar; mwnGetCsrfToken := Ok csrf |}.

(** A transport that answers every request with [r]. *)
Definition mkEnv (cfg : WikiConfig) (mwn : Result Mwn)
    (answer : Request -> Result Response) : Env :=
  {| USER_AGENT := "mediawiki-mcp-server/0.1";
     currentConfig := cfg;
     getMwnOutcome := fun _ => mwn;
     fetchOutcome := fun _ => answer;
     JSON_stringify := fun o => match o !! "token" with
                             | Some (JStr t) => "{token:" ++ t ++ "}"
                             | _ => "{}"
                             end;
     URLSearchParams_toString := fun _ => "" |}.

Definition respond (code : N) (at_ : string) (payload : Result string)
  : Response :=
  {| status := code; url := at_; text := payload;
     json := Ok JNull; arrayBuffer := Ok ["h"%byte; "i"%byte] |}.

Definition offline : Request -> Result Response :=
  fun _ => Err (Error "fetch failed").

(** A transport that answers 404 and reports the URL it was asked for;
    the body of the answer cannot be read. *)
Definition notFound : Request -> Result Response :=
  fun rq => Ok (respond 404 (reqUrl rq) (Err (Error "socket hang up"))).

(** A transport that followed a redirect before it got a 404. *)
Definition movedThenMissing : Request -> Result Response :=
  fun _ => Ok (respond 404 "https://en.wikipedia.org/wiki/Moved"
                 (Ok "Not found")).

(** A transport that answers 200 with the text [payload]. *)
Definition serving (payload : string) : Request -> Result Response :=
  fun rq => Ok (respond 200 (reqUrl rq) (Ok payload)).

Definition noSession : Result Mwn := Err (Error "login failed").

(** A bot-password session on Wikipedia: the jar has a cookie for the
    bare origin only. *)
Definition loggedIn : Env :=
  mkEnv wikipedia
    (Ok (session (jarFor "https://en.wikipedia.org" "sid=1") "7d1a0c"))
    offline.

(** A store holding one headers object and one body object. *)
Definition acceptJson : Obj := {[ "Accept" := JStr "application/json" ]}.
Definition editBody : Obj := {[ "source" := JStr "Hello" ]}.

Definition start : State :=
  {| heap := [acceptJson; editBody]; mwnCalls := 0;
     jarQueries := []; sent := [] |}.

(** A caller's headers that name another agent. *)
Definition spoofed : State :=
  {| heap := [{[ "User-Agent" := JStr "curl/8.0" ]}]; mwnCalls := 0;
     jarQueries := []; sent := [] |}.

Definition withHeaders (h : nat) : FetchOptions :=
  {| params := None; optHeaders := Some h; optBody := None;
     method := None |}.

(** A session client that has no cookie jar, one whose jar is empty, and
    one whose CSRF fetch fails. *)
Definition noJar : Mwn :=
  {| cookieJar := None; mwnGetCsrfToken := Ok "7d1a0c" |}.

Definition emptyJar : CookieJar := {| getCookieStringSync := fun _ => "" |}.

Definition csrfDown : Mwn :=
  {| cookieJar := Some (jarFor "https://en.wikipedia.org" "sid=1");
     mwnGetCsrfToken := Err (Error "badtoken") |}.

End Samples.

(** * Properties *)

(** ** Running the monad *)

Ltac run :=
  unfold withAuth, getCookiesFromJar, getRestApiBase, getCsrfToken,
    spreadWith, Object_assign, bind, ret, throw, ask, await, alloc, load,
    store, getMwn, jarLookup, fetch, tryCatch; simpl.

Lemma truthyString_false (s : string) : truthyString s = false <-> s = "".
Proof. destruct s; simpl; split; congruence. Qed.

Lemma truthyString_true (s : string) : truthyString s = true <-> s <> "".
Proof. destruct s; simpl; split; congruence. Qed.

(** ** The credential resolver *)

(** C2.  On a wiki that is not private, a call that does not need
    authentication gets its own headers and body back: the same two
    references, and a state in which nothing has happened. *)
Theorem withAuth_anonymous_passthrough
    (env : Env) (s : State) (hdrs : Ref) (bdy : option Ref) :
  private (currentConfig env) = Some false ->
  withAuth hdrs bdy false env s = (Ok {| headers := hdrs; body := bdy |}, s).
Proof.
  intros Hpub. unfold withAuth, bind, ask. simpl. rewrite Hpub. reflexivity.
Qed.

Lemma withAuth_anonymous_passthrough_witness :
  private (currentConfig
             (Samples.mkEnv (Samples.withToken "s3cret" Samples.wikipedia)
                Samples.noSession Samples.offline)) = Some false /\
  withAuth 0 (Some 1) false
    (Samples.mkEnv (Samples.withToken "s3cret" Samples.wikipedia)
       Samples.noSession Samples.offline) Samples.start
  = (Ok {| headers := 0; body := Some 1 |}, Samples.start).
Proof.
  split; [reflexivity |].
  apply (withAuth_anonymous_passthrough
           (Samples.mkEnv (Samples.withToken "s3cret" Samples.wikipedia)
              Samples.noSession Samples.offline) Samples.start 0 (Some 1)).
  reflexivity.
Defined.

(** With a token configured the resolver still starts with the test for an
    anonymous call: asked without [needAuth] on a wiki that is not private,
    it hands the headers back as they are, with no [Authorization] entry. *)
Lemma withAuth_token_anonymous_counterexample :
  token (currentConfig
           (Samples.mkEnv (Samples.withToken "s3cret" Samples.wikipedia)
              Samples.noSession Samples.offline)) = Value "s3cret" /\
  withAuth 0 (Some 1) false
    (Samples.mkEnv (Samples.withToken "s3cret" Samples.wikipedia)
       Samples.noSession Samples.offline) Samples.start
  = (Ok {| headers := 0; body := Some 1 |}, Samples.start) /\
  readObj Samples.start 0 !! "Authorization" = None.
Proof. split; [reflexivity | split; [reflexivity | vm_compute; reflexivity]]. Qed.

(** C1, amended.  When the token is a string, the resolver returns, and
    returns the body reference it was given, whatever [needAuth] and
    [private] are; every object of the store is as before.  When moreover
    authentication is mandatory ([needAuth], or a private wiki), the
    returned headers are a new object: the input headers with the entry
    [Authorization: Bearer <token>] set. *)
Theorem withAuth_bearer
    (env : Env) (s : State) (hdrs : Ref) (bdy : option Ref)
    (needAuth : bool) (t : string) :
  token (currentConfig env) = Value t ->
  exists rc s',
    withAuth hdrs bdy needAuth env s = (Ok rc, s') /\
    body rc = bdy /\
    (forall (r : nat) (o : Obj), heap s !! r = Some o -> heap s' !! r = Some o) /\
    (needAuth = true \/ private (currentConfig env) = Some true ->
       readObj s' (headers rc) !! "Authorization"
         = Some (JStr ("Bearer " ++ t)) /\
       readObj s' (headers rc)
         = <["Authorization" := JStr ("Bearer " ++ t)]> (readObj s hdrs) /\
       headers rc = length (heap s)).
Proof.
  intros Htok. unfold withAuth, bind, ask. simpl. rewrite Htok.
  destruct (negb needAuth && negb (truthyOptBool (private (currentConfig env))))
    eqn:Hanon.
  - exists {| headers := hdrs; body := bdy |}, s. unfold ret.
    split; [reflexivity |]. split; [reflexivity |]. split; [auto |].
    intros [-> | Hp]; [discriminate |].
    rewrite Hp in Hanon. simpl in Hanon.
    rewrite andb_false_r in Hanon. discriminate.
  - run. eexists _, _. split; [reflexivity |]. simpl.
    split; [reflexivity |]. split.
    + intros r o Hr. rewrite lookup_app_l; [exact Hr |].
      eapply lookup_lt_Some; eauto.
    + intros _.
      assert (Hnew : readObj
                {| heap := heap s ++
                     [<["Authorization" := JStr ("Bearer " ++ t)]> (readObj s hdrs)];
                   mwnCalls := mwnCalls s; jarQueries := jarQueries s;
                   sent := sent s |} (length (heap s))
              = <["Authorization" := JStr ("Bearer " ++ t)]> (readObj s hdrs)).
      { unfold readObj at 1. simpl.
        rewrite lookup_app_r by lia. rewrite Nat.sub_diag. reflexivity. }
      rewrite Hnew. split; [apply lookup_insert_eq | split; reflexivity].
Qed.

Lemma withAuth_bearer_witness :
  token (currentConfig
           (Samples.mkEnv
              (Samples.asPrivate (Samples.withToken "s3cret" Samples.wikipedia))
              Samples.noSession Samples.offline)) = Value "s3cret" /\
  exists rc s',
    withAuth 0 (Some 1) false
      (Samples.mkEnv
         (Samples.asPrivate (Samples.withToken "s3cret" Samples.wikipedia))
         Samples.noSession Samples.offline) Samples.start = (Ok rc, s') /\
    body rc = Some 1 /\
    readObj s' (headers rc) !! "Authorization" = Some (JStr "Bearer s3cret").
Proof.
  split; [reflexivity |].
  destruct (withAuth_bearer
              (Samples.mkEnv
                 (Samples.asPrivate (Samples.withToken "s3cret" Samples.wikipedia))
                 Samples.noSession Samples.offline)
              Samples.start 0 (Some 1) false "s3cret" eq_refl)
    as (rc & s' & Hrun & Hbody & _ & Hauth).
  exists rc, s'. split; [exact Hrun | split; [exact Hbody |]].
  apply Hauth. right. reflexivity.
Defined.

(** ** The REST API base *)

(** An empty [restpath] is a configured one, yet the base is the default
    [scriptpath + "/rest.php"] one and not [server + restpath]. *)
Lemma getRestApiBase_empty_restpath_counterexample :
  restpath (currentConfig
              (Samples.mkEnv (Samples.withRestpath "" Samples.wikipedia)
                 Samples.noSession Samples.offline)) = Some "" /\
  getRestApiBase
    (Samples.mkEnv (Samples.withRestpath "" Samples.wikipedia)
       Samples.noSession Samples.offline) Samples.start
  = (Ok "https://en.wikipedia.org/w/rest.php", Samples.start) /\
  "https://en.wikipedia.org/w/rest.php"
  <> server (Samples.withRestpath "" Samples.wikipedia) ++ "".
Proof. split; [reflexivity | split; [reflexivity | discriminate]]. Qed.

(** C3, amended.  [getRestApiBase] returns [server + restpath] when
    [restpath] is a non-empty string, and [server + scriptpath + "/rest.php"]
    when [restpath] is absent or the empty string; it changes nothing. *)
Theorem getRestApiBase_spec (env : Env) (s : State) :
  let cfg := currentConfig env in
  (forall r : string,
     restpath cfg = Some r -> r <> "" ->
     getRestApiBase env s = (Ok (server cfg ++ r), s)) /\
  (restpath cfg = None \/ restpath cfg = Some "" ->
     getRestApiBase env s
       = (Ok (server cfg ++ scriptpath cfg ++ "/rest.php"), s)).
Proof.
  intros cfg. unfold getRestApiBase, bind, ask, ret. simpl. fold cfg. split.
  - intros r Hr Hne. rewrite Hr.
    apply truthyString_true in Hne. rewrite Hne. reflexivity.
  - intros [Hr | Hr]; rewrite Hr; reflexivity.
Qed.

Lemma getRestApiBase_spec_witness :
  getRestApiBase
    (Samples.mkEnv (Samples.withRestpath "/api/rest" Samples.wikipedia)
       Samples.noSession Samples.offline) Samples.start
  = (Ok "https://en.wikipedia.org/api/rest", Samples.start) /\
  getRestApiBase
    (Samples.mkEnv Samples.wikipedia Samples.noSession Samples.offline)
    Samples.start
  = (Ok "https://en.wikipedia.org/w/rest.php", Samples.start).
Proof.
  split.
  - apply (proj1 (getRestApiBase_spec
                    (Samples.mkEnv
                       (Samples.withRestpath "/api/rest" Samples.wikipedia)
                       Samples.noSession Samples.offline) Samples.start)
             "/api/rest"); [reflexivity | discriminate].
  - apply (proj2 (getRestApiBase_spec
                    (Samples.mkEnv Samples.wikipedia Samples.noSession
                       Samples.offline) Samples.start)).
    left. reflexivity.
Defined.

(** ** The cookie lookup *)

(** The lookup asks for the session client once and leaves the store and
    the requests alone. *)
Lemma getCookiesFromJar_frame (env : Env) (s : State) :
  heap (snd (getCookiesFromJar env s)) = heap s /\
  mwnCalls (snd (getCookiesFromJar env s)) = S (mwnCalls s) /\
  sent (snd (getCookiesFromJar env s)) = sent s.
Proof.
  run. destruct (getMwnOutcome env (mwnCalls s)) as [mwn | e]; simpl; auto.
  destruct (cookieJar mwn) as [jar |]; simpl; auto.
  destruct (truthyString _); simpl; auto.
Qed.

Lemma getCsrfToken_run (env : Env) (s : State) :
  getCsrfToken env s
  = (match getMwnOutcome env (mwnCalls s) with
     | Ok mwn => mwnGetCsrfToken mwn
     | Err e => Err e
     end,
     {| heap := heap s; mwnCalls := S (mwnCalls s);
        jarQueries := jarQueries s; sent := sent s |}).
Proof.
  run. destruct (getMwnOutcome env (mwnCalls s)); reflexivity.
Qed.

(** With an empty [restpath] the first question to the jar is about the
    default REST URL, not about [server + restpath]. *)
Lemma getCookiesFromJar_empty_restpath_counterexample :
  restpath (Samples.withRestpath "" Samples.wikipedia) = Some "" /\
  getCookiesFromJar
    (Samples.mkEnv (Samples.withRestpath "" Samples.wikipedia)
       (Ok (Samples.session
              (Samples.jarFor "https://en.wikipedia.org/w/rest.php" "sid=1")
              "7d1a0c"))
       Samples.offline) Samples.start
  = (Ok (Some "sid=1"),
     {| heap := heap Samples.start; mwnCalls := 1;
        jarQueries := ["https://en.wikipedia.org/w/rest.php"];
        sent := [] |}) /\
  "https://en.wikipedia.org/w/rest.php"
  <> server (Samples.withRestpath "" Samples.wikipedia) ++ "".
Proof. split; [reflexivity | split; [reflexivity | discriminate]]. Qed.

(** C4, amended.  Given a session client with a cookie jar, the lookup
    first asks the jar about the REST API URL ([server + restpath] when
    [restpath] is a non-empty string, otherwise
    [server + scriptpath + "/rest.php"]); if that gives no cookies it asks
    again about the bare [server]; if both give none it returns
    [undefined].  It returns in every case, and asks nothing else. *)
Theorem getCookiesFromJar_lookup
    (env : Env) (s : State) (mwn : Mwn) (jar : CookieJar) :
  getMwnOutcome env (mwnCalls s) = Ok mwn ->
  cookieJar mwn = Some jar ->
  let cfg := currentConfig env in
  let restUrl :=
    match restpath cfg with
    | Some (String c r) => server cfg ++ String c r
    | _ => server cfg ++ scriptpath cfg ++ "/rest.php"
    end in
  let first := getCookieStringSync jar restUrl in
  let second := getCookieStringSync jar (server cfg) in
  exists (res : option string) (s' : State),
    getCookiesFromJar env s = (Ok res, s') /\
    (first <> "" ->
       res = Some first /\ jarQueries s' = (jarQueries s ++ [restUrl])%list) /\
    (first = "" ->
       jarQueries s' = (jarQueries s ++ [restUrl; server cfg])%list /\
       (second <> "" -> res = Some second) /\
       (second = "" -> res = None)).
Proof.
  intros Hmwn Hjar cfg restUrl first second.
  run. rewrite Hmwn. simpl. rewrite Hjar. simpl. fold cfg.
  assert (Hurl : match restpath cfg with
                 | Some r =>
                     if truthyString r then server cfg ++ r
                     else server cfg ++ scriptpath cfg ++ "/rest.php"
                 | None => server cfg ++ scriptpath cfg ++ "/rest.php"
                 end = restUrl).
  { unfold restUrl. destruct (restpath cfg) as [[| c r] |]; reflexivity. }
  rewrite Hurl. fold first.
  destruct (truthyString first) eqn:Hfirst; simpl.
  - eexists _, _. split; [reflexivity |]. simpl.
    apply truthyString_true in Hfirst. split; [auto | contradiction].
  - fold second. eexists _, _. split; [reflexivity |]. simpl.
    apply truthyString_false in Hfirst. split; [congruence |].
    intros _. rewrite <- app_assoc. split; [reflexivity |].
    destruct (truthyString second) eqn:Hsecond.
    + apply truthyString_true in Hsecond. split; [auto | contradiction].
    + apply truthyString_false in Hsecond. split; [congruence | auto].
Qed.

Lemma getCookiesFromJar_lookup_witness :
  exists (res : option string) (s' : State),
    getCookiesFromJar
      Samples.loggedIn Samples.start = (Ok res, s') /\
    res = Some "sid=1" /\
    jarQueries s'
    = ["https://en.wikipedia.org/w/rest.php"; "https://en.wikipedia.org"].
Proof.
  destruct (getCookiesFromJar_lookup Samples.loggedIn Samples.start
              (Samples.session
                 (Samples.jarFor "https://en.wikipedia.org" "sid=1") "7d1a0c")
              (Samples.jarFor "https://en.wikipedia.org" "sid=1")
              eq_refl eq_refl)
    as (res & s' & Hrun & _ & Hfallback).
  exists res, s'. split; [exact Hrun |].
  destruct (Hfallback eq_refl) as (Hq & Hsome & _).
  split; [apply Hsome; discriminate | exact Hq].
Defined.

(** ** Cookie authentication and the CSRF token *)

Lemma readObj_lookup (s : State) (r : nat) (o : Obj) :
  heap s !! r = Some o -> readObj s r = o.
Proof. unfold readObj. intros ->. reflexivity. Qed.

Lemma readObj_last (hp : list Obj) (o : Obj) (n : nat) (js : list string)
    (rs : list Request) :
  readObj {| heap := hp ++ [o]; mwnCalls := n; jarQueries := js; sent := rs |}
    (length hp) = o.
Proof.
  unfold readObj. simpl. rewrite lookup_app_r by lia.
  rewrite Nat.sub_diag. reflexivity.
Qed.

(** The cookie path of the resolver, run to its end for a call with a
    body. *)
Lemma withAuth_cookie_run
    (env : Env) (s s1 : State) (hdrs b : Ref) (o : Obj) (needAuth : bool)
    (c t : string) :
  needAuth = true \/ private (currentConfig env) = Some true ->
  (forall t' : string, token (currentConfig env) <> Value t') ->
  getCookiesFromJar env s = (Ok (Some c), s1) ->
  fst (getCsrfToken env s1) = Ok t ->
  heap s !! b = Some o ->
  withAuth hdrs (Some b) needAuth env s
  = (Ok {| headers := length (heap s); body := Some (S (length (heap s))) |},
     {| heap := heap s ++ [<["Cookie" := JStr c]> (readObj s hdrs);
                           <["token" := JStr t]> o];
        mwnCalls := S (mwnCalls s1); jarQueries := jarQueries s1;
        sent := sent s1 |}).
Proof.
  intros Hmust Htok Hjar Hcsrf Hb.
  pose proof (getCookiesFromJar_frame env s) as (Hheap & _ & _).
  rewrite Hjar in Hheap. simpl in Hheap.
  rewrite getCsrfToken_run in Hcsrf. simpl in Hcsrf.
  assert (Hnone : forall (A : Type) (x : string -> A) (y : A),
            match token (currentConfig env) with
            | Value t' => x t'
            | _ => y
            end = y).
  { intros A x y. destruct (token (currentConfig env)) as [| | t'] eqn:Ht;
      try reflexivity.
    exfalso. apply (Htok t'). reflexivity. }
  unfold withAuth, bind at 1, ask. simpl. rewrite Hnone.
  assert (Hanon : negb needAuth
                  && negb (truthyOptBool (private (currentConfig env))) = false).
  { destruct Hmust as [-> | ->]; [reflexivity |].
    simpl. apply andb_false_r. }
  rewrite Hanon. unfold bind at 1. rewrite Hjar.
  unfold spreadWith, bind, load, alloc, ret. simpl.
  rewrite getCsrfToken_run. simpl. rewrite Hcsrf. simpl.
  assert (Hread : readObj
                    {| heap := heap s1 ++ [<["Cookie" := JStr c]> (readObj s1 hdrs)];
                       mwnCalls := mwnCalls s1; jarQueries := jarQueries s1;
                       sent := sent s1 |} b = o).
  { unfold readObj. simpl. rewrite Hheap.
    rewrite lookup_app_l by (eapply lookup_lt_Some; eauto).
    rewrite Hb. reflexivity. }
  rewrite Hread. unfold readObj. rewrite Hheap.
  rewrite <- app_assoc. rewrite length_app. simpl.
  replace (length (heap s) + 1) with (S (length (heap s))) by lia.
  reflexivity.
Qed.

(** C5.  Authentication is mandatory, the configuration has no token
    ([null], or no [token] field at all: both take the cookie path), the
    jar has a cookie string [c] and the CSRF fetch made after the cookie
    lookup returns [t]: for a call with a body [o] the resolver returns a
    new body object, [o] with the field [token] set to [JStr t] (and new
    headers, the input headers with [Cookie] set to [c]). *)
Theorem withAuth_cookie_csrf
    (env : Env) (s s1 : State) (hdrs b : Ref) (o : Obj) (needAuth : bool)
    (c t : string) :
  needAuth = true \/ private (currentConfig env) = Some true ->
  (forall t' : string, token (currentConfig env) <> Value t') ->
  getCookiesFromJar env s = (Ok (Some c), s1) ->
  fst (getCsrfToken env s1) = Ok t ->
  heap s !! b = Some o ->
  exists (rc : RequestConfig) (s' : State) (b' : nat),
    withAuth hdrs (Some b) needAuth env s = (Ok rc, s') /\
    body rc = Some b' /\
    heap s' !! b' = Some (<["token" := JStr t]> o) /\
    readObj s' b' !! "token" = Some (JStr t) /\
    (forall k : string, k <> "token" -> readObj s' b' !! k = o !! k) /\
    readObj s' (headers rc) = <["Cookie" := JStr c]> (readObj s hdrs).
Proof.
  intros Hmust Htok Hjar Hcsrf Hb.
  rewrite (withAuth_cookie_run env s s1 hdrs b o needAuth c t
             Hmust Htok Hjar Hcsrf Hb).
  eexists _, _, _. split; [reflexivity |]. cbn [body headers heap].
  split; [reflexivity |].
  assert (Hbody : (heap s ++ [<["Cookie" := JStr c]> (readObj s hdrs);
                              <["token" := JStr t]> o])%list
                    !! S (length (heap s))
                  = Some (<["token" := JStr t]> o)).
  { rewrite lookup_app_r by lia.
    replace (S (length (heap s)) - length (heap s)) with 1 by lia.
    reflexivity. }
  split; [exact Hbody |].
  rewrite (readObj_lookup _ _ (<["token" := JStr t]> o)) by exact Hbody.
  split; [apply lookup_insert_eq |].
  split; [intros k Hk; apply lookup_insert_ne; congruence |].
  apply readObj_lookup. cbn [heap].
  rewrite lookup_app_r by lia. rewrite Nat.sub_diag. reflexivity.
Qed.

Lemma withAuth_cookie_csrf_witness :
  exists (rc : RequestConfig) (s' : State) (b' : nat),
    withAuth 0 (Some 1) true Samples.loggedIn Samples.start = (Ok rc, s') /\
    body rc = Some b' /\
    heap s' !! b' = Some (<["token" := JStr "7d1a0c"]> Samples.editBody).
Proof.
  destruct (withAuth_cookie_csrf Samples.loggedIn Samples.start
              {| heap := heap Samples.start; mwnCalls := 1;
                 jarQueries := ["https://en.wikipedia.org/w/rest.php";
                                "https://en.wikipedia.org"];
                 sent := [] |}
              0 1 Samples.editBody true "sid=1" "7d1a0c"
              (or_introl eq_refl) (fun t' Ht => ltac:(discriminate Ht))
              eq_refl eq_refl eq_refl)
    as (rc & s' & b' & Hrun & Hbody & Hobj & _).
  exists rc, s', b'. split; [exact Hrun | split; [exact Hbody | exact Hobj]].
Defined.

(** ** The request builder *)

Ltac run_fetch :=
  unfold fetchCore, Object_assign, bind, ret, throw, ask, await, alloc, load,
    store, fetch, tryCatch; simpl.

Lemma append_empty_r (a : string) : a ++ "" = a.
Proof.
  induction a as [| c a IH]; [reflexivity |].
  change (String c (a ++ "") = String c a). f_equal. exact IH.
Qed.

Lemma append_assoc (a b c : string) : (a ++ b) ++ c = a ++ b ++ c.
Proof.
  induction a as [| x a IH]; [reflexivity |].
  change (String x ((a ++ b) ++ c) = String x (a ++ b ++ c)). f_equal. exact IH.
Qed.

Lemma insert_last (hp : list Obj) (x o : Obj) :
  <[length hp := x]> (hp ++ [o])%list = (hp ++ [x])%list.
Proof.
  replace (length hp) with (length hp + 0) at 1 by lia.
  rewrite insert_app_r. reflexivity.
Qed.

(** What [fetchCore] does, whatever it is given: it builds one headers
    object, hands one request to [fetch], and returns the response when its
    status is in the 2xx range. *)
Lemma fetchCore_run (env : Env) (s : State) (baseUrl : string)
    (options : FetchOptions) :
  let ua : Obj := {[ "User-Agent" := JStr (USER_AGENT env) ]} in
  let s1 := {| heap := heap s ++ [ua]; mwnCalls := mwnCalls s;
               jarQueries := jarQueries s; sent := sent s |} in
  let hs := match optHeaders options with
            | Some h => readObj s1 h ∪ ua
            | None => ua
            end in
  let s2 := {| heap := heap s ++ [hs]; mwnCalls := mwnCalls s;
               jarQueries := jarQueries s; sent := sent s |} in
  exists rq : Request,
    reqHeaders rq = hs /\
    (exists query : string,
       reqUrl rq
       = ((if String.prefix "//" baseUrl then "https:" else "")
            ++ baseUrl ++ query)) /\
    reqBody rq = option_map (fun b => JSON_stringify env (readObj s2 b))
                   (optBody options) /\
    reqMethod rq = match method options with
                   | Some m => if truthyString m then m else "GET"
                   | None => "GET"
                   end /\
    fetchCore baseUrl options env s
    = (match fetchOutcome env (length (sent s)) rq with
       | Err e => Err e
       | Ok r =>
           if ok r then Ok r
           else Err (Error ("HTTP error! status: " ++ showN (status r)
                            ++ " for URL: " ++ url r ++ ". Response: "
                            ++ match text r with
                               | Ok t => t
                               | Err _ => "Could not read error response body"
                               end))
       end,
       {| heap := heap s ++ [hs]; mwnCalls := mwnCalls s;
          jarQueries := jarQueries s; sent := sent s ++ [rq] |}).
Proof.
  intros ua s1 hs s2. unfold s2, hs, s1, ua. clear. run_fetch.
  destruct (optHeaders options) as [h |]; destruct (optBody options) as [b |];
    simpl; rewrite ?readObj_last, ?insert_last, ?readObj_last;
    match goal with
    | |- context [fetchOutcome env _ ?r] => exists r
    end; simpl;
    (split; [reflexivity |]);
    (split; [destruct (params options) as [p |];
             [destruct (truthyString (URLSearchParams_toString env p));
              [exists ("?" ++ URLSearchParams_toString env p) | exists ""]
             | exists ""];
             destruct (String.prefix "//" baseUrl); simpl;
             rewrite ?append_empty_r; reflexivity |]);
    (split; [reflexivity |]);
    (split; [reflexivity |]);
    match goal with
    | |- context [fetchOutcome env ?n ?r] =>
        destruct (fetchOutcome env n r) as [resp | e]
    end; simpl; try reflexivity;
    destruct (ok resp); simpl; try reflexivity;
    destruct (text resp); reflexivity.
Qed.

Lemma prefix_append (x post : string) : String.prefix x (x ++ post) = true.
Proof.
  induction x as [| c x IH]; [destruct post; reflexivity |].
  change (String.prefix (String c x) (String c (x ++ post)) = true).
  simpl. destruct (ascii_dec c c) as [_ | Hne]; [exact IH | congruence].
Qed.

Lemma includes_here (x post : string) : includes (x ++ post) x = true.
Proof.
  destruct x as [| c x].
  - destruct post; reflexivity.
  - change (includes (String c (x ++ post)) (String c x) = true).
    unfold includes; fold includes.
    change (String c (x ++ post)) with (String c x ++ post).
    rewrite prefix_append. reflexivity.
Qed.

Lemma includes_append (pre x post : string) :
  includes (pre ++ x ++ post) x = true.
Proof.
  induction pre as [| c pre IH]; [exact (includes_here x post) |].
  change (includes (String c (pre ++ x ++ post)) x = true).
  unfold includes; fold includes. rewrite IH. apply orb_true_r.
Qed.

Lemma includes_end (pre x : string) : includes (pre ++ x) x = true.
Proof.
  rewrite <- (append_empty_r x) at 1. apply includes_append.
Qed.

(** A 404 that comes back from another URL than the one asked for names
    that other URL in the error; the URL of the request is not in it. *)
Lemma fetchCore_error_url_counterexample :
  fetchCore "https://en.wikipedia.org/wiki/Old" noOptions
    (Samples.mkEnv Samples.wikipedia Samples.noSession
       Samples.movedThenMissing) Samples.start
  = (Err (Error "HTTP error! status: 404 for URL: https://en.wikipedia.org/wiki/Moved. Response: Not found"),
     {| heap := [Samples.acceptJson; Samples.editBody;
                 {[ "User-Agent" := JStr "mediawiki-mcp-server/0.1" ]}];
        mwnCalls := 0; jarQueries := [];
        sent := [{| reqUrl := "https://en.wikipedia.org/wiki/Old";
                    reqHeaders :=
                      {[ "User-Agent" := JStr "mediawiki-mcp-server/0.1" ]};
                    reqMethod := "GET"; reqBody := None |}] |}) /\
  includes
    "HTTP error! status: 404 for URL: https://en.wikipedia.org/wiki/Moved. Response: Not found"
    "https://en.wikipedia.org/wiki/Old" = false.
Proof. split; vm_compute; reflexivity. Qed.

(** C6, amended.  [fetchCore] hands exactly one request to [fetch].  When
    the response has a status outside 200..299 it throws one error whose
    message includes the decimal status code, the URL the response reports
    ([response.url]) and the text of the response body, or a fixed
    placeholder when that text cannot be read.  The message includes the
    URL of the request whenever the response reports that URL. *)
Theorem fetchCore_http_error (env : Env) (s : State) (baseUrl : string)
    (options : FetchOptions) :
  exists rq : Request,
    sent (snd (fetchCore baseUrl options env s)) = (sent s ++ [rq])%list /\
    includes (reqUrl rq) baseUrl = true /\
    forall r : Response,
      fetchOutcome env (length (sent s)) rq = Ok r ->
      (status r < 200 \/ 300 <= status r)%N ->
      let errorBody :=
        match text r with
        | Ok t => t
        | Err _ => "Could not read error response body"
        end in
      let msg := "HTTP error! status: " ++ showN (status r) ++ " for URL: "
                 ++ url r ++ ". Response: " ++ errorBody in
      fst (fetchCore baseUrl options env s) = Err (Error msg) /\
      includes msg (showN (status r)) = true /\
      includes msg (url r) = true /\
      includes msg errorBody = true /\
      (url r = reqUrl rq -> includes msg (reqUrl rq) = true).
Proof.
  destruct (fetchCore_run env s baseUrl options)
    as (rq & _ & (query & Hurl) & _ & _ & Hrun).
  exists rq. rewrite Hrun. cbn [fst snd sent]. split; [reflexivity |]. split.
  { rewrite Hurl. exact (includes_append _ baseUrl query). }
  intros r Hr Hstatus. cbv zeta. rewrite Hr.
  set (errorBody := match text r with
                    | Ok t => t
                    | Err _ => "Could not read error response body"
                    end).
  set (msg := "HTTP error! status: " ++ showN (status r) ++ " for URL: "
              ++ url r ++ ". Response: " ++ errorBody).
  assert (Hok : ok r = false).
  { unfold ok. destruct Hstatus as [Hlo | Hhi].
    - apply N.leb_gt in Hlo. rewrite Hlo. reflexivity.
    - apply N.ltb_ge in Hhi. rewrite Hhi. apply andb_false_r. }
  rewrite Hok. split; [reflexivity |].
  assert (Hurl' : includes msg (url r) = true).
  { unfold msg.
    rewrite <- (append_assoc "HTTP error! status: " (showN (status r))).
    rewrite <- (append_assoc _ " for URL: ").
    exact (includes_append _ (url r) _). }
  split; [exact (includes_append "HTTP error! status: " (showN (status r)) _) |].
  split; [exact Hurl' |].
  split.
  - unfold msg.
    rewrite <- (append_assoc "HTTP error! status: " (showN (status r))).
    rewrite <- (append_assoc _ " for URL: ").
    rewrite <- (append_assoc _ (url r)).
    rewrite <- (append_assoc _ ". Response: ").
    exact (includes_end _ errorBody).
  - intros <-. exact Hurl'.
Qed.

Lemma fetchCore_http_error_witness :
  exists msg : string,
    fst (fetchCore "https://en.wikipedia.org/wiki/Nope" noOptions
           (Samples.mkEnv Samples.wikipedia Samples.noSession Samples.notFound)
           Samples.start) = Err (Error msg) /\
    includes msg "404" = true /\
    includes msg "https://en.wikipedia.org/wiki/Nope" = true /\
    includes msg "Could not read error response body" = true.
Proof.
  destruct (fetchCore_http_error
              (Samples.mkEnv Samples.wikipedia Samples.noSession Samples.notFound)
              Samples.start "https://en.wikipedia.org/wiki/Nope" noOptions)
    as (rq & Hsent & Hbase & Herr).
  assert (Hrq : reqUrl rq = "https://en.wikipedia.org/wiki/Nope").
  { vm_compute in Hsent. injection Hsent as <-. reflexivity. }
  destruct (Herr (Samples.respond 404 (reqUrl rq) (Err (Error "socket hang up")))
              eq_refl)
    as (Hmsg & Hcode & _ & Hbody & Hreq).
  { right. cbv. discriminate. }
  eexists. split; [exact Hmsg |]. split; [exact Hcode |].
  split; [| exact Hbody].
  rewrite <- Hrq. apply Hreq. reflexivity.
Defined.

(** ** The best-effort helpers *)

(** The request both helpers make: a plain GET that carries the
    identifying header only. *)
Lemma fetchCore_plain (env : Env) (s : State) (target : string) :
  let rq := {| reqUrl := if String.prefix "//" target
                         then "https:" ++ target else target;
               reqHeaders := {[ "User-Agent" := JStr (USER_AGENT env) ]};
               reqMethod := "GET"; reqBody := None |} in
  fetchCore target noOptions env s
  = (match fetchOutcome env (length (sent s)) rq with
     | Err e => Err e
     | Ok r =>
         if ok r then Ok r
         else Err (Error ("HTTP error! status: " ++ showN (status r)
                          ++ " for URL: " ++ url r ++ ". Response: "
                          ++ match text r with
                             | Ok t => t
                             | Err _ => "Could not read error response body"
                             end))
     end,
     {| heap := heap s ++ [{[ "User-Agent" := JStr (USER_AGENT env) ]}];
        mwnCalls := mwnCalls s; jarQueries := jarQueries s;
        sent := sent s ++ [rq] |}).
Proof.
  intros rq. unfold rq. run_fetch. rewrite readObj_last.
  match goal with
  | |- context [fetchOutcome env ?n ?r] =>
      destruct (fetchOutcome env n r) as [resp | e]
  end; simpl; try reflexivity.
  destruct (ok resp); simpl; try reflexivity.
  destruct (text resp); reflexivity.
Qed.

(** C7.  Neither helper ever throws.  [fetchPageHtml] returns the text of
    the response when [fetch] resolves, the status is in the 2xx range and
    the text can be read, and [null] in every other case: when [fetch]
    throws, when [fetchCore] throws for the status, when reading throws.
    [fetchImageAsBase64] does the same with the base64 encoding of the
    bytes of the response. *)
Theorem best_effort_fetch (env : Env) (s : State) (target : string) :
  let rq := {| reqUrl := if String.prefix "//" target
                         then "https:" ++ target else target;
               reqHeaders := {[ "User-Agent" := JStr (USER_AGENT env) ]};
               reqMethod := "GET"; reqBody := None |} in
  let outcome := fetchOutcome env (length (sent s)) rq in
  fst (fetchPageHtml target env s)
  = Ok (match outcome with
        | Ok r =>
            if ok r
            then match text r with
                 | Ok t => Some t
                 | Err _ => None
                 end
            else None
        | Err _ => None
        end) /\
  fst (fetchImageAsBase64 target env s)
  = Ok (match outcome with
        | Ok r =>
            if ok r
            then match arrayBuffer r with
                 | Ok bytes => Some (toBase64 bytes)
                 | Err _ => None
                 end
            else None
        | Err _ => None
        end).
Proof.
  intros rq outcome. unfold fetchPageHtml, fetchImageAsBase64, tryCatch, bind.
  rewrite (fetchCore_plain env s target). fold rq. fold outcome.
  destruct outcome as [r | e]; simpl; [| split; reflexivity].
  destruct (ok r); simpl; [| split; reflexivity].
  unfold await, ret.
  destruct (text r), (arrayBuffer r); split; reflexivity.
Qed.

(** The helpers at work: a page that is served, a transport that is down,
    a 404, and an image of two bytes. *)
Example fetchPageHtml_served :
  fst (fetchPageHtml "//en.wikipedia.org/wiki/Rocq"
         (Samples.mkEnv Samples.wikipedia Samples.noSession
            (Samples.serving "<p>Rocq</p>")) Samples.start)
  = Ok (Some "<p>Rocq</p>").
Proof. reflexivity. Qed.

Example fetchPageHtml_offline :
  fst (fetchPageHtml "https://en.wikipedia.org/wiki/Rocq"
         (Samples.mkEnv Samples.wikipedia Samples.noSession Samples.offline)
         Samples.start)
  = Ok None.
Proof. reflexivity. Qed.

Example fetchImageAsBase64_not_found :
  fst (fetchImageAsBase64 "https://en.wikipedia.org/static/logo.png"
         (Samples.mkEnv Samples.wikipedia Samples.noSession Samples.notFound)
         Samples.start)
  = Ok None.
Proof. reflexivity. Qed.

Example fetchImageAsBase64_served :
  fst (fetchImageAsBase64 "https://en.wikipedia.org/static/logo.png"
         (Samples.mkEnv Samples.wikipedia Samples.noSession
            (Samples.serving "")) Samples.start)
  = Ok (Some "aGk=").
Proof. reflexivity. Qed.

Example toBase64_rfc4648 :
  toBase64 ["f"; "o"; "o"; "b"; "a"; "r"]%byte = "Zm9vYmFy" /\
  toBase64 ["f"; "o"; "o"; "b"; "a"]%byte = "Zm9vYmE=" /\
  toBase64 ["f"; "o"; "o"; "b"]%byte = "Zm9vYg==" /\
  toBase64 [xff; xfe; xfd]%byte = "//79" /\
  toBase64 [] = "".
Proof. repeat split; reflexivity. Qed.

(** ** The identifying header *)

(** [fetchCore] taken on its own: the one request it sends always has a
    [User-Agent] header, the fixed identifying string when the headers it
    is given name no agent.  ([Object.assign] lets given headers win; no
    call site of the module gives a [User-Agent].) *)
Lemma fetchCore_user_agent (env : Env) (s : State) (baseUrl : string)
    (options : FetchOptions) :
  exists rq : Request,
    sent (snd (fetchCore baseUrl options env s)) = (sent s ++ [rq])%list /\
    is_Some (reqHeaders rq !! "User-Agent") /\
    ((forall h : nat,
        optHeaders options = Some h -> readObj s h !! "User-Agent" = None) ->
     reqHeaders rq !! "User-Agent" = Some (JStr (USER_AGENT env))) /\
    (forall (h : nat) (o : Obj) (v : JsValue),
        optHeaders options = Some h -> heap s !! h = Some o ->
        o !! "User-Agent" = Some v ->
        reqHeaders rq !! "User-Agent" = Some v).
Proof.
  destruct (fetchCore_run env s baseUrl options)
    as (rq & Hhs & _ & _ & _ & Hrun).
  exists rq. rewrite Hrun. cbn [fst snd sent]. split; [reflexivity |].
  rewrite Hhs. clear Hhs Hrun.
  set (ua := ({[ "User-Agent" := JStr (USER_AGENT env) ]} : Obj)).
  assert (Hua : ua !! "User-Agent" = Some (JStr (USER_AGENT env)))
    by apply lookup_singleton_eq.
  destruct (optHeaders options) as [h |].
  - set (s1 := {| heap := heap s ++ [ua]; mwnCalls := mwnCalls s;
                  jarQueries := jarQueries s; sent := sent s |}).
    assert (Hcases : (h < length (heap s) /\ heap s1 !! h = heap s !! h)
                     \/ readObj s1 h = ua \/ readObj s1 h = ∅).
    { destruct (Nat.lt_ge_cases h (length (heap s))) as [Hlt | Hge].
      - left. split; [exact Hlt |]. simpl. apply lookup_app_l. exact Hlt.
      - right. destruct (Nat.eq_dec h (length (heap s))) as [-> | Hne].
        + left. apply readObj_last.
        + right. unfold readObj, s1. simpl.
          rewrite lookup_ge_None_2; [reflexivity |].
          rewrite length_app. simpl. lia. }
    split; [| split].
    + destruct (readObj s1 h !! "User-Agent") as [v |] eqn:Hv.
      * exists v. apply lookup_union_Some_l. exact Hv.
      * rewrite lookup_union_r by exact Hv. rewrite Hua. eauto.
    + intros Hnone. destruct Hcases as [[Hlt Hsame] | [Hself | Hempty]].
      * rewrite lookup_union_r; [exact Hua |].
        unfold readObj. rewrite Hsame. apply (Hnone h eq_refl).
      * rewrite Hself. rewrite lookup_union_Some_l with (x := JStr (USER_AGENT env));
          [reflexivity | exact Hua].
      * rewrite Hempty. rewrite lookup_union_r by apply lookup_empty. exact Hua.
    + intros h' o v Hh Ho Hv. injection Hh as <-.
      apply lookup_union_Some_l. unfold readObj. simpl.
      rewrite lookup_app_l by (eapply lookup_lt_Some; eauto).
      rewrite Ho. exact Hv.
  - split; [rewrite Hua; eauto |]. split; [intros _; exact Hua |].
    intros h o v Hh. discriminate.
Qed.

(** ** The choice of the mode *)

(** What the resolver does in each mode. *)
Lemma withAuth_by_mode (env : Env) (s : State) (hdrs : Ref)
    (bdy : option Ref) (needAuth : bool) :
  let cfg := currentConfig env in
  let s' := snd (withAuth hdrs bdy needAuth env s) in
  match authMode needAuth (private cfg) (token cfg) with
  | NoAuth =>
      withAuth hdrs bdy needAuth env s
      = (Ok {| headers := hdrs; body := bdy |}, s)
  | BearerToken =>
      exists t : string,
        token cfg = Value t /\
        withAuth hdrs bdy needAuth env s
        = (Ok {| headers := length (heap s); body := bdy |},
           {| heap := heap s ++
                [<["Authorization" := JStr ("Bearer " ++ t)]> (readObj s hdrs)];
              mwnCalls := mwnCalls s; jarQueries := jarQueries s;
              sent := sent s |})
  | CookieCsrf =>
      (forall t : string, token cfg <> Value t) /\
      mwnCalls s < mwnCalls s' /\
      jarQueries s' = jarQueries (snd (getCookiesFromJar env s))
  end.
Proof.
  intros cfg s'. unfold s', cfg. clear s' cfg.
  remember (withAuth hdrs bdy needAuth env s) as w eqn:Hw.
  unfold withAuth, bind at 1, ask in Hw. simpl in Hw. unfold authMode.
  destruct (negb needAuth && negb (truthyOptBool (private (currentConfig env))));
    [exact Hw |].
  destruct (token (currentConfig env)) as [| | t];
    [ | | exists t; split; [reflexivity | exact Hw] ].
  all: split; [intros t; discriminate |].
  all: unfold bind at 1 in Hw.
  all: pose proof (getCookiesFromJar_frame env s) as (_ & Hcalls & _).
  all: destruct (getCookiesFromJar env s) as [[[c |] | e] s1]; simpl in *;
    try (subst w; simpl; split; [lia | reflexivity]).
  all: unfold spreadWith, bind, load, alloc, ret in Hw; simpl in Hw.
  all: destruct bdy as [b |]; simpl in Hw;
    try (subst w; simpl; split; [lia | reflexivity]).
  all: rewrite getCsrfToken_run in Hw; simpl in Hw.
  all: destruct (getMwnOutcome env (mwnCalls s1)) as [mwn | e]; simpl in Hw;
    try (subst w; simpl; split; [lia | reflexivity]).
  all: destruct (mwnGetCsrfToken mwn); subst w; simpl;
    split; (lia || reflexivity).
Qed.

(** C9.  Which of the three modes a call takes, as seen from what the call
    does, is the value of [authMode] at [needAuth], [config.private] and
    [config.token]; so two calls that agree on these three take the same
    mode, whatever their headers, their bodies, the rest of the
    configuration, the session and the state are. *)
Theorem withAuth_mode_selection :
  (forall (env : Env) (s : State) (hdrs : Ref) (bdy : option Ref)
          (needAuth : bool),
     observedMode s (snd (withAuth hdrs bdy needAuth env s))
     = authMode needAuth (private (currentConfig env))
         (token (currentConfig env))) /\
  (forall (env1 env2 : Env) (s1 s2 : State) (hdrs1 hdrs2 : Ref)
          (bdy1 bdy2 : option Ref) (needAuth : bool),
     private (currentConfig env1) = private (currentConfig env2) ->
     token (currentConfig env1) = token (currentConfig env2) ->
     observedMode s1 (snd (withAuth hdrs1 bdy1 needAuth env1 s1))
     = observedMode s2 (snd (withAuth hdrs2 bdy2 needAuth env2 s2))).
Proof.
  assert (Hfun : forall (env : Env) (s : State) (hdrs : Ref)
                        (bdy : option Ref) (needAuth : bool),
            observedMode s (snd (withAuth hdrs bdy needAuth env s))
            = authMode needAuth (private (currentConfig env))
                (token (currentConfig env))).
  { intros env s hdrs bdy needAuth.
    pose proof (withAuth_by_mode env s hdrs bdy needAuth) as Hmode.
    cbv zeta in Hmode. unfold observedMode.
    destruct (authMode needAuth (private (currentConfig env))
                (token (currentConfig env))).
    - rewrite Hmode. simpl. rewrite !Nat.ltb_irrefl. reflexivity.
    - destruct Hmode as (t & _ & ->). simpl. rewrite Nat.ltb_irrefl.
      rewrite length_app. simpl.
      replace (length (heap s) <? length (heap s) + 1)%nat with true
        by (symmetry; apply Nat.ltb_lt; lia).
      reflexivity.
    - destruct Hmode as (_ & Hcalls & _).
      apply Nat.ltb_lt in Hcalls. rewrite Hcalls. reflexivity. }
  split; [exact Hfun |].
  intros env1 env2 s1 s2 hdrs1 hdrs2 bdy1 bdy2 needAuth Hp Ht.
  rewrite !Hfun. rewrite Hp, Ht. reflexivity.
Qed.

Lemma withAuth_mode_selection_witness :
  private (currentConfig Samples.loggedIn)
  = private (currentConfig
               (Samples.mkEnv Samples.wikipedia Samples.noSession
                  Samples.offline)) /\
  observedMode Samples.start
    (snd (withAuth 0 (Some 1) true Samples.loggedIn Samples.start))
  = observedMode Samples.spoofed
      (snd (withAuth 0 None true
              (Samples.mkEnv Samples.wikipedia Samples.noSession
                 Samples.offline) Samples.spoofed)).
Proof.
  split; [reflexivity |].
  apply (proj2 withAuth_mode_selection Samples.loggedIn
           (Samples.mkEnv Samples.wikipedia Samples.noSession Samples.offline)
           Samples.start Samples.spoofed 0 0 (Some 1) None true);
    reflexivity.
Defined.

(** ** The caller's objects *)

Lemma extends_lookup (before after : State) (r : nat) (o : Obj) :
  extends before after -> heap before !! r = Some o ->
  heap after !! r = Some o.
Proof.
  intros (fresh & ->) Hr. rewrite lookup_app_l; [exact Hr |].
  eapply lookup_lt_Some; eauto.
Qed.

(** C10.  [withAuth] changes no object that exists when it is called: the
    caller's headers and body hold the same entries afterwards.  The
    references it returns are the caller's own, or references to objects
    that did not exist before the call. *)
Theorem withAuth_no_mutation (env : Env) (s : State) (hdrs : Ref)
    (bdy : option Ref) (needAuth : bool) :
  let out := withAuth hdrs bdy needAuth env s in
  (forall (r : nat) (o : Obj),
     heap s !! r = Some o -> heap (snd out) !! r = Some o) /\
  (forall rc : RequestConfig,
     fst out = Ok rc ->
     (headers rc = hdrs \/ heap s !! headers rc = None) /\
     (body rc = bdy \/
      exists b' : nat, body rc = Some b' /\ heap s !! b' = None)).
Proof.
  intros out.
  assert (Hext : extends s (snd out) /\
                 forall rc : RequestConfig,
                   fst out = Ok rc ->
                   (headers rc = hdrs \/ length (heap s) <= headers rc) /\
                   (body rc = bdy \/
                    exists b' : nat,
                      body rc = Some b' /\ length (heap s) <= b')).
  { unfold out. clear out.
    remember (withAuth hdrs bdy needAuth env s) as w eqn:Hw.
    unfold withAuth, bind at 1, ask in Hw. simpl in Hw.
    assert (Hsame : forall st : State,
              heap st = heap s ->
              extends s st /\
              forall rc : RequestConfig,
                @Ok RequestConfig {| headers := hdrs; body := bdy |} = Ok rc ->
                (headers rc = hdrs \/ length (heap s) <= headers rc) /\
                (body rc = bdy \/
                 exists b' : nat, body rc = Some b' /\ length (heap s) <= b')).
    { intros st Hst. split.
      - exists []. rewrite Hst, app_nil_r. reflexivity.
      - intros rc [= <-]. simpl. auto. }
    assert (Hfail : forall (st : State) (fresh : list Obj) (e : Exn),
              heap st = (heap s ++ fresh)%list ->
              extends s st /\
              forall rc : RequestConfig,
                @Err RequestConfig e = Ok rc ->
                (headers rc = hdrs \/ length (heap s) <= headers rc) /\
                (body rc = bdy \/
                 exists b' : nat, body rc = Some b' /\ length (heap s) <= b')).
    { intros st fresh e Hst. split; [exists fresh; exact Hst | discriminate]. }
    destruct (negb needAuth
              && negb (truthyOptBool (private (currentConfig env)))).
    { subst w. apply Hsame. reflexivity. }
    destruct (token (currentConfig env)) as [| | t].
    3: { subst w. run. split.
         - eexists. reflexivity.
         - intros rc [= <-]. simpl. split; [right; lia | left; reflexivity]. }
    all: unfold bind at 1 in Hw.
    all: pose proof (getCookiesFromJar_frame env s) as (Hheap & _ & _).
    all: destruct (getCookiesFromJar env s) as [[[c |] | e] s1]; simpl in *;
      try (subst w; apply Hsame; exact Hheap);
      try (subst w; apply (Hfail s1 [] e); simpl;
           rewrite Hheap, app_nil_r; reflexivity).
    all: unfold spreadWith, bind, load, alloc, ret in Hw; simpl in Hw.
    all: destruct bdy as [b |]; simpl in Hw.
    all: try rewrite getCsrfToken_run in Hw; simpl in Hw.
    all: try destruct (getMwnOutcome env (mwnCalls s1)) as [mwn | e];
      simpl in Hw.
    all: try destruct (mwnGetCsrfToken mwn) as [csrf | e]; simpl in Hw.
    all: subst w; simpl; rewrite ?Hheap; split;
      try (eexists; rewrite <- ?app_assoc; reflexivity);
      try discriminate.
    all: intros rc [= <-]; simpl; rewrite ?length_app; simpl; split;
      try (right; lia); try (left; reflexivity).
    all: right; eexists; split; [reflexivity | lia]. }
  destruct Hext as (Hext & Hfresh). split.
  - intros r o Hr. eapply extends_lookup; eauto.
  - intros rc Hrc. destruct (Hfresh rc Hrc) as ([Hh | Hh] & [Hb | (b' & Hb & Hb')]).
    + auto.
    + split; [auto |]. right. exists b'. split; [exact Hb |].
      apply lookup_ge_None_2. exact Hb'.
    + split; [right; apply lookup_ge_None_2; exact Hh | auto].
    + split; [right; apply lookup_ge_None_2; exact Hh |].
      right. exists b'. split; [exact Hb |]. apply lookup_ge_None_2. exact Hb'.
Qed.

Lemma withAuth_no_mutation_witness :
  heap (snd (withAuth 0 (Some 1) true Samples.loggedIn Samples.start)) !! 0
  = Some Samples.acceptJson /\
  heap (snd (withAuth 0 (Some 1) true Samples.loggedIn Samples.start)) !! 1
  = Some Samples.editBody.
Proof.
  split;
    apply (proj1 (withAuth_no_mutation Samples.loggedIn Samples.start 0
                    (Some 1) true));
    reflexivity.
Defined.

(** ** The request facade *)

(** The cookie lookup and the CSRF fetch do not look at the store. *)
Lemma getCookiesFromJar_withHeap (env : Env) (s : State) (hp : list Obj) :
  getCookiesFromJar env (withHeap hp s)
  = (fst (getCookiesFromJar env s),
     withHeap hp (snd (getCookiesFromJar env s))).
Proof.
  run. destruct (getMwnOutcome env (mwnCalls s)) as [mwn | e]; simpl;
    [| reflexivity].
  destruct (cookieJar mwn) as [jar |]; simpl; [| reflexivity].
  destruct (truthyString _); reflexivity.
Qed.

Lemma getRestApiBase_run (env : Env) (s : State) :
  exists base : string, getRestApiBase env s = (Ok base, s).
Proof. unfold getRestApiBase, bind, ask, ret. simpl. eauto. Qed.

(** Decoding the response does not send anything. *)
Lemma decode_sent (env : Env) (st : State) (r : Result Response) :
  sent (snd match r with
            | Ok a => await (json a) env st
            | Err e => (Err e, st)
            end) = sent st.
Proof. destruct r; reflexivity. Qed.

(** The request [fetchCore] sends, for headers and a body that are in the
    store. *)
Lemma fetchCore_sends (env : Env) (s : State) (baseUrl : string)
    (options : FetchOptions) :
  exists rq : Request,
    sent (snd (fetchCore baseUrl options env s)) = (sent s ++ [rq])%list /\
    reqMethod rq = match method options with
                   | Some m => if truthyString m then m else "GET"
                   | None => "GET"
                   end /\
    (forall (h : nat) (hs : Obj),
       optHeaders options = Some h -> heap s !! h = Some hs ->
       reqHeaders rq = hs ∪ {[ "User-Agent" := JStr (USER_AGENT env) ]}) /\
    (optHeaders options = None ->
       reqHeaders rq = {[ "User-Agent" := JStr (USER_AGENT env) ]}) /\
    (forall (b : nat) (o : Obj),
       optBody options = Some b -> heap s !! b = Some o ->
       reqBody rq = Some (JSON_stringify env o)) /\
    (optBody options = None -> reqBody rq = None).
Proof.
  destruct (fetchCore_run env s baseUrl options)
    as (rq & Hhs & _ & Hbody & Hmeth & ->).
  exists rq. cbn [snd sent]. split; [reflexivity |]. split; [exact Hmeth |].
  assert (Hold : forall (r : nat) (x y : Obj) (n : nat) (js : list string)
                        (rs : list Request),
            heap s !! r = Some x ->
            readObj {| heap := heap s ++ [y]; mwnCalls := n;
                       jarQueries := js; sent := rs |} r = x).
  { intros r x y n js rs Hr. unfold readObj. simpl.
    rewrite lookup_app_l by (eapply lookup_lt_Some; eauto).
    rewrite Hr. reflexivity. }
  repeat split.
  - intros h hs Hh Hlook. rewrite Hhs, Hh. rewrite (Hold h hs) by exact Hlook.
    reflexivity.
  - intros Hh. rewrite Hhs, Hh. reflexivity.
  - intros b o Hb Hlook. rewrite Hbody, Hb. simpl.
    rewrite (Hold b o) by exact Hlook. reflexivity.
  - intros Hb. rewrite Hbody, Hb. reflexivity.
Qed.

(** Running a mutating call of the facade along the cookie path. *)
Ltac run_cookie_mutation env s b o needAuth c t :=
  let Hmust := fresh "Hmust" in
  let Htok := fresh "Htok" in
  let Hjar := fresh "Hjar" in
  let Hcsrf := fresh "Hcsrf" in
  let Hb := fresh "Hb" in
  let Hjar0 := fresh "Hjar0" in
  let Hsent := fresh "Hsent" in
  let Hcsrf0 := fresh "Hcsrf0" in
  let Hb0 := fresh "Hb0" in
  let Hauth := fresh "Hauth" in
  let Hjson := fresh "Hjson" in
  let s0 := fresh "s0" in
  let s1 := fresh "s1" in
  intros Hmust Htok Hjar Hcsrf Hb;
  unfold bind at 1, alloc; simpl;
  change {| heap := heap s ++ [<["Content-Type" := JStr "application/json"]>
                                 {["Accept" := JStr "application/json"]}];
            mwnCalls := mwnCalls s; jarQueries := jarQueries s;
            sent := sent s |}
    with (withHeap (heap s ++ [jsonHeaders]) s);
  set (s0 := withHeap (heap s ++ [jsonHeaders]) s);
  pose proof (getCookiesFromJar_withHeap env s (heap s ++ [jsonHeaders]))
    as Hjar0;
  fold s0 in Hjar0; rewrite Hjar in Hjar0;
  pose proof (getCookiesFromJar_frame env s) as (_ & _ & Hsent);
  set (s1 := withHeap (heap s ++ [jsonHeaders])
               (snd (getCookiesFromJar env s))) in *;
  assert (Hcsrf0 : fst (getCsrfToken env s1) = Ok t)
    by (rewrite getCsrfToken_run in Hcsrf |- *; exact Hcsrf);
  assert (Hb0 : heap s0 !! b = Some o)
    by (simpl; rewrite lookup_app_l by (eapply lookup_lt_Some; eauto);
        exact Hb);
  pose proof (withAuth_cookie_run env s0 s1 (length (heap s)) b o needAuth c t
                Hmust Htok Hjar0 Hcsrf0 Hb0) as Hauth;
  unfold bind at 1; rewrite Hauth; clear Hauth;
  unfold bind at 1;
  match goal with
  | |- context [getRestApiBase env ?st] =>
      let base := fresh "base" in
      destruct (getRestApiBase_run env st) as (base & ->)
  end;
  unfold bind at 1;
  match goal with
  | |- context [fetchCore ?u ?opts env ?st] =>
      let rq := fresh "rq" in
      let Hrq := fresh "Hrq" in
      let Hmeth := fresh "Hmeth" in
      let Hhs := fresh "Hhs" in
      let Hbody := fresh "Hbody" in
      let resp := fresh "resp" in
      let st' := fresh "st'" in
      destruct (fetchCore_sends env st u opts)
        as (rq & Hrq & Hmeth & Hhs & _ & Hbody & _);
      destruct (fetchCore u opts env st) as [resp st'];
      exists rq; rewrite decode_sent; cbn [snd] in Hrq; rewrite Hrq;
      cbn [sent s1 withHeap]; rewrite Hsent;
      split; [reflexivity |]; split; [exact Hmeth |];
      assert (Hjson : readObj s0 (length (heap s)) = jsonHeaders)
        by (unfold s0, withHeap; apply readObj_last);
      specialize (Hhs (length (heap s0)) (<["Cookie" := JStr c]> jsonHeaders)
                    eq_refl);
      specialize (Hbody (S (length (heap s0))) (<["token" := JStr t]> o)
                    eq_refl);
      cbn [heap] in Hhs, Hbody; rewrite Hjson in Hhs, Hbody;
      rewrite Hbody, Hhs;
      [ split; [reflexivity |]; split;
        [ apply lookup_union_Some_l; apply lookup_insert_eq
        | rewrite lookup_union_r; [apply lookup_singleton_eq |];
          vm_compute; reflexivity ]
      | replace (length (heap s0)) with (length (heap s0) + 0) by lia;
        rewrite lookup_app_r by lia;
        replace (length (heap s0) + 0 - length (heap s0)) with 0 by lia;
        reflexivity
      | replace (S (length (heap s0))) with (length (heap s0) + 1) by lia;
        rewrite lookup_app_r by lia;
        replace (length (heap s0) + 1 - length (heap s0)) with 1 by lia;
        reflexivity ]
  end.

(** X14.  A PUT under cookie authentication sends the body with the CSRF
    token merged in, the session cookie and the identifying header. *)
Lemma makeRestPutRequest_cookie
    (env : Env) (s : State) (path : string) (b : Ref) (o : Obj)
    (needAuth : bool) (c t : string) :
  needAuth = true \/ private (currentConfig env) = Some true ->
  (forall t' : string, token (currentConfig env) <> Value t') ->
  fst (getCookiesFromJar env s) = Ok (Some c) ->
  fst (getCsrfToken env (snd (getCookiesFromJar env s))) = Ok t ->
  heap s !! b = Some o ->
  exists rq : Request,
    sent (snd (makeRestPutRequest path b needAuth env s))
    = (sent s ++ [rq])%list /\
    reqMethod rq = "PUT" /\
    reqBody rq = Some (JSON_stringify env (<["token" := JStr t]> o)) /\
    reqHeaders rq !! "Cookie" = Some (JStr c) /\
    reqHeaders rq !! "User-Agent" = Some (JStr (USER_AGENT env)).
Proof.
  unfold makeRestPutRequest. run_cookie_mutation env s b o needAuth c t.
Qed.

(** X15.  A POST with a body under cookie authentication sends the body
    with the CSRF token merged in, the session cookie and the identifying
    header. *)
Lemma makeRestPostRequest_cookie
    (env : Env) (s : State) (path : string) (b : Ref) (o : Obj)
    (needAuth : bool) (c t : string) :
  needAuth = true \/ private (currentConfig env) = Some true ->
  (forall t' : string, token (currentConfig env) <> Value t') ->
  fst (getCookiesFromJar env s) = Ok (Some c) ->
  fst (getCsrfToken env (snd (getCookiesFromJar env s))) = Ok t ->
  heap s !! b = Some o ->
  exists rq : Request,
    sent (snd (makeRestPostRequest path (Some b) needAuth env s))
    = (sent s ++ [rq])%list /\
    reqMethod rq = "POST" /\
    reqBody rq = Some (JSON_stringify env (<["token" := JStr t]> o)) /\
    reqHeaders rq !! "Cookie" = Some (JStr c) /\
    reqHeaders rq !! "User-Agent" = Some (JStr (USER_AGENT env)).
Proof.
  unfold makeRestPostRequest. run_cookie_mutation env s b o needAuth c t.
Qed.

(** The resolver sends nothing, and the headers it returns differ from the
    ones it was given in [Authorization] and [Cookie] at most. *)
Lemma withAuth_headers (env : Env) (s : State) (hdrs : Ref)
    (bdy : option Ref) (needAuth : bool) (given : Obj) :
  heap s !! hdrs = Some given ->
  sent (snd (withAuth hdrs bdy needAuth env s)) = sent s /\
  forall rc : RequestConfig,
    fst (withAuth hdrs bdy needAuth env s) = Ok rc ->
    exists resolved : Obj,
      heap (snd (withAuth hdrs bdy needAuth env s)) !! headers rc
      = Some resolved /\
      forall k : string,
        k <> "Authorization" -> k <> "Cookie" ->
        resolved !! k = given !! k.
Proof.
  intros Hgiven.
  assert (Hread : forall st : State, heap st = heap s -> readObj st hdrs = given).
  { intros st Hst. unfold readObj. rewrite Hst, Hgiven. reflexivity. }
  remember (withAuth hdrs bdy needAuth env s) as w eqn:Hw.
  unfold withAuth, bind at 1, ask in Hw. simpl in Hw.
  assert (Hsame : forall (hp : list Obj) (rs : list Request),
            hp = heap s -> rs = sent s ->
            rs = sent s /\
            forall rc : RequestConfig,
              @Ok RequestConfig {| headers := hdrs; body := bdy |} = Ok rc ->
              exists resolved : Obj,
                hp !! headers rc = Some resolved /\
                forall k : string,
                  k <> "Authorization" -> k <> "Cookie" ->
                  resolved !! k = given !! k).
  { intros hp rs -> Hsent. split; [exact Hsent |].
    intros rc [= <-]. exists given. simpl. auto. }
  assert (Hnew : forall (hp : list Obj) (rs : list Request) (k : string)
                        (v : JsValue) (rest : list Obj) (ob : option Ref),
            (k = "Authorization" \/ k = "Cookie") ->
            hp = (heap s ++ <[k := v]> given :: rest)%list ->
            rs = sent s ->
            rs = sent s /\
            forall rc : RequestConfig,
              @Ok RequestConfig {| headers := length (heap s); body := ob |}
              = Ok rc ->
              exists resolved : Obj,
                hp !! headers rc = Some resolved /\
                forall k' : string,
                  k' <> "Authorization" -> k' <> "Cookie" ->
                  resolved !! k' = given !! k').
  { intros hp rs k v rest ob Hk -> Hsent. split; [exact Hsent |].
    intros rc [= <-]. exists (<[k := v]> given). simpl. split.
    - rewrite lookup_app_r by lia. rewrite Nat.sub_diag. reflexivity.
    - intros k' Ha Hc. apply lookup_insert_ne. destruct Hk; congruence. }
  destruct (negb needAuth && negb (truthyOptBool (private (currentConfig env)))).
  { subst w. apply Hsame; reflexivity. }
  destruct (token (currentConfig env)) as [| | t].
  3: { subst w. run. rewrite (Hread s eq_refl).
       eapply (Hnew _ _ "Authorization" _ []);
         [auto | reflexivity | reflexivity]. }
  all: unfold bind at 1 in Hw.
  all: pose proof (getCookiesFromJar_frame env s) as (Hheap & _ & Hsent).
  all: destruct (getCookiesFromJar env s) as [[[c |] | e] s1]; simpl in *;
    try (subst w; apply Hsame; assumption);
    try (subst w; simpl; split; [exact Hsent | discriminate]).
  all: unfold spreadWith, bind, load, alloc, ret in Hw; simpl in Hw.
  all: rewrite (Hread s1 Hheap) in Hw.
  all: destruct bdy as [b |]; simpl in Hw.
  all: try rewrite getCsrfToken_run in Hw; simpl in Hw.
  all: try destruct (getMwnOutcome env (mwnCalls s1)) as [mwn | e];
    simpl in Hw.
  all: try destruct (mwnGetCsrfToken mwn) as [csrf | e]; simpl in Hw.
  all: subst w; simpl;
    try (split; [exact Hsent | discriminate]).
  all: rewrite Hheap.
  all: try (eapply (Hnew _ _ "Cookie" _ []);
            [auto | reflexivity | exact Hsent]; fail).
  all: rewrite <- app_assoc; simpl; eapply (Hnew _ _ "Cookie" _ [_]);
    [auto | reflexivity | exact Hsent].
Qed.

(** [fetchCore] sends an identified request when the headers it is given
    name no agent. *)
Lemma fetchCore_identified (env : Env) (s : State) (baseUrl : string)
    (options : FetchOptions) :
  (forall h : nat,
     optHeaders options = Some h ->
     exists hs : Obj, heap s !! h = Some hs /\ hs !! "User-Agent" = None) ->
  sendsIdentified env s (snd (fetchCore baseUrl options env s)).
Proof.
  intros Hplain.
  destruct (fetchCore_sends env s baseUrl options)
    as (rq & Hsent & _ & Hsome & Hnone & _).
  exists [rq]. split; [exact Hsent |].
  constructor; [| constructor]. unfold identified.
  destruct (optHeaders options) as [h |] eqn:Hh.
  - destruct (Hplain h eq_refl) as (hs & Hlook & Hua).
    rewrite (Hsome h hs eq_refl Hlook).
    rewrite lookup_union_r by exact Hua. apply lookup_singleton_eq.
  - rewrite (Hnone eq_refl). apply lookup_singleton_eq.
Qed.

(** Resolving the credentials, then sending: the pipeline of the three
    REST entry points. *)
Lemma resolved_fetch_identified (env : Env) (s : State) (hdrs : Ref)
    (bdy : option Ref) (needAuth : bool) (given : Obj) (path : string)
    (opts : RequestConfig -> FetchOptions) :
  heap s !! hdrs = Some given ->
  given !! "User-Agent" = None ->
  (forall rc : RequestConfig, optHeaders (opts rc) = Some (headers rc)) ->
  sendsIdentified env s
    (snd ((auth <- withAuth hdrs bdy needAuth ;;
           base <- getRestApiBase ;;
           response <- fetchCore (base ++ path) (opts auth) ;;
           await (json response)) env s)).
Proof.
  intros Hgiven Hua Hopts.
  destruct (withAuth_headers env s hdrs bdy needAuth given Hgiven)
    as (Hsent & Hresolved).
  unfold bind at 1.
  destruct (withAuth hdrs bdy needAuth env s) as [[rc | e] s1]; simpl in *.
  - destruct (Hresolved rc eq_refl) as (resolved & Hlook & Hkeys).
    unfold bind at 1.
    destruct (getRestApiBase_run env s1) as (base & ->).
    unfold bind at 1.
    pose proof (fetchCore_identified env s1 (base ++ path) (opts rc)) as Hid.
    destruct (fetchCore (base ++ path) (opts rc) env s1) as [resp s2].
    simpl in Hid. unfold sendsIdentified in *.
    rewrite decode_sent. rewrite <- Hsent. apply Hid.
    intros h Hh. rewrite Hopts in Hh. injection Hh as <-.
    exists resolved. split; [exact Hlook |].
    rewrite Hkeys by discriminate. exact Hua.
  - exists []. rewrite app_nil_r. split; [exact Hsent | constructor].
Qed.

(** The six exported functions, one by one. *)
Lemma exported_requests_identified (env : Env) (s : State) :
  (forall (target : string) (prms : option (gmap string string)),
     sendsIdentified env s (snd (makeApiRequest target prms env s))) /\
  (forall (path : string) (prms : option (gmap string string))
          (needAuth : bool),
     sendsIdentified env s
       (snd (makeRestGetRequest path prms needAuth env s))) /\
  (forall (path : string) (b : Ref) (needAuth : bool),
     sendsIdentified env s (snd (makeRestPutRequest path b needAuth env s))) /\
  (forall (path : string) (b : option Ref) (needAuth : bool),
     sendsIdentified env s (snd (makeRestPostRequest path b needAuth env s))) /\
  (forall target : string,
     sendsIdentified env s (snd (fetchPageHtml target env s))) /\
  (forall target : string,
     sendsIdentified env s (snd (fetchImageAsBase64 target env s))).
Proof.
  assert (Hlast : forall o : Obj,
            (heap s ++ [o])%list !! length (heap s) = Some o).
  { intros o. rewrite lookup_app_r by lia. rewrite Nat.sub_diag. reflexivity. }
  repeat split.
  - intros target prms. unfold makeApiRequest, bind at 1, alloc. simpl.
    unfold bind at 1.
    match goal with
    | |- context [fetchCore ?u ?opts env ?st] =>
        pose proof (fetchCore_identified env st u opts) as Hid;
        destruct (fetchCore u opts env st) as [resp s2]
    end.
    simpl in Hid. unfold sendsIdentified in *. rewrite decode_sent.
    apply Hid. intros h [= <-]. eexists. split; [apply Hlast |].
    vm_compute. reflexivity.
  - intros path prms needAuth.
    unfold makeRestGetRequest, bind at 1, alloc. simpl.
    match goal with
    | |- sendsIdentified env s (snd (?c env ?st)) =>
        change (sendsIdentified env st (snd (c env st)))
    end.
    eapply (resolved_fetch_identified env _ _ None needAuth _ path
              (fun auth => {| params := prms; optHeaders := Some (headers auth);
                              optBody := None; method := None |}));
      [apply Hlast | vm_compute; reflexivity | reflexivity].
  - intros path b needAuth.
    unfold makeRestPutRequest, bind at 1, alloc. simpl.
    match goal with
    | |- sendsIdentified env s (snd (?c env ?st)) =>
        change (sendsIdentified env st (snd (c env st)))
    end.
    eapply (resolved_fetch_identified env _ _ (Some b) needAuth _ path
              (fun auth => {| params := None; optHeaders := Some (headers auth);
                              optBody := body auth; method := Some "PUT" |}));
      [apply Hlast | vm_compute; reflexivity | reflexivity].
  - intros path b needAuth.
    unfold makeRestPostRequest, bind at 1, alloc. simpl.
    match goal with
    | |- sendsIdentified env s (snd (?c env ?st)) =>
        change (sendsIdentified env st (snd (c env st)))
    end.
    eapply (resolved_fetch_identified env _ _ b needAuth _ path
              (fun auth => {| params := None; optHeaders := Some (headers auth);
                              optBody := body auth; method := Some "POST" |}));
      [apply Hlast | vm_compute; reflexivity | reflexivity].
  - intros target. unfold fetchPageHtml, tryCatch, bind.
    rewrite fetchCore_plain.
    eexists [_]. split.
    + destruct (fetchOutcome env _ _) as [r | e]; simpl; [| reflexivity].
      destruct (ok r); simpl; [| reflexivity].
      unfold await, ret. destruct (text r); reflexivity.
    + constructor; [apply lookup_singleton_eq | constructor].
  - intros target. unfold fetchImageAsBase64, tryCatch, bind.
    rewrite fetchCore_plain.
    eexists [_]. split.
    + destruct (fetchOutcome env _ _) as [r | e]; simpl; [| reflexivity].
      destruct (ok r); simpl; [| reflexivity].
      unfold await, ret. destruct (arrayBuffer r); reflexivity.
    + constructor; [apply lookup_singleton_eq | constructor].
Qed.

(** X26.  Every request an exported function sends carries the fixed
    identifying header, in every authentication mode: none of them passes
    headers that name another agent. *)
Lemma facade_identified (env : Env) (s : State) :
  (forall (target : string) (prms : option (gmap string string)),
     sendsIdentified env s (snd (makeApiRequest target prms env s))) /\
  (forall (path : string) (prms : option (gmap string string))
          (needAuth : bool),
     sendsIdentified env s
       (snd (makeRestGetRequest path prms needAuth env s))) /\
  (forall (path : string) (b : Ref) (needAuth : bool),
     sendsIdentified env s (snd (makeRestPutRequest path b needAuth env s))) /\
  (forall (path : string) (b : option Ref) (needAuth : bool),
     sendsIdentified env s (snd (makeRestPostRequest path b needAuth env s))) /\
  (forall target : string,
     sendsIdentified env s (snd (fetchPageHtml target env s))) /\
  (forall target : string,
     sendsIdentified env s (snd (fetchImageAsBase64 target env s))).
Proof. exact (exported_requests_identified env s). Qed.

(** C8.  Every request that goes out through [fetchCore] carries
    [User-Agent] set to the fixed identifying string.  [fetchCore] is not
    exported: its callers are the six exported functions, and whatever
    their arguments (URL or path, params, body, [needAuth]), the
    configuration and the session (so the authentication mode) and the
    transport are, every request they hand to [fetch] has that header. *)
Theorem outbound_user_agent (env : Env) (s after : State) :
  (exists (target : string) (prms : option (gmap string string)),
     after = snd (makeApiRequest target prms env s)) \/
  (exists (path : string) (prms : option (gmap string string))
          (needAuth : bool),
     after = snd (makeRestGetRequest path prms needAuth env s)) \/
  (exists (path : string) (b : Ref) (needAuth : bool),
     after = snd (makeRestPutRequest path b needAuth env s)) \/
  (exists (path : string) (b : option Ref) (needAuth : bool),
     after = snd (makeRestPostRequest path b needAuth env s)) \/
  (exists target : string, after = snd (fetchPageHtml target env s)) \/
  (exists target : string, after = snd (fetchImageAsBase64 target env s)) ->
  exists new : list Request,
    sent after = (sent s ++ new)%list /\
    forall rq : Request,
      In rq new ->
      reqHeaders rq !! "User-Agent" = Some (JStr (USER_AGENT env)).
Proof.
  intros Hcall.
  assert (Hid : sendsIdentified env s after).
  { destruct (exported_requests_identified env s)
      as (Hapi & Hget & Hput & Hpost & Hhtml & Himg).
    destruct Hcall as [(target & prms & ->)
                      | [(path & prms & needAuth & ->)
                        | [(path & b & needAuth & ->)
                          | [(path & b & needAuth & ->)
                            | [(target & ->) | (target & ->)]]]]].
    - apply Hapi.
    - apply Hget.
    - apply Hput.
    - apply Hpost.
    - apply Hhtml.
    - apply Himg. }
  destruct Hid as (new & Hsent & Hall).
  exists new. split; [exact Hsent |].
  intros rq Hin. rewrite Forall_forall in Hall.
  apply (Hall rq). apply list_elem_of_In. exact Hin.
Qed.

Lemma outbound_user_agent_witness :
  exists new : list Request,
    sent (snd (makeRestPutRequest "/v1/page/Rocq" 1 true Samples.loggedIn
                 Samples.start)) = ([] ++ new)%list /\
    forall rq : Request,
      In rq new ->
      reqHeaders rq !! "User-Agent" = Some (JStr "mediawiki-mcp-server/0.1").
Proof.
  apply (outbound_user_agent Samples.loggedIn Samples.start
           (snd (makeRestPutRequest "/v1/page/Rocq" 1 true Samples.loggedIn
                   Samples.start))).
  right. right. left. exists "/v1/page/Rocq", 1, true. reflexivity.
Defined.

Example formatEditComment_samples :
  formatEditComment "MyTool" None
  = "Automated edit (via MyTool on MediaWiki MCP Server)" /\
  formatEditComment "MyTool" (Some "fix typo")
  = "fix typo (via MyTool on MediaWiki MCP Server)".
Proof. split; reflexivity. Qed.

(** A PUT on Wikipedia with a bot-password session, sent to a server that
    answers 200. *)
Example makeRestPutRequest_logged_in :
  sent (snd (makeRestPutRequest "/v1/page/Rocq" 1 true
               (Samples.mkEnv Samples.wikipedia
                  (Ok (Samples.session
                         (Samples.jarFor "https://en.wikipedia.org" "sid=1")
                         "7d1a0c"))
                  (Samples.serving "")) Samples.start))
  = [{| reqUrl := "https://en.wikipedia.org/w/rest.php/v1/page/Rocq";
        reqHeaders :=
          <["Cookie" := JStr "sid=1"]>
            (<["User-Agent" := JStr "mediawiki-mcp-server/0.1"]> jsonHeaders);
        reqMethod := "PUT";
        reqBody := Some "{token:7d1a0c}" |}].
Proof. vm_compute. reflexivity. Qed.

(** * Further properties of the module *)

(** ** The cookie path of the resolver *)

(** With authentication mandatory and no token, the resolver is its cookie
    path. *)
Lemma withAuth_cookie_path (env : Env) (s : State) (hdrs : Ref)
    (bdy : option Ref) (needAuth : bool) :
  needAuth = true \/ private (currentConfig env) = Some true ->
  (forall t : string, token (currentConfig env) <> Value t) ->
  withAuth hdrs bdy needAuth env s
  = (cookies <- getCookiesFromJar ;;
     match cookies with
     | None => ret {| headers := hdrs; body := bdy |}
     | Some c =>
         h <- spreadWith hdrs "Cookie" (JStr c) ;;
         match bdy with
         | Some b =>
             o <- load b ;;
             csrf <- getCsrfToken ;;
             b' <- alloc (<["token" := JStr csrf]> o) ;;
             ret {| headers := h; body := Some b' |}
         | None => ret {| headers := h; body := bdy |}
         end
     end) env s.
Proof.
  intros Hmust Htok.
  assert (Hanon : negb needAuth
                  && negb (truthyOptBool (private (currentConfig env))) = false).
  { destruct Hmust as [-> | ->]; [reflexivity |].
    simpl. apply andb_false_r. }
  unfold withAuth, bind at 1, ask. simpl. rewrite Hanon.
  destruct (token (currentConfig env)) as [| | t]; try reflexivity.
  exfalso. apply (Htok t). reflexivity.
Qed.

(** X1.  Authentication is mandatory and there is no token, but the session
    has no cookie to offer (no jar, or nothing in it for this wiki): the
    resolver does not fail.  It returns the caller's own headers and body,
    builds nothing, and does not fetch a CSRF token. *)
Theorem withAuth_no_cookie_passthrough (env : Env) (s : State) (hdrs : Ref)
    (bdy : option Ref) (needAuth : bool) :
  needAuth = true \/ private (currentConfig env) = Some true ->
  (forall t : string, token (currentConfig env) <> Value t) ->
  fst (getCookiesFromJar env s) = Ok None ->
  fst (withAuth hdrs bdy needAuth env s)
  = Ok {| headers := hdrs; body := bdy |} /\
  heap (snd (withAuth hdrs bdy needAuth env s)) = heap s /\
  mwnCalls (snd (withAuth hdrs bdy needAuth env s)) = S (mwnCalls s).
Proof.
  intros Hmust Htok Hnone.
  pose proof (getCookiesFromJar_frame env s) as (Hheap & Hcalls & _).
  assert (Hrun : withAuth hdrs bdy needAuth env s
                 = (Ok {| headers := hdrs; body := bdy |},
                    snd (getCookiesFromJar env s))).
  { rewrite (withAuth_cookie_path env s hdrs bdy needAuth Hmust Htok).
    unfold bind at 1.
    destruct (getCookiesFromJar env s) as [r s1]. simpl in *. subst r.
    reflexivity. }
  rewrite Hrun. simpl. split; [reflexivity |].
  split; [exact Hheap | exact Hcalls].
Qed.

Lemma withAuth_no_cookie_passthrough_witness :
  fst (withAuth 0 (Some 1) true
         (Samples.mkEnv Samples.wikipedia (Ok Samples.noJar) Samples.offline)
         Samples.start)
  = Ok {| headers := 0; body := Some 1 |}.
Proof.
  apply (withAuth_no_cookie_passthrough
           (Samples.mkEnv Samples.wikipedia (Ok Samples.noJar) Samples.offline)
           Samples.start 0 (Some 1) true).
  - left. reflexivity.
  - intros t Ht. discriminate Ht.
  - reflexivity.
Defined.

(** X2.  A call without a body on the cookie path gets the [Cookie] header
    and nothing else: the body stays absent and no CSRF token is fetched
    (the session client is asked for once, by the cookie lookup). *)
Theorem withAuth_cookie_no_body (env : Env) (s : State) (hdrs : Ref)
    (needAuth : bool) (c : string) :
  needAuth = true \/ private (currentConfig env) = Some true ->
  (forall t : string, token (currentConfig env) <> Value t) ->
  fst (getCookiesFromJar env s) = Ok (Some c) ->
  exists s' : State,
    withAuth hdrs None needAuth env s
    = (Ok {| headers := length (heap s); body := None |}, s') /\
    heap s' = (heap s ++ [<["Cookie" := JStr c]> (readObj s hdrs)])%list /\
    mwnCalls s' = S (mwnCalls s).
Proof.
  intros Hmust Htok Hsome.
  rewrite (withAuth_cookie_path env s hdrs None needAuth Hmust Htok).
  pose proof (getCookiesFromJar_frame env s) as (Hheap & Hcalls & _).
  unfold bind at 1.
  destruct (getCookiesFromJar env s) as [r s1]. simpl in *. subst r.
  unfold spreadWith, bind, load, alloc, ret. simpl.
  eexists. split; [rewrite Hheap; reflexivity |]. simpl.
  unfold readObj. rewrite Hheap. split; [reflexivity | exact Hcalls].
Qed.

Lemma withAuth_cookie_no_body_witness :
  exists s' : State,
    withAuth 0 None true Samples.loggedIn Samples.start
    = (Ok {| headers := 2; body := None |}, s') /\
    heap s' !! 2 = Some (<["Cookie" := JStr "sid=1"]> Samples.acceptJson) /\
    mwnCalls s' = 1.
Proof.
  destruct (withAuth_cookie_no_body Samples.loggedIn Samples.start 0 true
              "sid=1" (or_introl eq_refl)
              (fun t Ht => ltac:(discriminate Ht)) eq_refl)
    as (s' & Hrun & Hheap & Hcalls).
  exists s'. split; [exact Hrun |]. split; [| exact Hcalls].
  rewrite Hheap. reflexivity.
Defined.

(** ** What the resolver leaves alone *)

(** The cookie lookup asks the jar at most twice. *)
Lemma getCookiesFromJar_queries (env : Env) (s : State) :
  exists qs : list string,
    jarQueries (snd (getCookiesFromJar env s)) = (jarQueries s ++ qs)%list /\
    length qs <= 2.
Proof.
  run. destruct (getMwnOutcome env (mwnCalls s)) as [mwn | e]; simpl;
    [| exists []; rewrite app_nil_r; auto].
  destruct (cookieJar mwn) as [jar |]; simpl;
    [| exists []; rewrite app_nil_r; auto].
  destruct (truthyString _); simpl.
  - eexists [_]. split; [reflexivity | simpl; lia].
  - eexists [_; _]. rewrite <- app_assoc. split; [reflexivity | simpl; lia].
Qed.

Lemma withAuth_counts (env : Env) (s : State) (hdrs : Ref)
    (bdy : option Ref) (needAuth : bool) :
  let s' := snd (withAuth hdrs bdy needAuth env s) in
  sent s' = sent s /\
  mwnCalls s <= mwnCalls s' <= mwnCalls s + 2 /\
  (exists qs : list string,
     jarQueries s' = (jarQueries s ++ qs)%list /\ length qs <= 2) /\
  (exists fresh : list Obj,
     heap s' = (heap s ++ fresh)%list /\ length fresh <= 2).
Proof.
  intros s'. unfold s'. clear s'.
  remember (withAuth hdrs bdy needAuth env s) as w eqn:Hw.
  unfold withAuth, bind at 1, ask in Hw. simpl in Hw.
  assert (Hq0 : exists qs : list string,
            jarQueries s = (jarQueries s ++ qs)%list /\ length qs <= 2).
  { exists []. rewrite app_nil_r. simpl. split; [reflexivity | lia]. }
  destruct (negb needAuth && negb (truthyOptBool (private (currentConfig env)))).
  { subst w. simpl. split; [reflexivity |]. split; [lia |].
    split; [exact Hq0 |]. exists []. rewrite app_nil_r. simpl.
    split; [reflexivity | lia]. }
  destruct (token (currentConfig env)) as [| | t].
  3: { subst w. run. split; [reflexivity |]. split; [lia |].
       split; [exact Hq0 |]. eexists. split; [reflexivity | simpl; lia]. }
  all: unfold bind at 1 in Hw.
  all: pose proof (getCookiesFromJar_frame env s) as (Hheap & Hcalls & Hsent).
  all: pose proof (getCookiesFromJar_queries env s) as Hqs.
  all: destruct (getCookiesFromJar env s) as [[[c |] | e] s1]; simpl in *.
  all: try (subst w; simpl; split; [exact Hsent |]; split; [lia |];
            split; [exact Hqs |]; exists []; rewrite app_nil_r; simpl;
            split; [exact Hheap | lia]).
  all: unfold spreadWith, bind, load, alloc, ret in Hw; simpl in Hw.
  all: destruct bdy as [b |]; simpl in Hw.
  all: try rewrite getCsrfToken_run in Hw; simpl in Hw.
  all: try destruct (getMwnOutcome env (mwnCalls s1)) as [mwn | e];
    simpl in Hw.
  all: try destruct (mwnGetCsrfToken mwn) as [csrf | e]; simpl in Hw.
  all: subst w; simpl; rewrite ?Hheap, <- ?app_assoc; simpl.
  all: split; [exact Hsent |]; split; [lia |]; split; [exact Hqs |].
  all: eexists; split; [reflexivity | simpl; lia].
Qed.

(** X3.  [withAuth] itself never sends an HTTP request.  It asks for the
    session client at most twice and the cookie jar at most twice, and it
    adds at most two objects to the store. *)
Theorem withAuth_quiet (env : Env) (s : State) (hdrs : Ref)
    (bdy : option Ref) (needAuth : bool) :
  let s' := snd (withAuth hdrs bdy needAuth env s) in
  sent s' = sent s /\
  mwnCalls s <= mwnCalls s' <= mwnCalls s + 2 /\
  (exists qs : list string,
     jarQueries s' = (jarQueries s ++ qs)%list /\ length qs <= 2) /\
  (exists fresh : list Obj,
     heap s' = (heap s ++ fresh)%list /\ length fresh <= 2).
Proof. exact (withAuth_counts env s hdrs bdy needAuth). Qed.

(** X4.  With a token configured the resolver never touches the session:
    whatever [needAuth] and [private] are, it neither asks for the session
    client nor queries the cookie jar, and it always returns. *)
Theorem withAuth_token_no_session (env : Env) (s : State) (hdrs : Ref)
    (bdy : option Ref) (needAuth : bool) (t : string) :
  token (currentConfig env) = Value t ->
  let out := withAuth hdrs bdy needAuth env s in
  (exists rc : RequestConfig, fst out = Ok rc) /\
  mwnCalls (snd out) = mwnCalls s /\
  jarQueries (snd out) = jarQueries s.
Proof.
  intros Htok out. unfold out. clear out.
  remember (withAuth hdrs bdy needAuth env s) as w eqn:Hw.
  unfold withAuth, bind at 1, ask in Hw. simpl in Hw. rewrite Htok in Hw.
  destruct (negb needAuth && negb (truthyOptBool (private (currentConfig env))));
    subst w; run; (split; [eexists; reflexivity | split; reflexivity]).
Qed.

Lemma withAuth_token_no_session_witness :
  mwnCalls (snd (withAuth 0 (Some 1) true
                   (Samples.mkEnv (Samples.withToken "s3cret" Samples.wikipedia)
                      Samples.noSession Samples.offline) Samples.start)) = 0.
Proof.
  apply (withAuth_token_no_session
           (Samples.mkEnv (Samples.withToken "s3cret" Samples.wikipedia)
              Samples.noSession Samples.offline)
           Samples.start 0 (Some 1) true "s3cret" eq_refl).
Defined.

(** ** Failures of the session *)

Lemma withAuth_lookup_failure (env : Env) (s : State) (hdrs : Ref)
    (bdy : option Ref) (needAuth : bool) (e : Exn) :
  needAuth = true \/ private (currentConfig env) = Some true ->
  (forall t : string, token (currentConfig env) <> Value t) ->
  fst (getCookiesFromJar env s) = Err e ->
  fst (withAuth hdrs bdy needAuth env s) = Err e.
Proof.
  intros Hmust Htok Hfail.
  rewrite (withAuth_cookie_path env s hdrs bdy needAuth Hmust Htok).
  unfold bind at 1.
  destruct (getCookiesFromJar env s) as [r s1]. simpl in *. subst r.
  reflexivity.
Qed.

Lemma withAuth_csrf_failure (env : Env) (s : State) (hdrs b : Ref)
    (needAuth : bool) (c : string) (e : Exn) :
  needAuth = true \/ private (currentConfig env) = Some true ->
  (forall t : string, token (currentConfig env) <> Value t) ->
  fst (getCookiesFromJar env s) = Ok (Some c) ->
  fst (getCsrfToken env (snd (getCookiesFromJar env s))) = Err e ->
  fst (withAuth hdrs (Some b) needAuth env s) = Err e.
Proof.
  intros Hmust Htok Hsome Hcsrf.
  rewrite (withAuth_cookie_path env s hdrs (Some b) needAuth Hmust Htok).
  unfold bind at 1.
  destruct (getCookiesFromJar env s) as [r s1]. simpl in *. subst r.
  rewrite getCsrfToken_run in Hcsrf. simpl in Hcsrf.
  unfold spreadWith, bind, load, alloc, ret. simpl.
  rewrite getCsrfToken_run. simpl. rewrite Hcsrf. reflexivity.
Qed.

(** When the resolver throws, the REST pipeline throws the same error and
    sends nothing. *)
Lemma rest_pipeline_throws (env : Env) (s : State) (hdrs : Ref)
    (bdy : option Ref) (needAuth : bool) (path : string)
    (opts : RequestConfig -> FetchOptions) (e : Exn) :
  fst (withAuth hdrs bdy needAuth env s) = Err e ->
  fst ((auth <- withAuth hdrs bdy needAuth ;;
        base <- getRestApiBase ;;
        response <- fetchCore (base ++ path) (opts auth) ;;
        await (json response)) env s) = Err e /\
  sent (snd ((auth <- withAuth hdrs bdy needAuth ;;
              base <- getRestApiBase ;;
              response <- fetchCore (base ++ path) (opts auth) ;;
              await (json response)) env s)) = sent s.
Proof.
  intros Hfail.
  pose proof (withAuth_counts env s hdrs bdy needAuth) as (Hsent & _).
  match goal with
  | |- fst ?p = _ /\ _ => remember p as out eqn:Hout
  end.
  unfold bind at 1 in Hout.
  destruct (withAuth hdrs bdy needAuth env s) as [r s1]. simpl in *. subst r.
  subst out. split; [reflexivity | exact Hsent].
Qed.

Lemma getCsrfToken_withHeap (env : Env) (s : State) (hp : list Obj) :
  fst (getCsrfToken env (withHeap hp s)) = fst (getCsrfToken env s).
Proof. rewrite !getCsrfToken_run. reflexivity. Qed.

(** X5.  When authentication is mandatory, no token is configured and the
    session client cannot be obtained, [withAuth] throws that failure and
    so does every REST entry point; none of them sends a request. *)
Theorem session_failure_blocks_request (env : Env) (s : State)
    (needAuth : bool) (e : Exn) :
  needAuth = true \/ private (currentConfig env) = Some true ->
  (forall t : string, token (currentConfig env) <> Value t) ->
  getMwnOutcome env (mwnCalls s) = Err e ->
  (forall (hdrs : Ref) (bdy : option Ref),
     fst (withAuth hdrs bdy needAuth env s) = Err e) /\
  (forall (path : string) (prms : option (gmap string string)),
     fst (makeRestGetRequest path prms needAuth env s) = Err e /\
     sent (snd (makeRestGetRequest path prms needAuth env s)) = sent s) /\
  (forall (path : string) (b : Ref),
     fst (makeRestPutRequest path b needAuth env s) = Err e /\
     sent (snd (makeRestPutRequest path b needAuth env s)) = sent s) /\
  (forall (path : string) (b : option Ref),
     fst (makeRestPostRequest path b needAuth env s) = Err e /\
     sent (snd (makeRestPostRequest path b needAuth env s)) = sent s).
Proof.
  intros Hmust Htok Hfail.
  assert (Hlookup : forall hp : list Obj,
            fst (getCookiesFromJar env (withHeap hp s)) = Err e).
  { intros hp. rewrite getCookiesFromJar_withHeap. simpl.
    run. rewrite Hfail. reflexivity. }
  assert (Hauth : forall (hp : list Obj) (hdrs : Ref) (bdy : option Ref),
            fst (withAuth hdrs bdy needAuth env (withHeap hp s)) = Err e).
  { intros hp hdrs bdy.
    apply withAuth_lookup_failure; [exact Hmust | exact Htok | apply Hlookup]. }
  split; [| split; [| split]].
  - intros hdrs bdy. apply withAuth_lookup_failure; [exact Hmust | exact Htok |].
    run. rewrite Hfail. reflexivity.
  - intros path prms.
    apply (rest_pipeline_throws env (withHeap (heap s ++ [_]) s) _ None
             needAuth path
             (fun auth => {| params := prms; optHeaders := Some (headers auth);
                             optBody := None; method := None |}) e).
    apply Hauth.
  - intros path b.
    apply (rest_pipeline_throws env (withHeap (heap s ++ [_]) s) _ (Some b)
             needAuth path
             (fun auth => {| params := None; optHeaders := Some (headers auth);
                             optBody := body auth; method := Some "PUT" |}) e).
    apply Hauth.
  - intros path b.
    apply (rest_pipeline_throws env (withHeap (heap s ++ [_]) s) _ b
             needAuth path
             (fun auth => {| params := None; optHeaders := Some (headers auth);
                             optBody := body auth; method := Some "POST" |}) e).
    apply Hauth.
Qed.

Lemma session_failure_blocks_request_witness :
  fst (makeRestPutRequest "/v1/page/Rocq" 1 true
         (Samples.mkEnv Samples.wikipedia Samples.noSession
            (Samples.serving "")) Samples.start)
  = Err (Error "login failed") /\
  sent (snd (makeRestPutRequest "/v1/page/Rocq" 1 true
               (Samples.mkEnv Samples.wikipedia Samples.noSession
                  (Samples.serving "")) Samples.start)) = [].
Proof.
  apply (session_failure_blocks_request
           (Samples.mkEnv Samples.wikipedia Samples.noSession
              (Samples.serving "")) Samples.start true (Error "login failed")
           (or_introl eq_refl) (fun t Ht => ltac:(discriminate Ht)) eq_refl).
Defined.

(** X6.  On the cookie path a failed CSRF fetch stops a PUT or a POST with
    a body: the entry point throws the failure of the fetch and no request
    is sent. *)
Theorem csrf_failure_blocks_mutation (env : Env) (s : State)
    (needAuth : bool) (c : string) (e : Exn) :
  needAuth = true \/ private (currentConfig env) = Some true ->
  (forall t : string, token (currentConfig env) <> Value t) ->
  fst (getCookiesFromJar env s) = Ok (Some c) ->
  fst (getCsrfToken env (snd (getCookiesFromJar env s))) = Err e ->
  (forall (path : string) (b : Ref),
     fst (makeRestPutRequest path b needAuth env s) = Err e /\
     sent (snd (makeRestPutRequest path b needAuth env s)) = sent s) /\
  (forall (path : string) (b : Ref),
     fst (makeRestPostRequest path (Some b) needAuth env s) = Err e /\
     sent (snd (makeRestPostRequest path (Some b) needAuth env s)) = sent s).
Proof.
  intros Hmust Htok Hsome Hcsrf.
  assert (Hauth : forall (hp : list Obj) (hdrs b : Ref),
            fst (withAuth hdrs (Some b) needAuth env (withHeap hp s)) = Err e).
  { intros hp hdrs b.
    apply (withAuth_csrf_failure env (withHeap hp s) hdrs b needAuth c e
             Hmust Htok).
    - rewrite getCookiesFromJar_withHeap. exact Hsome.
    - rewrite getCookiesFromJar_withHeap. cbn [snd].
      rewrite getCsrfToken_withHeap. exact Hcsrf. }
  split.
  - intros path b.
    apply (rest_pipeline_throws env (withHeap (heap s ++ [_]) s) _ (Some b)
             needAuth path
             (fun auth => {| params := None; optHeaders := Some (headers auth);
                             optBody := body auth; method := Some "PUT" |}) e).
    apply Hauth.
  - intros path b.
    apply (rest_pipeline_throws env (withHeap (heap s ++ [_]) s) _ (Some b)
             needAuth path
             (fun auth => {| params := None; optHeaders := Some (headers auth);
                             optBody := body auth; method := Some "POST" |}) e).
    apply Hauth.
Qed.

Lemma csrf_failure_blocks_mutation_witness :
  fst (makeRestPostRequest "/v1/page" (Some 1) true
         (Samples.mkEnv Samples.wikipedia (Ok Samples.csrfDown)
            (Samples.serving "")) Samples.start)
  = Err (Error "badtoken") /\
  sent (snd (makeRestPostRequest "/v1/page" (Some 1) true
               (Samples.mkEnv Samples.wikipedia (Ok Samples.csrfDown)
                  (Samples.serving "")) Samples.start)) = [].
Proof.
  apply (proj2 (csrf_failure_blocks_mutation
                  (Samples.mkEnv Samples.wikipedia (Ok Samples.csrfDown)
                     (Samples.serving "")) Samples.start true "sid=1"
                  (Error "badtoken")
                  (or_introl eq_refl) (fun t Ht => ltac:(discriminate Ht))
                  eq_refl eq_refl)).
Defined.

(** ** More on the cookie lookup *)

(** X7.  A cookie string the lookup returns is never empty, and it is the
    jar's answer to the last question the lookup asked. *)
Theorem getCookiesFromJar_result_nonempty (env : Env) (s : State)
    (c : string) :
  fst (getCookiesFromJar env s) = Ok (Some c) ->
  c <> "" /\
  exists (mwn : Mwn) (jar : CookieJar) (qs : list string) (u : string),
    getMwnOutcome env (mwnCalls s) = Ok mwn /\
    cookieJar mwn = Some jar /\
    jarQueries (snd (getCookiesFromJar env s))
    = (jarQueries s ++ qs ++ [u])%list /\
    c = getCookieStringSync jar u.
Proof.
  intros Hres.
  remember (getCookiesFromJar env s) as out eqn:Hout.
  unfold getCookiesFromJar, bind at 1, getMwn in Hout.
  destruct (getMwnOutcome env (mwnCalls s)) as [mwn | e];
    [| subst out; discriminate Hres].
  destruct (cookieJar mwn) as [jar |] eqn:Hjar;
    [| subst out; discriminate Hres].
  unfold bind, ask, jarLookup, ret in Hout. simpl in Hout.
  match type of Hout with
  | context [truthyString (getCookieStringSync jar ?u)] =>
      set (restUrl := u) in *;
      destruct (getCookieStringSync jar restUrl) as [| a first] eqn:Hfirst
  end; simpl in Hout.
  - destruct (getCookieStringSync jar (server (currentConfig env)))
      as [| a second] eqn:Hsecond; simpl in Hout; subst out;
      [discriminate Hres |].
    simpl in Hres. injection Hres as <-. split; [discriminate |].
    exists mwn, jar, [restUrl], (server (currentConfig env)). simpl.
    rewrite <- app_assoc. auto.
  - subst out. simpl in Hres. injection Hres as <-. split; [discriminate |].
    exists mwn, jar, [], restUrl. simpl. auto.
Qed.

Lemma getCookiesFromJar_result_nonempty_witness :
  "sid=1" <> "" /\
  exists (mwn : Mwn) (jar : CookieJar) (qs : list string) (u : string),
    getMwnOutcome Samples.loggedIn 0 = Ok mwn /\
    cookieJar mwn = Some jar /\
    jarQueries (snd (getCookiesFromJar Samples.loggedIn Samples.start))
    = ([] ++ qs ++ [u])%list /\
    "sid=1" = getCookieStringSync jar u.
Proof.
  apply (getCookiesFromJar_result_nonempty Samples.loggedIn Samples.start
           "sid=1" eq_refl).
Defined.

(** X8.  Without a session client, or with a client that has no cookie
    jar, the lookup asks no jar anything and does not touch the store: the
    failure of [getMwn] is thrown as it is, a missing jar gives
    [undefined]. *)
Theorem getCookiesFromJar_without_jar (env : Env) (s : State) :
  (forall e : Exn,
     getMwnOutcome env (mwnCalls s) = Err e ->
     fst (getCookiesFromJar env s) = Err e /\
     jarQueries (snd (getCookiesFromJar env s)) = jarQueries s) /\
  (forall mwn : Mwn,
     getMwnOutcome env (mwnCalls s) = Ok mwn -> cookieJar mwn = None ->
     fst (getCookiesFromJar env s) = Ok None /\
     jarQueries (snd (getCookiesFromJar env s)) = jarQueries s).
Proof.
  split.
  - intros e He. run. rewrite He. split; reflexivity.
  - intros mwn Hm Hj. run. rewrite Hm. simpl. rewrite Hj. split; reflexivity.
Qed.

Lemma getCookiesFromJar_without_jar_witness :
  fst (getCookiesFromJar
         (Samples.mkEnv Samples.wikipedia (Ok Samples.noJar) Samples.offline)
         Samples.start) = Ok None /\
  fst (getCookiesFromJar
         (Samples.mkEnv Samples.wikipedia Samples.noSession Samples.offline)
         Samples.start) = Err (Error "login failed").
Proof.
  split.
  - apply (proj2 (getCookiesFromJar_without_jar
                    (Samples.mkEnv Samples.wikipedia (Ok Samples.noJar)
                       Samples.offline) Samples.start)
             Samples.noJar eq_refl eq_refl).
  - apply (proj1 (getCookiesFromJar_without_jar
                    (Samples.mkEnv Samples.wikipedia Samples.noSession
                       Samples.offline) Samples.start)
             (Error "login failed") eq_refl).
Defined.

(** X9.  The cookies are looked up for the very URL the REST requests are
    built on: when there is a jar, the first URL asked of it is the value
    of [getRestApiBase]. *)
Theorem cookie_scope_is_rest_base (env : Env) (s : State) (mwn : Mwn)
    (jar : CookieJar) :
  getMwnOutcome env (mwnCalls s) = Ok mwn ->
  cookieJar mwn = Some jar ->
  exists (base : string) (more : list string),
    fst (getRestApiBase env s) = Ok base /\
    jarQueries (snd (getCookiesFromJar env s))
    = (jarQueries s ++ base :: more)%list.
Proof.
  intros Hm Hj. run. rewrite Hm. simpl. rewrite Hj. simpl.
  eexists. 
  match goal with
  | |- context [truthyString ?x] => destruct (truthyString x)
  end; simpl.
  - exists []. split; reflexivity.
  - eexists [_]. rewrite <- app_assoc. split; reflexivity.
Qed.

Lemma cookie_scope_is_rest_base_witness :
  exists (base : string) (more : list string),
    fst (getRestApiBase Samples.loggedIn Samples.start) = Ok base /\
    jarQueries (snd (getCookiesFromJar Samples.loggedIn Samples.start))
    = ([] ++ base :: more)%list.
Proof.
  apply (cookie_scope_is_rest_base Samples.loggedIn Samples.start
           (Samples.session (Samples.jarFor "https://en.wikipedia.org" "sid=1")
              "7d1a0c")
           (Samples.jarFor "https://en.wikipedia.org" "sid=1")
           eq_refl eq_refl).
Defined.

(** ** More on the request builder *)

(** X10.  [fetchCore] returns a response only if [fetch] resolved with it
    and its status is in 200..299, and it then returns that very response;
    a failure of [fetch] is thrown on as it is. *)
Theorem fetchCore_outcome (env : Env) (s : State) (baseUrl : string)
    (options : FetchOptions) :
  exists rq : Request,
    sent (snd (fetchCore baseUrl options env s)) = (sent s ++ [rq])%list /\
    (forall e : Exn,
       fetchOutcome env (length (sent s)) rq = Err e ->
       fst (fetchCore baseUrl options env s) = Err e) /\
    (forall r : Response,
       fst (fetchCore baseUrl options env s) = Ok r ->
       fetchOutcome env (length (sent s)) rq = Ok r /\
       (200 <= status r < 300)%N) /\
    (forall r : Response,
       fetchOutcome env (length (sent s)) rq = Ok r ->
       (200 <= status r < 300)%N ->
       fst (fetchCore baseUrl options env s) = Ok r).
Proof.
  destruct (fetchCore_run env s baseUrl options)
    as (rq & _ & _ & _ & _ & ->).
  exists rq. cbn [fst snd sent]. split; [reflexivity |].
  assert (Hok : forall r : Response,
            ok r = true <-> (200 <= status r < 300)%N).
  { intros r. unfold ok. rewrite andb_true_iff, N.leb_le, N.ltb_lt. tauto. }
  split; [| split].
  - intros e ->. reflexivity.
  - intros r. destruct (fetchOutcome env (length (sent s)) rq) as [r' | e];
      [| discriminate].
    destruct (ok r') eqn:Hr'; [| discriminate].
    intros [= <-]. split; [reflexivity | apply Hok; exact Hr'].
  - intros r -> Hstatus. apply Hok in Hstatus. rewrite Hstatus. reflexivity.
Qed.

Lemma fetchCore_outcome_witness :
  exists rq : Request,
    sent (snd (fetchCore "https://en.wikipedia.org/w/api.php" noOptions
                 (Samples.mkEnv Samples.wikipedia Samples.noSession
                    Samples.offline) Samples.start)) = [rq] /\
    fst (fetchCore "https://en.wikipedia.org/w/api.php" noOptions
           (Samples.mkEnv Samples.wikipedia Samples.noSession Samples.offline)
           Samples.start) = Err (Error "fetch failed").
Proof.
  destruct (fetchCore_outcome
              (Samples.mkEnv Samples.wikipedia Samples.noSession Samples.offline)
              Samples.start "https://en.wikipedia.org/w/api.php" noOptions)
    as (rq & Hsent & Hfail & _).
  exists rq. split; [exact Hsent |]. apply Hfail. reflexivity.
Defined.

(** The state [fetchCore] leaves behind. *)
Lemma fetchCore_state (env : Env) (s : State) (baseUrl : string)
    (options : FetchOptions) :
  exists rq : Request,
    sent (snd (fetchCore baseUrl options env s)) = (sent s ++ [rq])%list /\
    heap (snd (fetchCore baseUrl options env s))
    = (heap s ++ [reqHeaders rq])%list /\
    mwnCalls (snd (fetchCore baseUrl options env s)) = mwnCalls s /\
    jarQueries (snd (fetchCore baseUrl options env s)) = jarQueries s.
Proof.
  destruct (fetchCore_run env s baseUrl options)
    as (rq & Hhs & _ & _ & _ & ->).
  exists rq. cbn [fst snd sent heap mwnCalls jarQueries]. rewrite Hhs.
  repeat split.
Qed.

(** X11.  [fetchCore] copies the caller's headers with [Object.assign] into
    an object of its own: no object that exists when it is called is
    changed.  The store grows by that one object, whose entries are the
    headers of the request, and the session is not touched. *)
Theorem fetchCore_frame (env : Env) (s : State) (baseUrl : string)
    (options : FetchOptions) :
  exists rq : Request,
    sent (snd (fetchCore baseUrl options env s)) = (sent s ++ [rq])%list /\
    heap (snd (fetchCore baseUrl options env s))
    = (heap s ++ [reqHeaders rq])%list /\
    mwnCalls (snd (fetchCore baseUrl options env s)) = mwnCalls s /\
    jarQueries (snd (fetchCore baseUrl options env s)) = jarQueries s /\
    (forall (r : nat) (o : Obj),
       heap s !! r = Some o ->
       heap (snd (fetchCore baseUrl options env s)) !! r = Some o).
Proof.
  destruct (fetchCore_run env s baseUrl options)
    as (rq & Hhs & _ & _ & _ & ->).
  exists rq. cbn [fst snd sent heap mwnCalls jarQueries]. rewrite Hhs.
  repeat split.
  intros r o Hr. rewrite lookup_app_l; [exact Hr |].
  eapply lookup_lt_Some; eauto.
Qed.

Lemma fetchCore_frame_witness :
  heap (snd (fetchCore "https://en.wikipedia.org/w/api.php"
               (Samples.withHeaders 0)
               (Samples.mkEnv Samples.wikipedia Samples.noSession
                  Samples.offline) Samples.start)) !! 0
  = Some Samples.acceptJson.
Proof.
  destruct (fetchCore_frame
              (Samples.mkEnv Samples.wikipedia Samples.noSession Samples.offline)
              Samples.start "https://en.wikipedia.org/w/api.php"
              (Samples.withHeaders 0))
    as (rq & _ & _ & _ & _ & Hkept).
  apply Hkept. reflexivity.
Defined.

(** X12.  Every header the caller gives is sent with the caller's value,
    and nothing is sent besides the caller's headers and [User-Agent]. *)
Theorem fetchCore_caller_headers (env : Env) (s : State) (baseUrl : string)
    (options : FetchOptions) (h : Ref) (given : Obj) :
  optHeaders options = Some h ->
  heap s !! h = Some given ->
  exists rq : Request,
    sent (snd (fetchCore baseUrl options env s)) = (sent s ++ [rq])%list /\
    (forall (k : string) (v : JsValue),
       given !! k = Some v -> reqHeaders rq !! k = Some v) /\
    (forall k : string,
       k <> "User-Agent" -> reqHeaders rq !! k = given !! k).
Proof.
  intros Hh Hgiven.
  destruct (fetchCore_sends env s baseUrl options)
    as (rq & Hsent & _ & Hhs & _).
  exists rq. split; [exact Hsent |].
  rewrite (Hhs h given Hh Hgiven). split.
  - intros k v Hk. apply lookup_union_Some_l. exact Hk.
  - intros k Hk. rewrite lookup_union.
    rewrite lookup_singleton_ne by congruence.
    destruct (given !! k); reflexivity.
Qed.

Lemma fetchCore_caller_headers_witness :
  exists rq : Request,
    sent (snd (fetchCore "https://en.wikipedia.org/w/api.php"
                 (Samples.withHeaders 0)
                 (Samples.mkEnv Samples.wikipedia Samples.noSession
                    Samples.offline) Samples.start)) = [rq] /\
    reqHeaders rq !! "Accept" = Some (JStr "application/json") /\
    reqHeaders rq !! "Cookie" = None.
Proof.
  destruct (fetchCore_caller_headers
              (Samples.mkEnv Samples.wikipedia Samples.noSession Samples.offline)
              Samples.start "https://en.wikipedia.org/w/api.php"
              (Samples.withHeaders 0) 0 Samples.acceptJson eq_refl eq_refl)
    as (rq & Hsent & Hgiven & Hother).
  exists rq. split; [exact Hsent |]. split.
  - apply Hgiven. vm_compute. reflexivity.
  - rewrite Hother by discriminate. vm_compute. reflexivity.
Defined.

Lemma fetchCore_target (env : Env) (s : State) (baseUrl : string)
    (options : FetchOptions) :
  let base := if String.prefix "//" baseUrl then "https:" ++ baseUrl
              else baseUrl in
  exists rq : Request,
    sent (snd (fetchCore baseUrl options env s)) = (sent s ++ [rq])%list /\
    reqUrl rq = match params options with
                | Some p =>
                    if truthyString (URLSearchParams_toString env p)
                    then base ++ "?" ++ URLSearchParams_toString env p
                    else base
                | None => base
                end.
Proof.
  intros base. unfold base. clear base. run_fetch.
  destruct (optHeaders options) as [h |]; destruct (optBody options) as [b |];
    simpl; rewrite ?readObj_last, ?insert_last, ?readObj_last;
    match goal with
    | |- context [fetchOutcome env _ ?r] => exists r
    end; simpl;
    (split; [| destruct (params options) as [p |];
               [destruct (truthyString (URLSearchParams_toString env p)) |];
               destruct (String.prefix "//" baseUrl); reflexivity]);
    match goal with
    | |- context [fetchOutcome env ?n ?r] =>
        destruct (fetchOutcome env n r) as [resp | e]
    end; simpl; try reflexivity;
    destruct (ok resp); simpl; try reflexivity;
    destruct (text resp); reflexivity.
Qed.

Lemma prefix_slashes_query (u q : string) :
  String.prefix "//" (u ++ String "?" q) = String.prefix "//" u.
Proof.
  destruct u as [| a [| b u]].
  - reflexivity.
  - change (String a "" ++ String "?" q) with (String a (String "?" q)).
    cbn -[ascii_dec]. destruct (ascii_dec "/" a); reflexivity.
  - change (String a (String b u) ++ String "?" q)
      with (String a (String b (u ++ String "?" q))).
    cbn -[ascii_dec].
    destruct (ascii_dec "/" a); [| reflexivity].
    destruct (ascii_dec "/" b); [| reflexivity].
    destruct (u ++ String "?" q); destruct u; reflexivity.
Qed.

(** X13.  The URL handed to [fetch] is never protocol-relative: a base URL
    that starts with [//] gets [https:] in front, any other base URL is
    kept, and a query string is added after it only when it is not empty.
    The method is never empty: it is the one given, or [GET]. *)
Theorem fetchCore_request_line (env : Env) (s : State) (baseUrl : string)
    (options : FetchOptions) :
  exists rq : Request,
    sent (snd (fetchCore baseUrl options env s)) = (sent s ++ [rq])%list /\
    String.prefix "//" (reqUrl rq) = false /\
    (String.prefix "//" baseUrl = true ->
       String.prefix ("https:" ++ baseUrl) (reqUrl rq) = true) /\
    (String.prefix "//" baseUrl = false ->
       String.prefix baseUrl (reqUrl rq) = true) /\
    (params options = None \/
     (exists p : gmap string string,
        params options = Some p /\ URLSearchParams_toString env p = "") ->
       reqUrl rq = if String.prefix "//" baseUrl then "https:" ++ baseUrl
                   else baseUrl) /\
    reqMethod rq <> "" /\
    (forall m : string,
       method options = Some m -> m <> "" -> reqMethod rq = m) /\
    (method options = None \/ method options = Some "" ->
       reqMethod rq = "GET").
Proof.
  destruct (fetchCore_target env s baseUrl options) as (rq & Hsent & Hurl).
  destruct (fetchCore_run env s baseUrl options)
    as (rq' & _ & _ & _ & Hmeth & Hrun).
  assert (rq' = rq) as ->.
  { rewrite Hrun in Hsent. cbn [snd sent] in Hsent.
    apply app_inv_head in Hsent. congruence. }
  clear Hrun. exists rq. split; [exact Hsent |].
  set (base := if String.prefix "//" baseUrl then "https:" ++ baseUrl
               else baseUrl) in *.
  assert (Hbase : String.prefix "//" base = false).
  { unfold base. destruct (String.prefix "//" baseUrl) eqn:Hp;
      [reflexivity | exact Hp]. }
  assert (Hshape : reqUrl rq = base \/ exists q, reqUrl rq = base ++ String "?" q).
  { rewrite Hurl. destruct (params options) as [p |]; [| left; reflexivity].
    destruct (truthyString (URLSearchParams_toString env p));
      [right; eexists; reflexivity | left; reflexivity]. }
  split.
  { destruct Hshape as [-> | (q & ->)]; [exact Hbase |].
    rewrite prefix_slashes_query. exact Hbase. }
  split.
  { intros Hp. unfold base in Hshape. rewrite Hp in Hshape.
    destruct Hshape as [-> | (q & ->)].
    - rewrite <- (append_empty_r ("https:" ++ baseUrl)) at 2.
      apply prefix_append.
    - apply prefix_append. }
  split.
  { intros Hp. unfold base in Hshape. rewrite Hp in Hshape.
    destruct Hshape as [-> | (q & ->)].
    - rewrite <- (append_empty_r baseUrl) at 2. apply prefix_append.
    - apply prefix_append. }
  split.
  { intros [Hnone | (p & Hp & Hempty)]; rewrite Hurl.
    - rewrite Hnone. reflexivity.
    - rewrite Hp, Hempty. reflexivity. }
  rewrite Hmeth. split; [| split].
  - destruct (method options) as [[| a m] |]; simpl; discriminate.
  - intros m -> Hm. apply truthyString_true in Hm. rewrite Hm. reflexivity.
  - intros [-> | ->]; reflexivity.
Qed.

Lemma fetchCore_request_line_witness :
  exists rq : Request,
    sent (snd (fetchCore "//upload.wikimedia.org/logo.png" noOptions
                 (Samples.mkEnv Samples.wikipedia Samples.noSession
                    Samples.offline) Samples.start)) = [rq] /\
    reqUrl rq = "https://upload.wikimedia.org/logo.png" /\
    reqMethod rq = "GET".
Proof.
  destruct (fetchCore_request_line
              (Samples.mkEnv Samples.wikipedia Samples.noSession Samples.offline)
              Samples.start "//upload.wikimedia.org/logo.png" noOptions)
    as (rq & Hsent & _ & _ & _ & Hplain & _ & _ & Hget).
  exists rq. split; [exact Hsent |]. split.
  - apply Hplain. left. reflexivity.
  - apply Hget. left. reflexivity.
Defined.

(** ** More on the request facade *)

(** The REST pipeline after the resolver has returned. *)
Lemma rest_pipeline_run (env : Env) (s s1 : State) (hdrs : Ref)
    (bdy : option Ref) (needAuth : bool) (path : string)
    (opts : RequestConfig -> FetchOptions) (rc : RequestConfig) :
  withAuth hdrs bdy needAuth env s = (Ok rc, s1) ->
  exists base : string,
    (forall st : State, getRestApiBase env st = (Ok base, st)) /\
    (auth <- withAuth hdrs bdy needAuth ;;
     base <- getRestApiBase ;;
     response <- fetchCore (base ++ path) (opts auth) ;;
     await (json response)) env s
    = (match fst (fetchCore (base ++ path) (opts rc) env s1) with
       | Ok r => json r
       | Err e => Err e
       end,
       snd (fetchCore (base ++ path) (opts rc) env s1)).
Proof.
  intros Hauth.
  destruct (getRestApiBase_run env s1) as (base & Hbase).
  exists base. split.
  { intros st. unfold getRestApiBase, bind, ask, ret in *. simpl in *.
    injection Hbase as ->. reflexivity. }
  unfold bind at 1. rewrite Hauth. unfold bind at 1. rewrite Hbase.
  unfold bind at 1.
  destruct (fetchCore (base ++ path) (opts rc) env s1) as [[r | e] s2];
    reflexivity.
Qed.

Lemma withAuth_bearer_run (env : Env) (s : State) (hdrs : Ref)
    (bdy : option Ref) (needAuth : bool) (t : string) :
  needAuth = true \/ private (currentConfig env) = Some true ->
  token (currentConfig env) = Value t ->
  withAuth hdrs bdy needAuth env s
  = (Ok {| headers := length (heap s); body := bdy |},
     withHeap (heap s ++ [<["Authorization" := JStr ("Bearer " ++ t)]>
                            (readObj s hdrs)]) s).
Proof.
  intros Hmust Htok.
  assert (Hanon : negb needAuth
                  && negb (truthyOptBool (private (currentConfig env))) = false).
  { destruct Hmust as [-> | ->]; [reflexivity |].
    simpl. apply andb_false_r. }
  unfold withAuth, bind at 1, ask. simpl. rewrite Hanon, Htok. reflexivity.
Qed.

Lemma withAuth_anonymous_run (env : Env) (s : State) (hdrs : Ref)
    (bdy : option Ref) :
  truthyOptBool (private (currentConfig env)) = false ->
  withAuth hdrs bdy false env s = (Ok {| headers := hdrs; body := bdy |}, s).
Proof.
  intros Hpub. unfold withAuth, bind at 1, ask. simpl. rewrite Hpub.
  reflexivity.
Qed.

Lemma withAuth_cookie_header_run (env : Env) (s : State) (hdrs : Ref)
    (needAuth : bool) (c : string) :
  needAuth = true \/ private (currentConfig env) = Some true ->
  (forall t : string, token (currentConfig env) <> Value t) ->
  fst (getCookiesFromJar env s) = Ok (Some c) ->
  withAuth hdrs None needAuth env s
  = (Ok {| headers := length (heap s); body := None |},
     withHeap (heap s ++ [<["Cookie" := JStr c]> (readObj s hdrs)])
       (snd (getCookiesFromJar env s))).
Proof.
  intros Hmust Htok Hsome.
  rewrite (withAuth_cookie_path env s hdrs None needAuth Hmust Htok).
  pose proof (getCookiesFromJar_frame env s) as (Hheap & _ & _).
  unfold bind at 1.
  destruct (getCookiesFromJar env s) as [r s1]. simpl in *. subst r.
  unfold spreadWith, bind, load, alloc, ret, withHeap, readObj. simpl.
  rewrite Hheap. reflexivity.
Qed.

Lemma lookup_last (hp : list Obj) (o : Obj) :
  (hp ++ [o])%list !! length hp = Some o.
Proof. rewrite lookup_app_r by lia. rewrite Nat.sub_diag. reflexivity. Qed.

Lemma lookup_second_last (hp : list Obj) (o o' : Obj) :
  ((hp ++ [o]) ++ [o'])%list !! length hp = Some o.
Proof.
  rewrite lookup_app_l by (rewrite length_app; simpl; lia). apply lookup_last.
Qed.

(** X16.  With a token, a PUT and a POST send [Authorization: Bearer] and
    the JSON headers, no [Cookie], and the caller's body as it is: no
    [token] field is merged in.  The session client is not asked for. *)
Theorem rest_mutation_bearer (env : Env) (s : State) (path : string)
    (b : Ref) (o : Obj) (needAuth : bool) (t : string) :
  needAuth = true \/ private (currentConfig env) = Some true ->
  token (currentConfig env) = Value t ->
  heap s !! b = Some o ->
  forall (verb : string) (out : Result JsValue * State),
    (verb = "PUT" /\ out = makeRestPutRequest path b needAuth env s) \/
    (verb = "POST" /\ out = makeRestPostRequest path (Some b) needAuth env s) ->
    exists rq : Request,
      sent (snd out) = (sent s ++ [rq])%list /\
      reqMethod rq = verb /\
      reqBody rq = Some (JSON_stringify env o) /\
      reqHeaders rq
      = <["Authorization" := JStr ("Bearer " ++ t)]> jsonHeaders
        ∪ {[ "User-Agent" := JStr (USER_AGENT env) ]} /\
      reqHeaders rq !! "Cookie" = None /\
      mwnCalls (snd out) = mwnCalls s.
Proof.
  intros Hmust Htok Hb verb out Hout.
  set (s0 := withHeap (heap s ++ [jsonHeaders]) s).
  pose proof (withAuth_bearer_run env s0 (length (heap s)) (Some b) needAuth t
                Hmust Htok) as Hauth.
  assert (Hjson : readObj s0 (length (heap s)) = jsonHeaders).
  { apply readObj_lookup. apply lookup_last. }
  rewrite Hjson in Hauth.
  set (s1 := withHeap (heap s0 ++ [<["Authorization" := JStr ("Bearer " ++ t)]>
                                     jsonHeaders]) s0) in *.
  assert (Hgen : forall opts : RequestConfig -> FetchOptions,
            (forall rc, optHeaders (opts rc) = Some (headers rc)) ->
            (forall rc, optBody (opts rc) = body rc) ->
            (forall rc, method (opts rc) = Some verb) -> verb <> "" ->
            out = (auth <- withAuth (length (heap s)) (Some b) needAuth ;;
                   base <- getRestApiBase ;;
                   response <- fetchCore (base ++ path) (opts auth) ;;
                   await (json response)) env s0 ->
            exists rq : Request,
              sent (snd out) = (sent s ++ [rq])%list /\
              reqMethod rq = verb /\
              reqBody rq = Some (JSON_stringify env o) /\
              reqHeaders rq
              = <["Authorization" := JStr ("Bearer " ++ t)]> jsonHeaders
                ∪ {[ "User-Agent" := JStr (USER_AGENT env) ]} /\
              reqHeaders rq !! "Cookie" = None /\
              mwnCalls (snd out) = mwnCalls s).
  { intros opts Hh Hbd Hm Hverb ->.
    destruct (rest_pipeline_run env s0 s1 (length (heap s)) (Some b) needAuth
                path opts _ Hauth) as (base & _ & ->).
    cbn [snd].
    destruct (fetchCore_sends env s1 (base ++ path)
                (opts {| headers := length (heap s0); body := Some b |}))
      as (rq & Hsent & Hmeth & Hhs & _ & Hbody & _).
    destruct (fetchCore_state env s1 (base ++ path)
                (opts {| headers := length (heap s0); body := Some b |}))
      as (_ & _ & _ & Hcalls & _).
    exists rq. split; [exact Hsent |].
    rewrite Hm in Hmeth. apply truthyString_true in Hverb.
    rewrite Hverb in Hmeth. split; [exact Hmeth |].
    split.
    { apply (Hbody b o); [rewrite Hbd; reflexivity |].
      cbn [s1 s0 withHeap heap].
      rewrite lookup_app_l by (rewrite length_app; simpl;
                               apply lookup_lt_Some in Hb; lia).
      rewrite lookup_app_l by (eapply lookup_lt_Some; eauto). exact Hb. }
    assert (Hsentq : reqHeaders rq
                     = <["Authorization" := JStr ("Bearer " ++ t)]> jsonHeaders
                       ∪ {[ "User-Agent" := JStr (USER_AGENT env) ]}).
    { apply (Hhs (length (heap s0))); [rewrite Hh; reflexivity |].
      cbn [s1 withHeap heap]. apply lookup_last. }
    split; [exact Hsentq |]. split; [| exact Hcalls].
    rewrite Hsentq. vm_compute. reflexivity. }
  destruct Hout as [[-> ->] | [-> ->]].
  - apply (Hgen (fun auth => {| params := None;
                                optHeaders := Some (headers auth);
                                optBody := body auth;
                                method := Some "PUT" |}));
      try reflexivity; discriminate.
  - apply (Hgen (fun auth => {| params := None;
                                optHeaders := Some (headers auth);
                                optBody := body auth;
                                method := Some "POST" |}));
      try reflexivity; discriminate.
Qed.

Lemma rest_mutation_bearer_witness :
  exists rq : Request,
    sent (snd (makeRestPutRequest "/v1/page/Rocq" 1 true
                 (Samples.mkEnv (Samples.withToken "s3cret" Samples.wikipedia)
                    Samples.noSession Samples.offline) Samples.start)) = [rq] /\
    reqMethod rq = "PUT" /\
    reqHeaders rq !! "Authorization" = Some (JStr "Bearer s3cret").
Proof.
  destruct (rest_mutation_bearer
              (Samples.mkEnv (Samples.withToken "s3cret" Samples.wikipedia)
                 Samples.noSession Samples.offline)
              Samples.start "/v1/page/Rocq" 1 Samples.editBody true "s3cret"
              (or_introl eq_refl) eq_refl eq_refl "PUT" _
              (or_introl (conj eq_refl eq_refl)))
    as (rq & Hsent & Hmeth & _ & Hhs & _).
  exists rq. split; [exact Hsent |]. split; [exact Hmeth |].
  rewrite Hhs. vm_compute. reflexivity.
Defined.

Lemma makeRestPutRequest_cookie_witness :
  exists rq : Request,
    sent (snd (makeRestPutRequest "/v1/page/Rocq" 1 true Samples.loggedIn
                 Samples.start)) = [rq] /\
    reqMethod rq = "PUT" /\
    reqBody rq = Some "{token:7d1a0c}" /\
    reqHeaders rq !! "Cookie" = Some (JStr "sid=1").
Proof.
  destruct (makeRestPutRequest_cookie Samples.loggedIn Samples.start
              "/v1/page/Rocq" 1 Samples.editBody true "sid=1" "7d1a0c"
              (or_introl eq_refl) (fun t' Ht => ltac:(discriminate Ht))
              eq_refl eq_refl eq_refl)
    as (rq & Hsent & Hmeth & Hbody & Hcookie & _).
  exists rq. split; [exact Hsent |]. split; [exact Hmeth |].
  split; [| exact Hcookie]. rewrite Hbody. vm_compute. reflexivity.
Defined.

Lemma makeRestPostRequest_cookie_witness :
  exists rq : Request,
    sent (snd (makeRestPostRequest "/v1/page" (Some 1) true Samples.loggedIn
                 Samples.start)) = [rq] /\
    reqMethod rq = "POST" /\
    reqBody rq = Some "{token:7d1a0c}" /\
    reqHeaders rq !! "Cookie" = Some (JStr "sid=1").
Proof.
  destruct (makeRestPostRequest_cookie Samples.loggedIn Samples.start
              "/v1/page" 1 Samples.editBody true "sid=1" "7d1a0c"
              (or_introl eq_refl) (fun t' Ht => ltac:(discriminate Ht))
              eq_refl eq_refl eq_refl)
    as (rq & Hsent & Hmeth & Hbody & Hcookie & _).
  exists rq. split; [exact Hsent |]. split; [exact Hmeth |].
  split; [| exact Hcookie]. rewrite Hbody. vm_compute. reflexivity.
Defined.

(** X17.  A GET that needs no authentication on a wiki that is not private
    goes out with [Accept] and [User-Agent] and nothing else, without a
    body, and the session is never looked at. *)
Theorem makeRestGetRequest_anonymous (env : Env) (s : State) (path : string)
    (prms : option (gmap string string)) :
  private (currentConfig env) = Some false \/
  private (currentConfig env) = None ->
  exists rq : Request,
    sent (snd (makeRestGetRequest path prms false env s))
    = (sent s ++ [rq])%list /\
    reqHeaders rq
    = ({[ "Accept" := JStr "application/json" ]} : Obj)
      ∪ {[ "User-Agent" := JStr (USER_AGENT env) ]} /\
    reqMethod rq = "GET" /\
    reqBody rq = None /\
    mwnCalls (snd (makeRestGetRequest path prms false env s)) = mwnCalls s /\
    jarQueries (snd (makeRestGetRequest path prms false env s))
    = jarQueries s.
Proof.
  intros Hpub.
  assert (Hfalsy : truthyOptBool (private (currentConfig env)) = false).
  { destruct Hpub as [-> | ->]; reflexivity. }
  set (accept := ({[ "Accept" := JStr "application/json" ]} : Obj)).
  set (s0 := withHeap (heap s ++ [accept]) s).
  set (opts := fun auth : RequestConfig =>
                 {| params := prms; optHeaders := Some (headers auth);
                    optBody := None; method := None |}).
  destruct (rest_pipeline_run env s0 s0 (length (heap s)) None false path opts
              _ (withAuth_anonymous_run env s0 (length (heap s)) None Hfalsy))
    as (base & _ & Hrun).
  change (makeRestGetRequest path prms false env s
          = (match fst (fetchCore (base ++ path)
                          (opts {| headers := length (heap s); body := None |})
                          env s0) with
             | Ok r => json r
             | Err e => Err e
             end,
             snd (fetchCore (base ++ path)
                    (opts {| headers := length (heap s); body := None |})
                    env s0))) in Hrun.
  rewrite Hrun. cbn [snd].
  destruct (fetchCore_sends env s0 (base ++ path)
              (opts {| headers := length (heap s); body := None |}))
    as (rq & Hsent & Hmeth & Hhs & _ & _ & Hbody).
  destruct (fetchCore_state env s0 (base ++ path)
              (opts {| headers := length (heap s); body := None |}))
    as (_ & _ & _ & Hcalls & Hjar).
  exists rq. split; [exact Hsent |].
  split; [apply (Hhs (length (heap s))); [reflexivity | apply lookup_last] |].
  split; [exact Hmeth |]. split; [apply Hbody; reflexivity |].
  split; [exact Hcalls | exact Hjar].
Qed.

Lemma makeRestGetRequest_anonymous_witness :
  exists rq : Request,
    sent (snd (makeRestGetRequest "/v1/page/Rocq" None false Samples.loggedIn
                 Samples.start)) = [rq] /\
    reqHeaders rq !! "Cookie" = None /\
    reqMethod rq = "GET".
Proof.
  destruct (makeRestGetRequest_anonymous Samples.loggedIn Samples.start
              "/v1/page/Rocq" None (or_introl eq_refl))
    as (rq & Hsent & Hhs & Hmeth & _).
  exists rq. split; [exact Hsent |]. split; [| exact Hmeth].
  rewrite Hhs. vm_compute. reflexivity.
Defined.

(** X18.  A POST without a body on the cookie path carries the session
    cookie and no body; no CSRF token is fetched for it. *)
Theorem makeRestPostRequest_cookie_no_body (env : Env) (s : State)
    (path : string) (needAuth : bool) (c : string) :
  needAuth = true \/ private (currentConfig env) = Some true ->
  (forall t : string, token (currentConfig env) <> Value t) ->
  fst (getCookiesFromJar env s) = Ok (Some c) ->
  exists rq : Request,
    sent (snd (makeRestPostRequest path None needAuth env s))
    = (sent s ++ [rq])%list /\
    reqMethod rq = "POST" /\
    reqBody rq = None /\
    reqHeaders rq !! "Cookie" = Some (JStr c) /\
    mwnCalls (snd (makeRestPostRequest path None needAuth env s))
    = S (mwnCalls s).
Proof.
  intros Hmust Htok Hsome.
  set (s0 := withHeap (heap s ++ [jsonHeaders]) s).
  assert (Hsome0 : fst (getCookiesFromJar env s0) = Ok (Some c)).
  { unfold s0. rewrite getCookiesFromJar_withHeap. exact Hsome. }
  pose proof (withAuth_cookie_header_run env s0 (length (heap s)) needAuth c
                Hmust Htok Hsome0) as Hauth.
  assert (Hjson : readObj s0 (length (heap s)) = jsonHeaders).
  { apply readObj_lookup. apply lookup_last. }
  rewrite Hjson in Hauth.
  pose proof (getCookiesFromJar_frame env s0) as (_ & Hcalls & Hsent0).
  set (s1 := withHeap (heap s0 ++ [<["Cookie" := JStr c]> jsonHeaders])
               (snd (getCookiesFromJar env s0))) in *.
  set (opts := fun auth : RequestConfig =>
                 {| params := None; optHeaders := Some (headers auth);
                    optBody := body auth; method := Some "POST" |}).
  destruct (rest_pipeline_run env s0 s1 (length (heap s)) None needAuth path
              opts _ Hauth) as (base & _ & Hrun).
  change (makeRestPostRequest path None needAuth env s
          = (match fst (fetchCore (base ++ path)
                          (opts {| headers := length (heap s0); body := None |})
                          env s1) with
             | Ok r => json r
             | Err e => Err e
             end,
             snd (fetchCore (base ++ path)
                    (opts {| headers := length (heap s0); body := None |})
                    env s1))) in Hrun.
  rewrite Hrun. cbn [snd].
  destruct (fetchCore_sends env s1 (base ++ path)
              (opts {| headers := length (heap s0); body := None |}))
    as (rq & Hsent & Hmeth & Hhs & _ & _ & Hbody).
  destruct (fetchCore_state env s1 (base ++ path)
              (opts {| headers := length (heap s0); body := None |}))
    as (_ & _ & _ & Hcalls1 & _).
  exists rq. split; [rewrite Hsent; cbn [s1 withHeap sent]; rewrite Hsent0;
                     reflexivity |].
  split; [exact Hmeth |]. split; [apply Hbody; reflexivity |].
  split.
  - rewrite (Hhs (length (heap s0)) (<["Cookie" := JStr c]> jsonHeaders));
      [| reflexivity | cbn [s1 withHeap heap]; apply lookup_last].
    apply lookup_union_Some_l. apply lookup_insert_eq.
  - rewrite Hcalls1. cbn [s1 withHeap mwnCalls]. exact Hcalls.
Qed.

Lemma makeRestPostRequest_cookie_no_body_witness :
  exists rq : Request,
    sent (snd (makeRestPostRequest "/v1/page" None true Samples.loggedIn
                 Samples.start)) = [rq] /\
    reqBody rq = None /\
    reqHeaders rq !! "Cookie" = Some (JStr "sid=1").
Proof.
  destruct (makeRestPostRequest_cookie_no_body Samples.loggedIn Samples.start
              "/v1/page" true "sid=1" (or_introl eq_refl)
              (fun t Ht => ltac:(discriminate Ht)) eq_refl)
    as (rq & Hsent & _ & Hbody & Hcookie & _).
  exists rq. split; [exact Hsent |]. split; [exact Hbody | exact Hcookie].
Defined.

(** The requests of the REST pipeline, whatever the resolver does. *)
Lemma rest_pipeline_requests (env : Env) (s : State) (hdrs : Ref)
    (bdy : option Ref) (needAuth : bool) (path : string)
    (prms : option (gmap string string)) (meth : option string)
    (opts : RequestConfig -> FetchOptions) :
  (forall rc, params (opts rc) = prms) ->
  (forall rc, method (opts rc) = meth) ->
  exists (base : string) (new : list Request),
    (forall st : State, getRestApiBase env st = (Ok base, st)) /\
    sent (snd ((auth <- withAuth hdrs bdy needAuth ;;
                base <- getRestApiBase ;;
                response <- fetchCore (base ++ path) (opts auth) ;;
                await (json response)) env s))
    = (sent s ++ new)%list /\
    length new <= 1 /\
    Forall (fun rq =>
              String.prefix (restTarget base path) (reqUrl rq) = true /\
              (prms = None -> reqUrl rq = restTarget base path) /\
              reqMethod rq = match meth with
                             | Some m => if truthyString m then m else "GET"
                             | None => "GET"
                             end) new.
Proof.
  intros Hprms Hverb.
  pose proof (withAuth_counts env s hdrs bdy needAuth) as (Hsent & _).
  destruct (withAuth hdrs bdy needAuth env s) as [[rc | e] s1] eqn:Hauth.
  - destruct (rest_pipeline_run env s s1 hdrs bdy needAuth path opts rc Hauth)
      as (base & Hbase & ->).
    cbn [snd] in *.
    destruct (fetchCore_target env s1 (base ++ path) (opts rc))
      as (rq & Hrq & Hurl).
    destruct (fetchCore_run env s1 (base ++ path) (opts rc))
      as (rq' & _ & _ & _ & Hmeth & Hrun).
    assert (rq' = rq) as ->.
    { rewrite Hrun in Hrq. cbn [snd sent] in Hrq.
      apply app_inv_head in Hrq. congruence. }
    exists base, [rq]. split; [exact Hbase |].
    split; [rewrite Hrq, Hsent; reflexivity |]. split; [simpl; lia |].
    constructor; [| constructor].
    rewrite Hprms in Hurl. rewrite Hverb in Hmeth.
    fold (restTarget base path) in Hurl.
    split; [| split; [| exact Hmeth]].
    + rewrite Hurl. destruct prms as [p |].
      * destruct (truthyString (URLSearchParams_toString env p)).
        -- apply prefix_append.
        -- rewrite <- (append_empty_r (restTarget base path)) at 2.
           apply prefix_append.
      * rewrite <- (append_empty_r (restTarget base path)) at 2.
        apply prefix_append.
    + intros ->. exact Hurl.
  - destruct (getRestApiBase_run env s) as (base & Hbase).
    exists base, []. split.
    { intros st. unfold getRestApiBase, bind, ask, ret in *. simpl in *.
      injection Hbase as ->. reflexivity. }
    unfold bind at 1. rewrite Hauth. cbn [snd] in *.
    rewrite app_nil_r. split; [exact Hsent |]. split; [simpl; lia |].
    constructor.
Qed.

(** X19.  Whatever the authentication mode, each REST entry point sends at
    most one request; it goes to the REST base followed by the path (with
    [https:] in front when the configured server is protocol-relative),
    with the method of the entry point.  PUT and POST add nothing to that
    URL; GET may add a query string. *)
Theorem rest_requests_target (env : Env) (s : State) (path : string)
    (needAuth : bool) :
  exists base : string,
    fst (getRestApiBase env s) = Ok base /\
    (forall prms : option (gmap string string),
       exists new : list Request,
         sent (snd (makeRestGetRequest path prms needAuth env s))
         = (sent s ++ new)%list /\
         length new <= 1 /\
         Forall (fun rq =>
                   String.prefix (restTarget base path) (reqUrl rq) = true /\
                   (prms = None -> reqUrl rq = restTarget base path) /\
                   reqMethod rq = "GET") new) /\
    (forall b : Ref,
       exists new : list Request,
         sent (snd (makeRestPutRequest path b needAuth env s))
         = (sent s ++ new)%list /\
         length new <= 1 /\
         Forall (fun rq => reqUrl rq = restTarget base path /\
                           reqMethod rq = "PUT") new) /\
    (forall b : option Ref,
       exists new : list Request,
         sent (snd (makeRestPostRequest path b needAuth env s))
         = (sent s ++ new)%list /\
         length new <= 1 /\
         Forall (fun rq => reqUrl rq = restTarget base path /\
                           reqMethod rq = "POST") new).
Proof.
  destruct (getRestApiBase_run env s) as (base & Hbase).
  exists base. split; [rewrite Hbase; reflexivity |].
  assert (Hsame : forall base' : string,
            (forall st : State, getRestApiBase env st = (Ok base', st)) ->
            base' = base).
  { intros base' H. rewrite H in Hbase. congruence. }
  assert (Hexact : forall (verb : string) (new : list Request),
            Forall (fun rq =>
                      String.prefix (restTarget base path) (reqUrl rq) = true /\
                      (@None (gmap string string) = None ->
                       reqUrl rq = restTarget base path) /\
                      reqMethod rq = verb) new ->
            Forall (fun rq => reqUrl rq = restTarget base path /\
                              reqMethod rq = verb) new).
  { intros verb new H. eapply Forall_impl; [exact H |].
    intros rq (_ & Hurl & Hm). auto. }
  split; [| split].
  - intros prms.
    destruct (rest_pipeline_requests env
                (withHeap (heap s ++ [{[ "Accept" := JStr "application/json" ]}]) s)
                (length (heap s)) None needAuth path prms None
                (fun auth => {| params := prms;
                                optHeaders := Some (headers auth);
                                optBody := None; method := None |})
                (fun _ => eq_refl) (fun _ => eq_refl))
      as (base' & new & Hb' & Hsent & Hlen & Hall).
    apply Hsame in Hb'. subst base'.
    exists new. split; [exact Hsent |]. split; [exact Hlen | exact Hall].
  - intros b.
    destruct (rest_pipeline_requests env
                (withHeap (heap s ++ [jsonHeaders]) s)
                (length (heap s)) (Some b) needAuth path None (Some "PUT")
                (fun auth => {| params := None;
                                optHeaders := Some (headers auth);
                                optBody := body auth; method := Some "PUT" |})
                (fun _ => eq_refl) (fun _ => eq_refl))
      as (base' & new & Hb' & Hsent & Hlen & Hall).
    apply Hsame in Hb'. subst base'.
    exists new. split; [exact Hsent |]. split; [exact Hlen |].
    apply Hexact. exact Hall.
  - intros b.
    destruct (rest_pipeline_requests env
                (withHeap (heap s ++ [jsonHeaders]) s)
                (length (heap s)) b needAuth path None (Some "POST")
                (fun auth => {| params := None;
                                optHeaders := Some (headers auth);
                                optBody := body auth; method := Some "POST" |})
                (fun _ => eq_refl) (fun _ => eq_refl))
      as (base' & new & Hb' & Hsent & Hlen & Hall).
    apply Hsame in Hb'. subst base'.
    exists new. split; [exact Hsent |]. split; [exact Hlen |].
    apply Hexact. exact Hall.
Qed.

(** A wiki whose server is protocol-relative. *)
Example rest_request_protocol_relative :
  sent (snd (makeRestGetRequest "/v1/page/Rocq" None false
               (Samples.mkEnv
                  {| sitename := "Wiki"; server := "//wiki.example.org";
                     articlepath := "/wiki"; scriptpath := "/w";
                     restpath := None; token := Null; username := Null;
                     password := Null; private := None |}
                  Samples.noSession Samples.offline) Samples.start))
  = [{| reqUrl := "https://wiki.example.org/w/rest.php/v1/page/Rocq";
        reqHeaders := <["User-Agent" := JStr "mediawiki-mcp-server/0.1"]>
                        Samples.acceptJson;
        reqMethod := "GET"; reqBody := None |}].
Proof. vm_compute. reflexivity. Qed.

Lemma makeApiRequest_run (env : Env) (s : State) (target : string)
    (prms : option (gmap string string)) :
  let s0 := withHeap (heap s ++ [{[ "Accept" := JStr "application/json" ]}]) s in
  let opts := {| params := prms; optHeaders := Some (length (heap s));
                 optBody := None; method := None |} in
  makeApiRequest target prms env s
  = (match fst (fetchCore target opts env s0) with
     | Ok r => json r
     | Err e => Err e
     end,
     snd (fetchCore target opts env s0)).
Proof.
  intros s0 opts. subst s0 opts.
  cbv beta iota delta [makeApiRequest bind alloc await withHeap].
  match goal with
  | |- context [fetchCore ?a ?b ?c ?d] =>
      destruct (fetchCore a b c d) as [[r | e] s2]
  end; reflexivity.
Qed.

(** X20.  [makeApiRequest] never authenticates, whatever the wiki's token
    and [private] flag are: its one request is a GET with [Accept] and
    [User-Agent] only and no body, and the session is not looked at.  It
    returns the decoded JSON of a 2xx response and throws in every other
    case. *)
Theorem makeApiRequest_plain (env : Env) (s : State) (target : string)
    (prms : option (gmap string string)) :
  exists rq : Request,
    sent (snd (makeApiRequest target prms env s)) = (sent s ++ [rq])%list /\
    reqHeaders rq
    = ({[ "Accept" := JStr "application/json" ]} : Obj)
      ∪ {[ "User-Agent" := JStr (USER_AGENT env) ]} /\
    reqMethod rq = "GET" /\
    reqBody rq = None /\
    mwnCalls (snd (makeApiRequest target prms env s)) = mwnCalls s /\
    jarQueries (snd (makeApiRequest target prms env s)) = jarQueries s /\
    (forall v : JsValue,
       fst (makeApiRequest target prms env s) = Ok v ->
       exists r : Response,
         fetchOutcome env (length (sent s)) rq = Ok r /\
         (200 <= status r < 300)%N /\ json r = Ok v).
Proof.
  rewrite makeApiRequest_run. cbn [fst snd].
  set (s0 := withHeap (heap s ++ [{[ "Accept" := JStr "application/json" ]}]) s).
  set (opts := {| params := prms; optHeaders := Some (length (heap s));
                  optBody := None; method := None |}).
  destruct (fetchCore_sends env s0 target opts)
    as (rq & Hsent & Hmeth & Hhs & _ & _ & Hbody).
  destruct (fetchCore_state env s0 target opts)
    as (_ & _ & _ & Hcalls & Hjar).
  destruct (fetchCore_run env s0 target opts)
    as (rq' & _ & _ & _ & _ & Hrun).
  assert (rq' = rq) as ->.
  { rewrite Hrun in Hsent. cbn [snd sent] in Hsent.
    apply app_inv_head in Hsent. congruence. }
  exists rq. split; [exact Hsent |].
  split; [apply (Hhs (length (heap s))); [reflexivity | apply lookup_last] |].
  split; [exact Hmeth |]. split; [apply Hbody; reflexivity |].
  split; [exact Hcalls |]. split; [exact Hjar |].
  intros v. rewrite Hrun. cbn [fst sent s0 withHeap].
  destruct (fetchOutcome env (length (sent s)) rq) as [r | e]; [| discriminate].
  destruct (ok r) eqn:Hok; [| discriminate].
  intros Hv. exists r. split; [reflexivity |]. split; [| exact Hv].
  unfold ok in Hok. rewrite andb_true_iff, N.leb_le, N.ltb_lt in Hok. exact Hok.
Qed.

(** On a private wiki with a token, the Action API call still carries no
    credentials. *)
Example makeApiRequest_private_wiki :
  sent (snd (makeApiRequest "https://en.wikipedia.org/w/api.php" None
               (Samples.mkEnv
                  (Samples.asPrivate
                     (Samples.withToken "s3cret" Samples.wikipedia))
                  Samples.noSession Samples.offline) Samples.start))
  = [{| reqUrl := "https://en.wikipedia.org/w/api.php";
        reqHeaders := <["User-Agent" := JStr "mediawiki-mcp-server/0.1"]>
                        Samples.acceptJson;
        reqMethod := "GET"; reqBody := None |}].
Proof. vm_compute. reflexivity. Qed.

(** X21.  The two best-effort helpers send exactly one request each: a GET
    with the [User-Agent] header only and no body.  They never look at the
    session, so no credentials go out with them even for a private wiki. *)
Theorem helpers_send_plain_get (env : Env) (s : State) (target : string) :
  let rq := {| reqUrl := if String.prefix "//" target
                         then "https:" ++ target else target;
               reqHeaders := {[ "User-Agent" := JStr (USER_AGENT env) ]};
               reqMethod := "GET"; reqBody := None |} in
  (sent (snd (fetchPageHtml target env s)) = (sent s ++ [rq])%list /\
   mwnCalls (snd (fetchPageHtml target env s)) = mwnCalls s /\
   jarQueries (snd (fetchPageHtml target env s)) = jarQueries s) /\
  (sent (snd (fetchImageAsBase64 target env s)) = (sent s ++ [rq])%list /\
   mwnCalls (snd (fetchImageAsBase64 target env s)) = mwnCalls s /\
   jarQueries (snd (fetchImageAsBase64 target env s)) = jarQueries s).
Proof.
  intros rq. unfold fetchPageHtml, fetchImageAsBase64, tryCatch, bind.
  rewrite (fetchCore_plain env s target). fold rq.
  destruct (fetchOutcome env (length (sent s)) rq) as [r | e]; simpl;
    [| repeat split].
  destruct (ok r); simpl; [| repeat split].
  unfold await, ret.
  destruct (text r), (arrayBuffer r); repeat split.
Qed.

(** ** Page URLs and base64 *)

Lemma hexDigit_unreserved (n : N) : uriUnreserved (hexDigit n) = true.
Proof.
  unfold hexDigit. generalize (N.to_nat n) as k. intros k.
  do 16 (destruct k as [| k]; [vm_compute; reflexivity |]).
  reflexivity.
Qed.

Lemma hex_digits_value (o : N) :
  (o < 256)%N ->
  (hexValue (hexDigit (o / 16)) * 16 + hexValue (hexDigit (o mod 16)))%N = o.
Proof.
  intros Ho. rewrite <- (N_ascii_embedding o Ho).
  destruct (ascii_of_N o) as [[] [] [] [] [] [] [] []]; vm_compute; reflexivity.
Qed.

Lemma unescape_plain (c : N) (rest : string) :
  isUnreservedUnit c = true ->
  unescape (String (ascii_of_N c) rest) = c :: unescape rest.
Proof.
  unfold isUnreservedUnit. intros H. apply andb_true_iff in H as [Hlt Hc].
  apply N.ltb_lt in Hlt.
  assert (Hc256 : (c < 256)%N) by lia.
  rewrite <- (N_ascii_embedding c Hc256) at 2.
  destruct (ascii_of_N c) as [[] [] [] [] [] [] [] []];
    try reflexivity; vm_compute in Hc; discriminate Hc.
Qed.

Lemma unescape_escapeOctets (octets : list N) (rest : string) :
  Forall (fun o => (o < 256)%N) octets ->
  unescape (escapeOctets octets rest) = (octets ++ unescape rest)%list.
Proof.
  induction 1 as [| o octets Ho _ IH]; [reflexivity |].
  cbn [escapeOctets unescape app].
  change (unescape (String "%" (String (hexDigit (o / 16))
            (String (hexDigit (o mod 16)) (escapeOctets octets rest)))))
    with ((hexValue (hexDigit (o / 16)) * 16 + hexValue (hexDigit (o mod 16)))%N
            :: unescape (escapeOctets octets rest)).
  rewrite hex_digits_value by exact Ho. rewrite IH. reflexivity.
Qed.

(** Induction on a string as [encodeURIComponent] reads it: one unit, or
    the two of a pair, at a time. *)
Lemma units_ind2 (P : JsString -> Prop) :
  P [] ->
  (forall c rest,
     P rest -> (forall d rest', rest = d :: rest' -> P rest') -> P (c :: rest)) ->
  forall t, P t.
Proof.
  intros H0 Hstep t.
  enough (H : P t /\ (forall d rest', t = d :: rest' -> P rest')) by apply H.
  induction t as [| c rest [IH1 IH2]].
  - split; [exact H0 | intros d rest' H; discriminate H].
  - split; [apply Hstep; assumption |].
    intros d rest' H. injection H as _ <-. exact IH1.
Qed.

(** Six bits at a time. *)
Lemma sextets (x : N) :
  (x = x / 64 * 64 + x mod 64 /\ x mod 64 < 64 /\
   x / 64 = x / 4096 * 64 + x / 64 mod 64 /\ x / 64 mod 64 < 64 /\
   x / 4096 = x / 262144 * 64 + x / 4096 mod 64 /\ x / 4096 mod 64 < 64)%N.
Proof.
  assert (H64 : (64 : N) <> 0%N) by discriminate.
  assert (Hsplit : forall y : N, (y = y / 64 * 64 + y mod 64 /\ y mod 64 < 64)%N).
  { intros y. split; [| apply N.mod_lt; exact H64].
    rewrite N.mul_comm. apply N.div_mod. exact H64. }
  assert (H2 : (x / 4096 = x / 64 / 64)%N).
  { rewrite N.Div0.div_div. reflexivity. }
  assert (H3 : (x / 262144 = x / 4096 / 64)%N).
  { rewrite H2. rewrite !N.Div0.div_div. reflexivity. }
  destruct (Hsplit x) as (A1 & B1).
  destruct (Hsplit (x / 64)%N) as (A2 & B2).
  destruct (Hsplit (x / 4096)%N) as (A3 & B3).
  rewrite <- H2 in A2. rewrite <- H3 in A3.
  repeat split; assumption.
Qed.

(** Names for the sextets of [x], so that what is left is linear. *)
Ltac name_sextets x :=
  let A1 := fresh "A" in let B1 := fresh "B" in
  let A2 := fresh "A" in let B2 := fresh "B" in
  let A3 := fresh "A" in let B3 := fresh "B" in
  destruct (sextets x) as (A1 & B1 & A2 & B2 & A3 & B3);
  let m2 := fresh "m" in set (m2 := (x / 64 mod 64)%N) in *; clearbody m2;
  let m3 := fresh "m" in set (m3 := (x / 4096 mod 64)%N) in *; clearbody m3;
  let m1 := fresh "m" in set (m1 := (x mod 64)%N) in *; clearbody m1;
  let q3 := fresh "q" in set (q3 := (x / 262144)%N) in *; clearbody q3;
  let q2 := fresh "q" in set (q2 := (x / 4096)%N) in *; clearbody q2;
  let q1 := fresh "q" in set (q1 := (x / 64)%N) in *; clearbody q1.

Ltac decide_ltb b :=
  match b with
  | true => symmetry; apply N.ltb_lt; lia
  | false => symmetry; apply N.ltb_ge; lia
  end.

Lemma utf8_octets (cp : N) :
  (cp < 1114112)%N -> Forall (fun o => (o < 256)%N) (utf8 cp).
Proof.
  intros Hcp. unfold utf8. name_sextets cp.
  destruct (cp <? 128)%N eqn:H1.
  { apply N.ltb_lt in H1. repeat constructor. lia. }
  apply N.ltb_ge in H1.
  destruct (cp <? 2048)%N eqn:H2.
  { apply N.ltb_lt in H2. repeat constructor; lia. }
  apply N.ltb_ge in H2.
  destruct (cp <? 65536)%N eqn:H3.
  { apply N.ltb_lt in H3. repeat constructor; lia. }
  apply N.ltb_ge in H3. repeat constructor; lia.
Qed.

Lemma fromUTF8_single (c : N) (r : list N) :
  (c < 65536)%N -> isLeadSurrogate c = false -> isTrailSurrogate c = false ->
  fromUTF8 (utf8 c ++ r) = c :: fromUTF8 r.
Proof.
  intros Hc Hl Ht.
  assert (Hns : (c < 55296 \/ 57343 < c)%N).
  { unfold isLeadSurrogate, isTrailSurrogate in *.
    apply andb_false_iff in Hl, Ht.
    rewrite !N.leb_gt in Hl, Ht. lia. }
  clear Hl Ht. unfold utf8. name_sextets c.
  destruct (c <? 128)%N eqn:H1.
  { cbn [app fromUTF8]. rewrite H1. reflexivity. }
  apply N.ltb_ge in H1.
  destruct (c <? 2048)%N eqn:H2.
  { apply N.ltb_lt in H2. cbn [app fromUTF8].
    replace (192 + q1 <? 128)%N with false by decide_ltb false.
    replace (192 + q1 <? 224)%N with true by decide_ltb true.
    f_equal. lia. }
  apply N.ltb_ge in H2.
  replace (c <? 65536)%N with true by decide_ltb true.
  cbn [app fromUTF8].
  replace (224 + q0 <? 128)%N with false by decide_ltb false.
  replace (224 + q0 <? 224)%N with false by decide_ltb false.
  replace (224 + q0 <? 240)%N with true by decide_ltb true.
  f_equal. lia.
Qed.

Lemma surrogates_range (c d : N) :
  isLeadSurrogate c = true -> isTrailSurrogate d = true ->
  (55296 <= c <= 56319 /\ 56320 <= d <= 57343)%N.
Proof.
  unfold isLeadSurrogate, isTrailSurrogate. intros Hc Hd.
  apply andb_true_iff in Hc, Hd. rewrite !N.leb_le in Hc, Hd. lia.
Qed.

Lemma fromUTF8_pair (c d : N) (r : list N) :
  isLeadSurrogate c = true -> isTrailSurrogate d = true ->
  fromUTF8 (utf8 (pairToCodePoint c d) ++ r) = c :: d :: fromUTF8 r.
Proof.
  intros Hc Hd. destruct (surrogates_range c d Hc Hd) as [Hc' Hd'].
  clear Hc Hd. unfold pairToCodePoint.
  set (cp := ((c - 55296) * 1024 + (d - 56320) + 65536)%N).
  assert (Hcp : (65536 <= cp < 1114112)%N) by (unfold cp; lia).
  assert (Hhi : ((cp - 65536) / 1024 = c - 55296)%N).
  { unfold cp.
    replace ((c - 55296) * 1024 + (d - 56320) + 65536 - 65536)%N
      with ((d - 56320) + (c - 55296) * 1024)%N by lia.
    rewrite N.div_add by discriminate.
    rewrite N.div_small by lia. reflexivity. }
  assert (Hlo : ((cp - 65536) mod 1024 = d - 56320)%N).
  { unfold cp.
    replace ((c - 55296) * 1024 + (d - 56320) + 65536 - 65536)%N
      with ((d - 56320) + (c - 55296) * 1024)%N by lia.
    rewrite N.Div0.mod_add. apply N.mod_small. lia. }
  unfold utf8. name_sextets cp.
  replace (cp <? 128)%N with false by decide_ltb false.
  replace (cp <? 2048)%N with false by decide_ltb false.
  replace (cp <? 65536)%N with false by decide_ltb false.
  cbn [app fromUTF8].
  replace (240 + q <? 128)%N with false by decide_ltb false.
  replace (240 + q <? 224)%N with false by decide_ltb false.
  replace (240 + q <? 240)%N with false by decide_ltb false.
  cbv zeta.
  replace ((240 + q - 240) * 262144 + (128 + m0 - 128) * 4096
           + (128 + m - 128) * 64 + (128 + m1 - 128))%N
    with cp by lia.
  rewrite Hhi, Hlo. f_equal; [lia |]. f_equal. lia.
Qed.

Lemma pairToCodePoint_range (c d : N) :
  isLeadSurrogate c = true -> isTrailSurrogate d = true ->
  (pairToCodePoint c d < 1114112)%N.
Proof.
  intros Hc Hd. destruct (surrogates_range c d Hc Hd) as [Hc' Hd'].
  unfold pairToCodePoint. lia.
Qed.

Lemma unreserved_not_surrogate (c : N) :
  isUnreservedUnit c = true ->
  (c <? 128)%N = true /\ isLeadSurrogate c = false /\ isTrailSurrogate c = false.
Proof.
  unfold isUnreservedUnit, isLeadSurrogate, isTrailSurrogate. intros H.
  apply andb_true_iff in H as [Hlt _]. split; [exact Hlt |].
  apply N.ltb_lt in Hlt.
  split; apply andb_false_iff; left; apply N.leb_gt; lia.
Qed.

(** One step of [encodeURIComponent], case by case. *)
Lemma encodeURIComponent_step (c : N) (rest : JsString) :
  encodeURIComponent (c :: rest)
  = if isUnreservedUnit c then
      match encodeURIComponent rest with
      | Ok r => Ok (String (ascii_of_N c) r)
      | Err e => Err e
      end
    else if isTrailSurrogate c then Err URIError
    else if isLeadSurrogate c then
      match rest with
      | d :: rest' =>
          if isTrailSurrogate d then
            match encodeURIComponent rest' with
            | Ok r => Ok (escapeOctets (utf8 (pairToCodePoint c d)) r)
            | Err e => Err e
            end
          else Err URIError
      | [] => Err URIError
      end
    else
      match encodeURIComponent rest with
      | Ok r => Ok (escapeOctets (utf8 c) r)
      | Err e => Err e
      end.
Proof. destruct rest; reflexivity. Qed.

Lemma isWellFormed_step (c : N) (rest : JsString) :
  isWellFormed (c :: rest)
  = if isTrailSurrogate c then false
    else if isLeadSurrogate c then
      match rest with
      | d :: rest' => isTrailSurrogate d && isWellFormed rest'
      | [] => false
      end
    else isWellFormed rest.
Proof. destruct rest; reflexivity. Qed.

(** [encodeURIComponent] throws on the strings that are not well formed, and
    on no other. *)
Lemma encodeURIComponent_outcome (t : JsString) :
  if isWellFormed t then exists e, encodeURIComponent t = Ok e
  else encodeURIComponent t = Err URIError.
Proof.
  induction t as [| c rest IH1 IH2] using units_ind2.
  { exists "". reflexivity. }
  rewrite encodeURIComponent_step, isWellFormed_step.
  destruct (isUnreservedUnit c) eqn:Hu.
  { destruct (unreserved_not_surrogate c Hu) as (_ & -> & ->).
    destruct (isWellFormed rest).
    - destruct IH1 as [e ->]. eexists. reflexivity.
    - rewrite IH1. reflexivity. }
  destruct (isTrailSurrogate c); [reflexivity |].
  destruct (isLeadSurrogate c).
  { destruct rest as [| d rest']; [reflexivity |].
    destruct (isTrailSurrogate d); [| reflexivity].
    specialize (IH2 d rest' eq_refl). cbn [andb].
    destruct (isWellFormed rest').
    - destruct IH2 as [e ->]. eexists. reflexivity.
    - rewrite IH2. reflexivity. }
  destruct (isWellFormed rest).
  - destruct IH1 as [e ->]. eexists. reflexivity.
  - rewrite IH1. reflexivity.
Qed.

Lemma escapeOctets_safe (octets : list N) (rest : string) :
  Forall uriSafeChar (chars rest) ->
  Forall uriSafeChar (chars (escapeOctets octets rest)).
Proof.
  intros Hrest. induction octets as [| o octets IH]; [exact Hrest |].
  cbn [escapeOctets].
  constructor; [right; reflexivity |].
  constructor; [left; apply hexDigit_unreserved |].
  constructor; [left; apply hexDigit_unreserved | exact IH].
Qed.

Lemma encodeURIComponent_safe (t : JsString) (e : string) :
  encodeURIComponent t = Ok e -> Forall uriSafeChar (chars e).
Proof.
  revert e. induction t as [| c rest IH1 IH2] using units_ind2; intros e.
  { intros [= <-]. constructor. }
  rewrite encodeURIComponent_step.
  destruct (isUnreservedUnit c) eqn:Hu.
  { destruct (encodeURIComponent rest) as [r |]; [| discriminate].
    intros [= <-]. constructor; [left | apply IH1; reflexivity].
    apply andb_true_iff in Hu. apply Hu. }
  destruct (isTrailSurrogate c); [discriminate |].
  destruct (isLeadSurrogate c).
  { destruct rest as [| d rest']; [discriminate |].
    destruct (isTrailSurrogate d); [| discriminate].
    destruct (encodeURIComponent rest') as [r |] eqn:Hr; [| discriminate].
    intros [= <-]. apply escapeOctets_safe. exact (IH2 d rest' eq_refl r Hr). }
  destruct (encodeURIComponent rest) as [r |]; [| discriminate].
  intros [= <-]. apply escapeOctets_safe. apply IH1. reflexivity.
Qed.

(** Unescaping and decoding UTF-8 gives the title back. *)
Lemma encodeURIComponent_decodes (t : JsString) (e : string) :
  codeUnits t -> encodeURIComponent t = Ok e -> fromUTF8 (unescape e) = t.
Proof.
  revert e. induction t as [| c rest IH1 IH2] using units_ind2; intros e Hu.
  { intros [= <-]. reflexivity. }
  apply Forall_cons in Hu as [Hc Hrest].
  rewrite encodeURIComponent_step.
  destruct (isUnreservedUnit c) eqn:Hun.
  { destruct (encodeURIComponent rest) as [r |]; [| discriminate].
    intros [= <-]. rewrite unescape_plain by exact Hun.
    destruct (unreserved_not_surrogate c Hun) as (Hlt & _ & _).
    cbn [fromUTF8]. rewrite Hlt. f_equal. apply IH1; [exact Hrest | reflexivity]. }
  destruct (isTrailSurrogate c) eqn:Ht; [discriminate |].
  destruct (isLeadSurrogate c) eqn:Hl.
  { destruct rest as [| d rest']; [discriminate |].
    destruct (isTrailSurrogate d) eqn:Hd; [| discriminate].
    destruct (encodeURIComponent rest') as [r |] eqn:Hr; [| discriminate].
    intros [= <-]. apply Forall_cons in Hrest as [_ Hrest'].
    rewrite unescape_escapeOctets
      by (apply utf8_octets, pairToCodePoint_range; assumption).
    rewrite fromUTF8_pair by assumption.
    do 2 f_equal. exact (IH2 d rest' eq_refl r Hrest' Hr). }
  destruct (encodeURIComponent rest) as [r |]; [| discriminate].
  intros [= <-].
  rewrite unescape_escapeOctets by (apply utf8_octets; lia).
  rewrite fromUTF8_single by assumption.
  f_equal. apply IH1; [exact Hrest | reflexivity].
Qed.

(** X22.  On a title that is not well formed (one with a lone surrogate)
    [getPageUrl] throws the [URIError] of [encodeURIComponent].  On every
    other title it returns [server + articlepath + "/"] followed by the
    escaped title, which holds only letters, digits, [- _ . ! ~ * ' ( )]
    and [%]: no space, [/], [?], [#] or [&] of a title reaches the URL.
    A title that gives the same URL as a well-formed one is that title.
    The state is left as it was either way. *)
Theorem getPageUrl_escapes (env : Env) (s : State) (title : JsString) :
  (isWellFormed title = false ->
   getPageUrl title env s = (Err URIError, s)) /\
  (isWellFormed title = true ->
   exists escaped : string,
     getPageUrl title env s
     = (Ok (server (currentConfig env) ++ articlepath (currentConfig env)
            ++ "/" ++ escaped), s) /\
     Forall uriSafeChar (chars escaped) /\
     (forall c : ascii,
        In c (chars " /?#&") -> ~ In c (chars escaped)) /\
     (forall title' : JsString,
        codeUnits title -> codeUnits title' ->
        fst (getPageUrl title' env s) = fst (getPageUrl title env s) ->
        title' = title)).
Proof.
  pose proof (encodeURIComponent_outcome title) as Hout.
  split; intros Hwf; rewrite Hwf in Hout.
  { unfold getPageUrl, bind, ask. rewrite Hout. reflexivity. }
  destruct Hout as [escaped Henc]. exists escaped.
  assert (Hrun : forall t e, encodeURIComponent t = Ok e ->
            getPageUrl t env s
            = (Ok (server (currentConfig env) ++ articlepath (currentConfig env)
                   ++ "/" ++ e), s)).
  { intros t e He. unfold getPageUrl, bind, ask. rewrite He. reflexivity. }
  split; [exact (Hrun title escaped Henc) |].
  pose proof (encodeURIComponent_safe title escaped Henc) as Hsafe.
  split; [exact Hsafe |]. split.
  - intros c Hc Hin.
    rewrite Forall_forall in Hsafe. specialize (Hsafe c).
    rewrite list_elem_of_In in Hsafe. specialize (Hsafe Hin).
    simpl in Hc.
    destruct Hc as [<- | [<- | [<- | [<- | [<- | []]]]]];
      destruct Hsafe as [H | H]; vm_compute in H; discriminate H.
  - intros title' Hu Hu' Heq.
    rewrite (Hrun title escaped Henc) in Heq.
    destruct (encodeURIComponent title') as [e' |] eqn:Henc'.
    + rewrite (Hrun title' e' Henc') in Heq.
      simpl in Heq. injection Heq as Heq.
      apply String.app_inj in Heq. apply String.app_inj in Heq.
      apply (String.app_inj "/") in Heq. subst e'.
      rewrite <- (encodeURIComponent_decodes title' escaped Hu' Henc').
      exact (encodeURIComponent_decodes title escaped Hu Henc).
    + unfold getPageUrl, bind, ask, throw in Heq. rewrite Henc' in Heq.
      discriminate Heq.
Qed.

Example getPageUrl_albert_einstein :
  fst (getPageUrl (units "Albert Einstein")
         (Samples.mkEnv Samples.wikipedia Samples.noSession Samples.offline)
         Samples.start)
  = Ok "https://en.wikipedia.org/wiki/Albert%20Einstein".
Proof. reflexivity. Qed.

Example getPageUrl_reserved_characters :
  fst (getPageUrl (units "AC/DC (band)?")
         (Samples.mkEnv Samples.wikipedia Samples.noSession Samples.offline)
         Samples.start)
  = Ok "https://en.wikipedia.org/wiki/AC%2FDC%20(band)%3F".
Proof. reflexivity. Qed.

(** [Caf\u00E9 \u20AC \uD83D\uDE00]: two, three and four octets. *)
Example getPageUrl_beyond_ascii :
  fst (getPageUrl (units "Caf" ++ [233; 32; 8364; 32; 55357; 56832]%N)%list
         (Samples.mkEnv Samples.wikipedia Samples.noSession Samples.offline)
         Samples.start)
  = Ok "https://en.wikipedia.org/wiki/Caf%C3%A9%20%E2%82%AC%20%F0%9F%98%80".
Proof. reflexivity. Qed.

(** A leading surrogate with nothing after it, a trailing one on its own,
    and a pair the wrong way round. *)
Example getPageUrl_lone_surrogate :
  let env := Samples.mkEnv Samples.wikipedia Samples.noSession Samples.offline in
  getPageUrl [55296%N] env Samples.start = (Err URIError, Samples.start) /\
  getPageUrl (units "a" ++ [56320%N] ++ units "b")%list env Samples.start
  = (Err URIError, Samples.start) /\
  getPageUrl [56832; 55357]%N env Samples.start
  = (Err URIError, Samples.start).
Proof. repeat split. Qed.

(** Induction three bytes at a time, as [toBase64] recurses. *)
Lemma bytes_ind3 (P : list byte -> Prop) :
  P [] -> (forall a, P [a]) -> (forall a b, P [a; b]) ->
  (forall a b c rest, P rest -> P (a :: b :: c :: rest)) ->
  forall bytes, P bytes.
Proof.
  intros H0 H1 H2 H3.
  assert (Hall : forall (n : nat) (bytes : list byte),
            length bytes <= n -> P bytes).
  { induction n as [| n IH]; intros bytes Hlen.
    - destruct bytes; [exact H0 | simpl in Hlen; lia].
    - destruct bytes as [| a [| b [| c rest]]]; auto.
      apply H3. apply IH. simpl in Hlen. lia. }
  intros bytes. apply (Hall (length bytes)). lia.
Qed.

Lemma base64Digit_char (n : N) : base64Char (base64Digit n).
Proof.
  unfold base64Digit, base64Char.
  destruct (String.get (N.to_nat n) base64Alphabet) as [c |] eqn:Hget;
    [left | right; reflexivity].
  assert (Hgen : forall (s : string) (i : nat) (x : ascii),
            String.get i s = Some x -> In x (chars s)).
  { induction s as [| y s IH]; intros i x Hx; [discriminate |].
    destruct i as [| i]; simpl in Hx.
    - injection Hx as ->. left. reflexivity.
    - right. exact (IH i x Hx). }
  exact (Hgen _ _ _ Hget).
Qed.

(** X23.  The base64 text of [n] bytes has [4 * ceil(n / 3)] characters,
    all of them from the base64 alphabet or the padding [=]; so has every
    string [fetchImageAsBase64] returns. *)
Theorem toBase64_shape (bytes : list byte) :
  String.length (toBase64 bytes) = 4 * ((length bytes + 2) / 3) /\
  Forall base64Char (chars (toBase64 bytes)) /\
  (forall (env : Env) (s : State) (target payload : string),
     fst (fetchImageAsBase64 target env s) = Ok (Some payload) ->
     exists (rq : Request) (r : Response) (body : list byte),
       sent (snd (fetchImageAsBase64 target env s)) = (sent s ++ [rq])%list /\
       fetchOutcome env (length (sent s)) rq = Ok r /\
       arrayBuffer r = Ok body /\ payload = toBase64 body /\
       String.length payload = 4 * ((length body + 2) / 3)).
Proof.
  assert (Hlen : forall bs : list byte,
            String.length (toBase64 bs) = 4 * ((length bs + 2) / 3)).
  { induction bs as [| a | a b | a b c rest IH] using bytes_ind3;
      try reflexivity.
    cbn [toBase64 String.length length]. rewrite IH.
    replace (S (S (S (length rest))) + 2) with (length rest + 2 + 1 * 3)
      by lia.
    rewrite Nat.div_add by lia. lia. }
  split; [apply Hlen |]. split.
  - induction bytes as [| a | a b | a b c rest IH] using bytes_ind3.
    + constructor.
    + cbn [toBase64 chars list_ascii_of_string].
      repeat (constructor; [first [apply base64Digit_char
                                  | right; reflexivity] |]).
      constructor.
    + cbn [toBase64 chars list_ascii_of_string].
      repeat (constructor; [first [apply base64Digit_char
                                  | right; reflexivity] |]).
      constructor.
    + cbn [toBase64 chars list_ascii_of_string].
      repeat (constructor; [apply base64Digit_char |]).
      exact IH.
  - intros env s target payload H.
    unfold fetchImageAsBase64, tryCatch, bind in *.
    rewrite (fetchCore_plain env s target) in *.
    match goal with
    | |- context [fetchOutcome env ?n ?q] =>
        exists q; destruct (fetchOutcome env n q) as [r | e] eqn:Hr
    end; simpl in *; [| discriminate].
    destruct (ok r); simpl in *; [| discriminate].
    unfold await, ret in *.
    destruct (arrayBuffer r) as [body | e] eqn:Hbody; simpl in *;
      [| discriminate].
    injection H as <-. exists r, body.
    split; [reflexivity |]. split; [reflexivity |]. split; [exact Hbody |].
    split; [reflexivity | apply Hlen].
Qed.

(** ** What a REST entry point returns *)

Lemma rest_pipeline_value (env : Env) (s : State) (hdrs : Ref)
    (bdy : option Ref) (needAuth : bool) (path : string)
    (opts : RequestConfig -> FetchOptions) (v : JsValue) :
  fst ((auth <- withAuth hdrs bdy needAuth ;;
        base <- getRestApiBase ;;
        response <- fetchCore (base ++ path) (opts auth) ;;
        await (json response)) env s) = Ok v ->
  exists (rq : Request) (r : Response),
    sent (snd ((auth <- withAuth hdrs bdy needAuth ;;
                base <- getRestApiBase ;;
                response <- fetchCore (base ++ path) (opts auth) ;;
                await (json response)) env s)) = (sent s ++ [rq])%list /\
    fetchOutcome env (length (sent s)) rq = Ok r /\
    (200 <= status r < 300)%N /\
    json r = Ok v.
Proof.
  pose proof (withAuth_counts env s hdrs bdy needAuth) as (Hsent & _).
  destruct (withAuth hdrs bdy needAuth env s) as [[rc | e] s1] eqn:Hauth.
  - destruct (rest_pipeline_run env s s1 hdrs bdy needAuth path opts rc Hauth)
      as (base & _ & ->).
    cbn [fst snd] in *.
    destruct (fetchCore_run env s1 (base ++ path) (opts rc))
      as (rq & _ & _ & _ & _ & ->).
    cbn [fst snd sent]. rewrite Hsent.
    destruct (fetchOutcome env (length (sent s)) rq) as [r | e] eqn:Hr;
      [| discriminate].
    destruct (ok r) eqn:Hok; [| discriminate].
    intros Hv. exists rq, r. split; [reflexivity |]. split; [exact Hr |].
    split; [| exact Hv].
    unfold ok in Hok. rewrite andb_true_iff, N.leb_le, N.ltb_lt in Hok.
    exact Hok.
  - unfold bind at 1. rewrite Hauth. discriminate.
Qed.

(** X24.  A REST entry point returns a value only out of a response whose
    status is in 200..299: the value is the decoded JSON of the response to
    the one request the call sent. *)
Theorem rest_value_from_2xx (env : Env) (s : State) (path : string)
    (needAuth : bool) (v : JsValue) (out : Result JsValue * State) :
  (exists prms, out = makeRestGetRequest path prms needAuth env s) \/
  (exists b, out = makeRestPutRequest path b needAuth env s) \/
  (exists b, out = makeRestPostRequest path b needAuth env s) ->
  fst out = Ok v ->
  exists (rq : Request) (r : Response),
    sent (snd out) = (sent s ++ [rq])%list /\
    fetchOutcome env (length (sent s)) rq = Ok r /\
    (200 <= status r < 300)%N /\
    json r = Ok v.
Proof.
  intros [(prms & ->) | [(b & ->) | (b & ->)]].
  - apply (rest_pipeline_value env
             (withHeap (heap s ++ [{[ "Accept" := JStr "application/json" ]}]) s)
             (length (heap s)) None needAuth path
             (fun auth => {| params := prms; optHeaders := Some (headers auth);
                             optBody := None; method := None |}) v).
  - apply (rest_pipeline_value env (withHeap (heap s ++ [jsonHeaders]) s)
             (length (heap s)) (Some b) needAuth path
             (fun auth => {| params := None; optHeaders := Some (headers auth);
                             optBody := body auth; method := Some "PUT" |}) v).
  - apply (rest_pipeline_value env (withHeap (heap s ++ [jsonHeaders]) s)
             (length (heap s)) b needAuth path
             (fun auth => {| params := None; optHeaders := Some (headers auth);
                             optBody := body auth; method := Some "POST" |}) v).
Qed.

Lemma rest_value_from_2xx_witness :
  exists (rq : Request) (r : Response),
    sent (snd (makeRestGetRequest "/v1/page/Rocq" None false
                 (Samples.mkEnv Samples.wikipedia Samples.noSession
                    (Samples.serving "")) Samples.start)) = [rq] /\
    fetchOutcome
      (Samples.mkEnv Samples.wikipedia Samples.noSession (Samples.serving ""))
      0 rq = Ok r /\
    (200 <= status r < 300)%N /\
    json r = Ok JNull.
Proof.
  apply (rest_value_from_2xx
           (Samples.mkEnv Samples.wikipedia Samples.noSession
              (Samples.serving "")) Samples.start "/v1/page/Rocq" false JNull
           (makeRestGetRequest "/v1/page/Rocq" None false
              (Samples.mkEnv Samples.wikipedia Samples.noSession
                 (Samples.serving "")) Samples.start)).
  - left. exists None. reflexivity.
  - reflexivity.
Defined.

Lemma withAuth_no_cookie_run (env : Env) (s : State) (hdrs : Ref)
    (bdy : option Ref) (needAuth : bool) :
  needAuth = true \/ private (currentConfig env) = Some true ->
  (forall t : string, token (currentConfig env) <> Value t) ->
  fst (getCookiesFromJar env s) = Ok None ->
  withAuth hdrs bdy needAuth env s
  = (Ok {| headers := hdrs; body := bdy |}, snd (getCookiesFromJar env s)).
Proof.
  intros Hmust Htok Hnone.
  rewrite (withAuth_cookie_path env s hdrs bdy needAuth Hmust Htok).
  unfold bind at 1.
  destruct (getCookiesFromJar env s) as [r s1]. simpl in *. subst r.
  reflexivity.
Qed.

(** X25.  When authentication is mandatory but the session offers no
    cookie, a PUT is sent all the same, as an anonymous request: the JSON
    headers and [User-Agent] only, and the caller's body without a [token]
    field. *)
Theorem makeRestPutRequest_without_cookie (env : Env) (s : State)
    (path : string) (b : Ref) (o : Obj) (needAuth : bool) :
  needAuth = true \/ private (currentConfig env) = Some true ->
  (forall t : string, token (currentConfig env) <> Value t) ->
  fst (getCookiesFromJar env s) = Ok None ->
  heap s !! b = Some o ->
  exists rq : Request,
    sent (snd (makeRestPutRequest path b needAuth env s))
    = (sent s ++ [rq])%list /\
    reqMethod rq = "PUT" /\
    reqHeaders rq
    = jsonHeaders ∪ {[ "User-Agent" := JStr (USER_AGENT env) ]} /\
    reqBody rq = Some (JSON_stringify env o).
Proof.
  intros Hmust Htok Hnone Hb.
  set (s0 := withHeap (heap s ++ [jsonHeaders]) s).
  assert (Hnone0 : fst (getCookiesFromJar env s0) = Ok None).
  { unfold s0. rewrite getCookiesFromJar_withHeap. exact Hnone. }
  pose proof (withAuth_no_cookie_run env s0 (length (heap s)) (Some b) needAuth
                Hmust Htok Hnone0) as Hauth.
  pose proof (getCookiesFromJar_frame env s0) as (Hheap & _ & Hsent0).
  set (s1 := snd (getCookiesFromJar env s0)) in *.
  set (opts := fun auth : RequestConfig =>
                 {| params := None; optHeaders := Some (headers auth);
                    optBody := body auth; method := Some "PUT" |}).
  destruct (rest_pipeline_run env s0 s1 (length (heap s)) (Some b) needAuth
              path opts _ Hauth) as (base & _ & Hrun).
  change (makeRestPutRequest path b needAuth env s
          = (match fst (fetchCore (base ++ path)
                          (opts {| headers := length (heap s);
                                   body := Some b |}) env s1) with
             | Ok r => json r
             | Err e => Err e
             end,
             snd (fetchCore (base ++ path)
                    (opts {| headers := length (heap s); body := Some b |})
                    env s1))) in Hrun.
  rewrite Hrun. cbn [snd].
  destruct (fetchCore_sends env s1 (base ++ path)
              (opts {| headers := length (heap s); body := Some b |}))
    as (rq & Hsent & Hmeth & Hhs & _ & Hbody & _).
  exists rq. split; [rewrite Hsent, Hsent0; reflexivity |].
  split; [exact Hmeth |]. split.
  - apply (Hhs (length (heap s))); [reflexivity |].
    rewrite Hheap. apply lookup_last.
  - apply (Hbody b); [reflexivity |]. rewrite Hheap. cbn [s0 withHeap heap].
    rewrite lookup_app_l by (eapply lookup_lt_Some; eauto). exact Hb.
Qed.

Lemma makeRestPutRequest_without_cookie_witness :
  exists rq : Request,
    sent (snd (makeRestPutRequest "/v1/page/Rocq" 1 true
                 (Samples.mkEnv Samples.wikipedia (Ok Samples.noJar)
                    Samples.offline) Samples.start)) = [rq] /\
    reqHeaders rq !! "Cookie" = None /\
    reqBody rq = Some "{}".
Proof.
  destruct (makeRestPutRequest_without_cookie
              (Samples.mkEnv Samples.wikipedia (Ok Samples.noJar)
                 Samples.offline) Samples.start "/v1/page/Rocq" 1
              Samples.editBody true (or_introl eq_refl)
              (fun t Ht => ltac:(discriminate Ht)) eq_refl eq_refl)
    as (rq & Hsent & _ & Hhs & Hbody).
  exists rq. split; [exact Hsent |]. split.
  - rewrite Hhs. vm_compute. reflexivity.
  - rewrite Hbody. vm_compute. reflexivity.
Defined.
